(** * TG_WebApp: the browser scripts of the location monitor

    A shallow embedding of the three browser scripts of the repository
    and of the freshness rule they consume:

    - [GeoWatch]  : the device reporting script (the [__geoWatch] closure
                    with [send], [startWatch], [stopWatch]);
    - [Manager]   : the list dashboard ([fetchEmployees], [renderList],
                    [applyFilters], [refresh]);
    - [OnlineMap] : the map dashboard ([loadEmployees], [showTrack],
                    [window.onload]);
    - [Freshness] : the status rule of the roster, whose code is served
                    by the back end.

    Scripts run in a state-and-exception monad over the page they live
    in.  An [await] is sequenced like a call, so a handler is modelled
    as running from its call to its end with no other handler of the
    page in between.  [showTrack] reads and changes the map after its
    awaits; that part is a definition of its own, [showTrack_draw], and
    what is proved of it holds on every page it may find when it
    resumes.

    The body of a roster answer parses to an array, whose elements
    then have the fields the contract gives them, or to a value that
    is no array, on which the scripts throw; the body of a track
    answer is typed by its contract. *)

From Stdlib Require Import ZArith String Ascii List Lia QArith DecimalString.
From Stdlib Require DecimalZ DecimalPos.
From stdpp Require Import base option list gmap strings.

Open Scope string_scope.
Open Scope list_scope.
Open Scope Z_scope.

Set Warnings "-clear-no-such-hyp".

(** ** Exceptions, outcomes and the script monad *)

Inductive exn : Type :=
| NetworkError            (* fetch rejected: no network, DNS, CORS ... *)
| SyntaxError             (* JSON.parse failure inside res.json() *)
| TypeError (msg : string).

Inductive outcome (A : Type) : Type :=
| Returned (a : A)
| Thrown (e : exn).
Arguments Returned {A} a.
Arguments Thrown {A} e.

Definition M (St A : Type) : Type := St -> outcome A * St.

Definition ret {St A} (a : A) : M St A := fun s => (Returned a, s).

Definition bind {St A B} (c : M St A) (k : A -> M St B) : M St B :=
  fun s =>
    match c s with
    | (Returned a, s') => k a s'
    | (Thrown e, s') => (Thrown e, s')
    end.

Definition throw {St A} (e : exn) : M St A := fun s => (Thrown e, s).

(** [try { c } catch (e) { h e }] *)
Definition try_catch {St A} (c : M St A) (h : exn -> M St A) : M St A :=
  fun s =>
    match c s with
    | (Returned a, s') => (Returned a, s')
    | (Thrown e, s') => h e s'
    end.

Definition gets {St A} (f : St -> A) : M St A := fun s => (Returned (f s), s).
Definition modify {St} (f : St -> St) : M St unit := fun s => (Returned tt, f s).

Notation "x <- c ;; k" := (bind c (fun x => k))
  (at level 100, c at next level, right associativity).
Notation "c ;;; k" := (bind c (fun _ => k))
  (at level 100, right associativity).

(** ** The host: numbers and strings of the JavaScript engine

    Numbers are IEEE doubles and their printing is the engine's; the
    scripts only pass them around, print them and compare one against
    zero.  The interface names what the scripts call; the three laws are
    the facts about the number 0 that ECMAScript fixes. *)

Class JsNumber : Type := {
  num : Type;
  num_of_Z : Z -> num;                     (* an integer literal *)
  num_mul : num -> num -> num;             (* a * b *)
  num_truthy : num -> bool;                (* ToBoolean: false on 0, -0, NaN *)
  num_to_string : num -> string;           (* String(n), template conversion *)
  num_toFixed : num -> Z -> string;        (* n.toFixed(d) *)
  Math_round : num -> num;
  toLocaleTimeString : num -> string;      (* new Date(ms).toLocaleTimeString() *)
  zero_falsy : num_truthy (num_of_Z 0) = false;
  round_zero : Math_round (num_of_Z 0) = num_of_Z 0;
  zero_to_string : num_to_string (num_of_Z 0) = "0"
}.

(** [String.prototype.toLowerCase] follows the Unicode case tables; all
    that is fixed here is that the empty string has no letter to map. *)
Class JsString : Type := {
  toLowerCase : string -> string;
  toLowerCase_empty : toLowerCase "" = ""
}.

(** The loosely typed values the scripts test with [typeof]. *)
Inductive value `{JsNumber} : Type :=
| VUndefined
| VNull
| VBool (b : bool)
| VNum (n : num)
| VStr (s : string).

Definition typeof `{JsNumber} (v : value) : string :=
  match v with
  | VUndefined => "undefined"
  | VNull => "object"
  | VBool _ => "boolean"
  | VNum _ => "number"
  | VStr _ => "string"
  end.

(** [String(v)] *)
Definition String_of `{JsNumber} (v : value) : string :=
  match v with
  | VUndefined => "undefined"
  | VNull => "null"
  | VBool true => "true"
  | VBool false => "false"
  | VNum n => num_to_string n
  | VStr s => s
  end.

(** ** HTTP as the scripts see it *)

Inductive http_method : Type := GET | POST | DELETE.

Global Instance http_method_eq_dec : EqDecision http_method.
Proof. solve_decision. Defined.

(** A [FormData]: the entries in the order they were appended. *)
Definition FormData : Type := list (string * string).

(** The second argument of [fetch]; a field left out of the object
    literal is [None]. *)
Record fetch_init : Type := {
  init_method : option http_method;
  init_body : option FormData;
  init_credentials : option string
}.

Definition no_init : fetch_init :=
  {| init_method := None; init_body := None; init_credentials := None |}.

Record request : Type := {
  url : string;
  init : fetch_init
}.

(** fetch's default method *)
Definition request_method (r : request) : http_method :=
  default GET (init_method (init r)).

Definition request_fields (r : request) : list string :=
  match init_body (init r) with
  | Some form => fst <$> form
  | None => []
  end.

(** What a [fetch] promise settles to; [json] is what [res.json()]
    settles to, with the payload typed by the endpoint's contract. *)
Record response (J : Type) : Type := {
  ok : bool;
  status : Z;
  json : outcome J
}.
Arguments ok {J} r.
Arguments status {J} r.
Arguments json {J} r.

Inductive fetch_result (J : Type) : Type :=
| Rejected (e : exn)
| Resolved (r : response J).
Arguments Rejected {J} e.
Arguments Resolved {J} r.

(** ** Bodies that are not what an endpoint promises

    [res.json()] gives whatever the body parses to.  The roster
    endpoint promises an array; what the scripts do with another value
    depends only on whether it is [null] or a value without the
    methods of arrays (an object, a number, a string, a boolean). *)

Inductive non_array : Type :=
| JNull
| JOther.

(** What a body may parse to where an array of [A] is promised: such
    an array, its elements typed as the contract has them, or a value
    that is no array. *)
Inductive parsed (A : Type) : Type :=
| Array_of (data : list A)
| Not_array (v : non_array).
Arguments Array_of {A} data.
Arguments Not_array {A} v.

(** the TypeError of [receiver.method(...)] on a value that is no array *)
Definition no_method (v : non_array) (receiver method : string) : exn :=
  match v with
  | JNull => TypeError ("Cannot read properties of null (reading '" +:+ method +:+ "')")
  | JOther => TypeError (receiver +:+ "." +:+ method +:+ " is not a function")
  end.

(** ** Traces *)

(** Any two entries of the list, in list order, are at least [d] apart. *)
Fixpoint spaced (d : Z) (l : list Z) : Prop :=
  match l with
  | [] => True
  | t :: l' => Forall (fun t' => d <= t' - t) l' /\ spaced d l'
  end.

(** ** The device reporting script *)

Module GeoWatch.
Section Script.
Context `{JsNumber}.

Record coordinates : Type := {
  latitude : value;
  longitude : value;
  accuracy : value
}.

(** the object literal [{}] *)
Definition no_coordinates : coordinates :=
  {| latitude := VUndefined; longitude := VUndefined; accuracy := VUndefined |}.

Record geoposition : Type := { coords : option coordinates }.

(** [navigator.geolocation]: the ids it handed out and the watches
    that are registered. *)
Record geolocation : Type := {
  next_watch : Z;
  watches : list Z
}.

(** The page: the closure's two variables, the browser objects the
    closure reaches, the clock [Date.now()] reads, the requests that
    left the page (stamped with the clock) and the rejections nobody
    handled. *)
Record page : Type := {
  watchId : option Z;
  lastSent : Z;
  geo : option geolocation;
  clock : Z;
  sent : list (Z * request);
  unhandled : list exn
}.

Definition set_watchId (w : option Z) (p : page) : page :=
  {| watchId := w; lastSent := lastSent p; geo := geo p; clock := clock p;
     sent := sent p; unhandled := unhandled p |}.
Definition set_lastSent (t : Z) (p : page) : page :=
  {| watchId := watchId p; lastSent := t; geo := geo p; clock := clock p;
     sent := sent p; unhandled := unhandled p |}.
Definition set_geo (g : option geolocation) (p : page) : page :=
  {| watchId := watchId p; lastSent := lastSent p; geo := g; clock := clock p;
     sent := sent p; unhandled := unhandled p |}.
Definition set_clock (t : Z) (p : page) : page :=
  {| watchId := watchId p; lastSent := lastSent p; geo := geo p; clock := t;
     sent := sent p; unhandled := unhandled p |}.
Definition log_request (r : request) (p : page) : page :=
  {| watchId := watchId p; lastSent := lastSent p; geo := geo p; clock := clock p;
     sent := sent p ++ [(clock p, r)]; unhandled := unhandled p |}.
Definition log_unhandled (e : exn) (p : page) : page :=
  {| watchId := watchId p; lastSent := lastSent p; geo := geo p; clock := clock p;
     sent := sent p; unhandled := unhandled p ++ [e] |}.

(** The network: how the request is answered, given everything the
    page sent before. *)
Variable net : list (Z * request) -> request -> fetch_result unit.

(** [await fetch(url, init)] *)
Definition fetch (u : string) (i : fetch_init) : M page (response unit) :=
  let r := {| url := u; init := i |} in
  before <- gets sent ;;
  modify (log_request r) ;;;
  match net before r with
  | Rejected e => throw e
  | Resolved resp => ret resp
  end.

Definition Date_now : M page Z := gets clock.

(** [form.append(k, v)] on the form under construction *)
Definition append (form : FormData) (k v : string) : FormData := form ++ [(k, v)].

Definition send (lat lon acc : value) : M page unit :=
  try_catch
    (let form : FormData := [] in
     let form := append form "lat" (String_of lat) in
     let form := append form "lon" (String_of lon) in
     let form := if decide (typeof acc = "number")
                 then append form "acc" (String_of acc) else form in
     fetch "/api/geo/ping"
           {| init_method := Some POST; init_body := Some form;
              init_credentials := Some "same-origin" |} ;;;
     ret tt)
    (fun e => ret tt).

(** A call of an async function that is not awaited: the caller goes
    on; a rejection would be reported by the browser as unhandled. *)
Definition call_async (c : M page unit) : M page unit :=
  fun p =>
    match c p with
    | (Returned _, p') => (Returned tt, p')
    | (Thrown e, p') => (Returned tt, log_unhandled e p')
    end.

(** the success callback given to [watchPosition] *)
Definition onPosition (pos : geoposition) : M page unit :=
  let coords := default no_coordinates (coords pos) in
  now <- Date_now ;;
  last <- gets lastSent ;;
  if (now - last <? 10000)%Z then ret tt
  else
    modify (set_lastSent now) ;;;
    call_async (send (latitude coords) (longitude coords) (accuracy coords)).

(** the error callback given to [watchPosition] *)
Definition onError (err : string) : M page unit := ret tt.

(** [navigator.geolocation.watchPosition(onPosition, onError, options)] *)
Definition watchPosition (g : geolocation) : M page Z :=
  modify (set_geo (Some {| next_watch := next_watch g + 1;
                           watches := next_watch g :: watches g |})) ;;;
  ret (next_watch g).

(** [navigator.geolocation.clearWatch(id)] *)
Definition clearWatch (id : Z) : M page unit :=
  g <- gets geo ;;
  match g with
  | None => throw (TypeError "navigator.geolocation is undefined")
  | Some g =>
      modify (set_geo (Some {| next_watch := next_watch g;
                               watches := filter (fun w => w <> id) (watches g) |}))
  end.

Definition startWatch : M page unit :=
  g <- gets geo ;;
  w <- gets watchId ;;
  match g, w with
  | Some g, None =>
      id <- watchPosition g ;;
      modify (set_watchId (Some id))
  | _, _ => ret tt
  end.

Definition stopWatch : M page unit :=
  w <- gets watchId ;;
  match w with
  | Some id =>
      clearWatch id ;;;
      modify (set_watchId None)
  | None => ret tt
  end.

(** What can happen to the page: the template calls [startWatch] or
    [stopWatch], or the browser runs one of the two callbacks, at the
    moment the clock reads [now]. *)
Inductive event : Type :=
| EvStartWatch (now : Z)
| EvStopWatch (now : Z)
| EvPosition (now : Z) (pos : geoposition)
| EvError (now : Z) (err : string).

Definition event_time (ev : event) : Z :=
  match ev with
  | EvStartWatch t | EvStopWatch t | EvPosition t _ | EvError t _ => t
  end.

Definition handler (ev : event) : M page unit :=
  match ev with
  | EvStartWatch _ => startWatch
  | EvStopWatch _ => stopWatch
  | EvPosition _ pos => onPosition pos
  | EvError _ err => onError err
  end.

Definition step (ev : event) (p : page) : outcome unit * page :=
  handler ev (set_clock (event_time ev) p).

Definition run (evs : list event) (p : page) : page :=
  fold_left (fun p ev => snd (step ev p)) evs p.

(** The page when the script has just been evaluated. *)
Definition loaded (g : option geolocation) (t : Z) : page :=
  {| watchId := None; lastSent := 0; geo := g; clock := t;
     sent := []; unhandled := [] |}.

(** The clock readings at which requests left the page, oldest first. *)
Definition send_times (p : page) : list Z := fst <$> sent p.

(** The request [send] is shown to issue ([send_run] below), in closed
    form. *)
Definition ping (lat lon acc : value) : request :=
  {| url := "/api/geo/ping";
     init := {| init_method := Some POST;
                init_body :=
                  Some ([("lat", String_of lat); ("lon", String_of lon)]
                        ++ (if decide (typeof acc = "number")
                            then [("acc", String_of acc)] else []));
                init_credentials := Some "same-origin" |} |}.

(** What every page reached from [loaded] satisfies: the requests that
    left are ten seconds apart, none is later than [lastSent], no
    rejection went unhandled, and a registered watch has its
    geolocation object. *)
Definition inv (p : page) : Prop :=
  spaced 10000 (send_times p)
  /\ Forall (fun t => t <= lastSent p) (send_times p)
  /\ unhandled p = []
  /\ (is_Some (watchId p) -> is_Some (geo p)).


End Script.
End GeoWatch.

(** ** Strings of the host that the list dashboard calls *)

(** The code points ECMAScript strips in [trim] (WhiteSpace and
    LineTerminator), by the bytes of their UTF-8 encoding: one byte for
    U+0009..U+000D and U+0020; two for U+00A0; three for U+1680,
    U+2000..U+200A, U+2028, U+2029, U+202F, U+205F, U+3000, U+FEFF. *)
Definition ws1 (a : ascii) : bool :=
  let a := N_of_ascii a in
  ((9 <=? a) && (a <=? 13) || (a =? 32))%N.

Definition ws2 (a b : ascii) : bool :=
  ((N_of_ascii a =? 194) && (N_of_ascii b =? 160))%N.

Definition ws3 (a b c : ascii) : bool :=
  let a := N_of_ascii a in
  let b := N_of_ascii b in
  let c := N_of_ascii c in
  ((a =? 225) && (b =? 154) && (c =? 128)
   || (a =? 226) && (b =? 128)
      && ((128 <=? c) && (c <=? 138) || (c =? 168) || (c =? 169) || (c =? 175))
   || (a =? 226) && (b =? 129) && (c =? 159)
   || (a =? 227) && (b =? 128) && (c =? 128)
   || (a =? 239) && (b =? 187) && (c =? 191))%N.

Fixpoint trimStart (s : string) : string :=
  match s with
  | EmptyString => s
  | String a r1 =>
      if ws1 a then trimStart r1
      else match r1 with
           | EmptyString => s
           | String b r2 =>
               if ws2 a b then trimStart r2
               else match r2 with
                    | EmptyString => s
                    | String c r3 => if ws3 a b c then trimStart r3 else s
                    end
           end
  end.

(** The same scan from the end, on the reversed byte sequence. *)
Fixpoint trimStart_rev (s : list ascii) : list ascii :=
  match s with
  | [] => s
  | a :: r1 =>
      if ws1 a then trimStart_rev r1
      else match r1 with
           | [] => s
           | b :: r2 =>
               if ws2 b a then trimStart_rev r2
               else match r2 with
                    | [] => s
                    | c :: r3 => if ws3 c b a then trimStart_rev r3 else s
                    end
           end
  end.

Definition trimEnd (s : string) : string :=
  string_of_list_ascii (rev (trimStart_rev (rev (list_ascii_of_string s)))).

(** [s.trim()] *)
Definition trim (s : string) : string := trimEnd (trimStart s).

(** [s.includes(q)] *)
Fixpoint includes (s q : string) : bool :=
  String.prefix q s
  || match s with
     | EmptyString => false
     | String _ s' => includes s' q
     end.

(** a string is falsy exactly when it is empty *)
Definition str_truthy (s : string) : bool :=
  match s with EmptyString => false | _ => true end.

(** [for (const x of xs) body(x)] *)
Fixpoint for_each {St A} (xs : list A) (body : A -> M St unit) : M St unit :=
  match xs with
  | [] => ret tt
  | x :: xs' => body x ;;; for_each xs' body
  end.

(** ** The list dashboard (manager.js) *)

Module Manager.
Section Script.
Context `{JsNumber} `{JsString}.

(** One element of the roster the dashboard is served. *)
Record entry : Type := {
  employee_id : string;
  fresh_status : string;
  last_ts : num;
  last_lat : num;
  last_lon : num;
  last_accuracy : option num       (* None: the property is missing or null *)
}.

(** The elements the script builds. *)
#[local] Set Warnings "-register-all".
Inductive node : Type :=
| Element (tag className textContent : string)
          (attrs : list (string * string)) (children : list node).

Definition createElement (tag : string) : node := Element tag "" "" [] [].
Definition set_className (c : string) (n : node) : node :=
  match n with Element t _ x a ch => Element t c x a ch end.
Definition set_textContent (x : string) (n : node) : node :=
  match n with Element t c _ a ch => Element t c x a ch end.
Definition set_attr (k v : string) (n : node) : node :=
  match n with Element t c x a ch => Element t c x (a ++ [(k, v)]) ch end.
Definition appendChild (child : node) (n : node) : node :=
  match n with Element t c x a ch => Element t c x a (ch ++ [child]) end.

Inductive callback : Type :=
| CbRefresh                 (* the function refresh itself *)
| CbRefreshArrow.           (* ()=>{ refresh(); } *)

(** The page: the two controls the script reads, the children of
    [#employees], the arrays the script holds (by reference), what it
    registered with the browser, and what left the page. *)
Record page : Type := {
  status_filter : string;
  search : string;
  employees : list node;
  arrays : gmap positive (list entry);
  listeners : list (string * string * callback);
  intervals : list (callback * Z);
  sent : list request;
  console : list exn;
  unhandled : list exn
}.

Definition set_employees (ns : list node) (p : page) : page :=
  {| status_filter := status_filter p; search := search p; employees := ns;
     arrays := arrays p; listeners := listeners p; intervals := intervals p;
     sent := sent p; console := console p; unhandled := unhandled p |}.
Definition set_arrays (a : gmap positive (list entry)) (p : page) : page :=
  {| status_filter := status_filter p; search := search p; employees := employees p;
     arrays := a; listeners := listeners p; intervals := intervals p;
     sent := sent p; console := console p; unhandled := unhandled p |}.
Definition set_listeners (l : list (string * string * callback)) (p : page) : page :=
  {| status_filter := status_filter p; search := search p; employees := employees p;
     arrays := arrays p; listeners := l; intervals := intervals p;
     sent := sent p; console := console p; unhandled := unhandled p |}.
Definition set_intervals (l : list (callback * Z)) (p : page) : page :=
  {| status_filter := status_filter p; search := search p; employees := employees p;
     arrays := arrays p; listeners := listeners p; intervals := l;
     sent := sent p; console := console p; unhandled := unhandled p |}.
Definition set_sent (l : list request) (p : page) : page :=
  {| status_filter := status_filter p; search := search p; employees := employees p;
     arrays := arrays p; listeners := listeners p; intervals := intervals p;
     sent := l; console := console p; unhandled := unhandled p |}.
Definition set_console (l : list exn) (p : page) : page :=
  {| status_filter := status_filter p; search := search p; employees := employees p;
     arrays := arrays p; listeners := listeners p; intervals := intervals p;
     sent := sent p; console := l; unhandled := unhandled p |}.
Definition set_unhandled (l : list exn) (p : page) : page :=
  {| status_filter := status_filter p; search := search p; employees := employees p;
     arrays := arrays p; listeners := listeners p; intervals := intervals p;
     sent := sent p; console := console p; unhandled := l |}.

(** A value the script passes around: an object by reference, which
    is an array when [arrays] holds it, or a value that is no array. *)
Inductive jsval : Type :=
| Ref (l : positive)
| Plain (v : non_array).

(** A new array object: a reference no array of the page has. *)
Definition new_array (xs : list entry) : M page positive :=
  a <- gets arrays ;;
  let l := fresh (dom a) in
  modify (set_arrays (<[l := xs]> a)) ;;;
  ret l.

Definition read_array (l : positive) : M page (list entry) :=
  a <- gets arrays ;;
  match a !! l with
  | Some xs => ret xs
  | None => throw (TypeError "not an array")
  end.

(** The network: how the roster endpoint answers, given what the page
    sent before. *)
Variable net : list request -> request -> fetch_result (parsed entry).

(** [await fetch(url)] *)
Definition fetch (u : string) (i : fetch_init) : M page (response (parsed entry)) :=
  let r := {| url := u; init := i |} in
  before <- gets sent ;;
  modify (set_sent (before ++ [r])) ;;;
  match net before r with
  | Rejected e => throw e
  | Resolved resp => ret resp
  end.

(** [await r.json()]: an array the body holds is a new array *)
Definition res_json (r : response (parsed entry)) : M page jsval :=
  match json r with
  | Returned (Array_of data) => l <- new_array data ;; ret (Ref l)
  | Returned (Not_array v) => ret (Plain v)
  | Thrown e => throw e
  end.

Definition fetchEmployees : M page jsval :=
  r <- fetch "/api/online/employees" no_init ;;
  if negb (ok r) then l <- new_array [] ;; ret (Ref l)
  else res_json r.

(** [e.last_accuracy||0] *)
Definition accuracy_or_zero (a : option num) : num :=
  match a with
  | Some n => if num_truthy n then n else num_of_Z 0
  | None => num_of_Z 0
  end.

(** the text of the [meta] line of a card *)
Definition meta_text (e : entry) : string :=
  "Последняя точка: "
  +:+ toLocaleTimeString (num_mul (last_ts e) (num_of_Z 1000))
  +:+ " · " +:+ num_toFixed (last_lat e) 5
  +:+ ", " +:+ num_toFixed (last_lon e) 5
  +:+ " · ±" +:+ num_to_string (Math_round (accuracy_or_zero (last_accuracy e)))
  +:+ "м".

(** the body of the [for] loop of renderList, up to [wrap.appendChild] *)
Definition card_of (e : entry) : node :=
  let card := createElement "div" in
  let card := set_className ("emp " +:+ fresh_status e) card in
  let title := createElement "div" in
  let title := set_className "fio" title in
  let title := set_textContent (employee_id e) title in
  let meta := createElement "div" in
  let meta := set_className "meta" meta in
  let meta := set_textContent (meta_text e) meta in
  let openOnMap := createElement "a" in
  let openOnMap := set_attr "href" "/online" openOnMap in
  let openOnMap := set_attr "target" "_blank" openOnMap in
  let openOnMap := set_textContent "Открыть карту" openOnMap in
  let actions := createElement "div" in
  let actions := set_className "actions" actions in
  let actions := appendChild openOnMap actions in
  let card := appendChild title card in
  let card := appendChild meta card in
  let card := appendChild actions card in
  card.

(** the element of the empty state *)
Definition empty_notice : node :=
  let div := createElement "div" in
  let div := set_className "empty" div in
  set_textContent "Нет данных по персональным отметкам за сегодня." div.

(** [wrap.appendChild(n)] on [#employees] *)
Definition wrap_appendChild (n : node) : M page unit :=
  modify (fun p => set_employees (employees p ++ [n]) p).

Definition renderList (items : positive) : M page unit :=
  modify (set_employees []) ;;;
  xs <- read_array items ;;
  if (length xs =? 0)%nat then wrap_appendChild empty_notice
  else for_each xs (fun e => wrap_appendChild (card_of e)).

(** What [renderList] is shown to leave under [#employees]
    ([renderList_run] below), in closed form. *)
Definition rendering (xs : list entry) : list node :=
  match xs with
  | [] => [empty_notice]
  | _ => card_of <$> xs
  end.

(** the callback given to [items.filter] *)
Definition passes (status q : string) (e : entry) : bool :=
  let okStatus := bool_decide (status = "all") || bool_decide (fresh_status e = status) in
  let okSearch := negb (str_truthy q) || includes (toLowerCase (employee_id e)) q in
  okStatus && okSearch.

(** [items.filter]: the elements of [items], if it is an array *)
Definition read_items (items : jsval) : M page (list entry) :=
  match items with
  | Ref l => read_array l
  | Plain v => throw (no_method v "items" "filter")
  end.

Definition applyFilters (items : jsval) : M page positive :=
  status <- gets status_filter ;;
  v <- gets search ;;
  let q := toLowerCase (trim (if str_truthy v then v else "")) in
  xs <- read_items items ;;
  new_array (List.filter (passes status q) xs).

(** what the literal assigned to [wrap.innerHTML] in the catch block
    parses to *)
Definition error_notice : node :=
  Element "div" "error" "Ошибка загрузки /api/online/employees" [] [].

Definition refresh : M page unit :=
  try_catch
    (data <- fetchEmployees ;;
     shown <- applyFilters data ;;
     renderList shown)
    (fun e =>
       modify (fun p => set_console (console p ++ [e]) p) ;;;
       modify (set_employees [error_notice])).

(** a call that is not awaited *)
Definition call_async (c : M page unit) : M page unit :=
  fun p =>
    match c p with
    | (Returned _, p') => (Returned tt, p')
    | (Thrown e, p') => (Returned tt, set_unhandled (unhandled p' ++ [e]) p')
    end.

(** The browser calls a listener or a timer callback and drops what it
    returns: the promise of [refresh] is awaited by nobody. *)
Definition run_callback (cb : callback) : M page unit :=
  match cb with
  | CbRefresh => call_async refresh
  | CbRefreshArrow => call_async refresh
  end.

Definition addEventListener (target type : string) (cb : callback) : M page unit :=
  modify (fun p => set_listeners (listeners p ++ [(target, type, cb)]) p).

Definition setInterval (cb : callback) (delay : Z) : M page unit :=
  modify (fun p => set_intervals (intervals p ++ [(cb, delay)]) p).

(** the listener of [DOMContentLoaded] *)
Definition onDOMContentLoaded : M page unit :=
  addEventListener "refresh" "click" CbRefresh ;;;
  addEventListener "status-filter" "change" CbRefresh ;;;
  addEventListener "search" "input" CbRefreshArrow ;;;
  call_async refresh ;;;
  setInterval CbRefresh 15000.

(** The page as the browser hands it to the script. *)
Definition fresh_page (status_value search_value : string) : page :=
  {| status_filter := status_value; search := search_value; employees := [];
     arrays := ∅; listeners := []; intervals := []; sent := [];
     console := []; unhandled := [] |}.

(** the one request the dashboard makes *)
Definition roster_request : request :=
  {| url := "/api/online/employees"; init := no_init |}.

(** The list [applyFilters] hands back, read through the reference it
    returns. *)
Definition applyFilters_result (items : positive) (p : page) : option (list entry) :=
  match applyFilters (Ref items) p with
  | (Returned l, p') => arrays p' !! l
  | (Thrown _, _) => None
  end.

(** *** The filter as the specification words it

    An entry is kept when its status is the selected one, or the
    selection is [all], and its identity key contains the search text,
    compared without regard to case, or the search text is empty. *)
Definition contains_ci (key text : string) : bool :=
  includes (toLowerCase key) (toLowerCase text).

Definition kept (status text : string) (e : entry) : bool :=
  (bool_decide (status = "all") || bool_decide (fresh_status e = status))
  && (bool_decide (text = "") || contains_ci (employee_id e) text).

Definition filter_spec (status text : string) (items : list entry) : list entry :=
  List.filter (kept status text) items.

(** *** Pages that [refresh] is shown to reach ([refresh_run] below) *)

(** the page once the roster request has left *)
Definition requested (p : page) : page := set_sent (sent p ++ [roster_request]) p.

(** the page after the roster [data] went through [applyFilters] and
    [renderList], from the page [p] *)
Definition rendered (data : list entry) (p : page) : page :=
  let a1 := <[fresh (dom (arrays p)) := data]> (arrays p) in
  let shown := filter_spec (status_filter p) (trim (search p)) data in
  set_employees (rendering shown) (set_arrays (<[fresh (dom a1) := shown]> a1) p).

(** the page after the catch block of [refresh] *)
Definition failed (e : exn) (p : page) : page :=
  set_employees [error_notice] (set_console (console p ++ [e]) p).

End Script.
End Manager.

(** ** The map dashboard *)

Module OnlineMap.
Section Script.
Context `{JsNumber}.

(** What the script reads of a roster element. *)
Record employee : Type := {
  employee_id : string;
  fresh_status : string
}.

Record point : Type := { lat : num; lon : num }.

(** the body of the track endpoint's answer *)
Record track : Type := { points : list point }.

Definition latlng : Type := (num * num)%type.

(** Leaflet layers, as far as the script configures them. *)
Inductive layer : Type :=
| TileLayer (urlTemplate : string) (maxZoom : Z)
| Polyline (latlngs : list latlng) (color : string)
| Marker (position : latlng) (popup : option string).

Inductive view : Type :=
| SetView (center : Q * Q) (zoom : Z)       (* setView([lat, lon], zoom) *)
| FitBounds (pts : list latlng).             (* fitBounds(bounds of these) *)

(** A Leaflet map: the layers it shows, by reference, and its view. *)
Record leaflet_map : Type := {
  container : string;
  on_map : gset positive;
  map_view : option view
}.

Inductive callback : Type :=
| CbLoadEmployees
| CbShowTrack (employee_id : string).       (* ()=> showTrack(emp.employee_id) *)

(** a child of [#list] *)
Record item : Type := {
  item_class : string;
  item_text : string;
  item_onclick : callback
}.

(** The page: the script's three globals, the layer objects it created
    (live as long as something refers to them), the children of
    [#list], the timers, the day [new Date()] falls on, and what left
    the page. *)
Record page : Type := {
  map : option leaflet_map;
  markers : gmap string positive;
  polyline : option positive;
  objects : gmap positive layer;
  list_items : list item;
  intervals : list (callback * Z);
  today_iso : string;
  sent : list request;
  unhandled : list exn
}.

Definition set_map (m : option leaflet_map) (p : page) : page :=
  {| map := m; markers := markers p; polyline := polyline p; objects := objects p;
     list_items := list_items p; intervals := intervals p; today_iso := today_iso p;
     sent := sent p; unhandled := unhandled p |}.
Definition set_markers (m : gmap string positive) (p : page) : page :=
  {| map := map p; markers := m; polyline := polyline p; objects := objects p;
     list_items := list_items p; intervals := intervals p; today_iso := today_iso p;
     sent := sent p; unhandled := unhandled p |}.
Definition set_polyline (l : option positive) (p : page) : page :=
  {| map := map p; markers := markers p; polyline := l; objects := objects p;
     list_items := list_items p; intervals := intervals p; today_iso := today_iso p;
     sent := sent p; unhandled := unhandled p |}.
Definition set_objects (o : gmap positive layer) (p : page) : page :=
  {| map := map p; markers := markers p; polyline := polyline p; objects := o;
     list_items := list_items p; intervals := intervals p; today_iso := today_iso p;
     sent := sent p; unhandled := unhandled p |}.
Definition set_list_items (l : list item) (p : page) : page :=
  {| map := map p; markers := markers p; polyline := polyline p; objects := objects p;
     list_items := l; intervals := intervals p; today_iso := today_iso p;
     sent := sent p; unhandled := unhandled p |}.
Definition set_intervals (l : list (callback * Z)) (p : page) : page :=
  {| map := map p; markers := markers p; polyline := polyline p; objects := objects p;
     list_items := list_items p; intervals := l; today_iso := today_iso p;
     sent := sent p; unhandled := unhandled p |}.
Definition set_sent (l : list request) (p : page) : page :=
  {| map := map p; markers := markers p; polyline := polyline p; objects := objects p;
     list_items := list_items p; intervals := intervals p; today_iso := today_iso p;
     sent := l; unhandled := unhandled p |}.
Definition set_unhandled (l : list exn) (p : page) : page :=
  {| map := map p; markers := markers p; polyline := polyline p; objects := objects p;
     list_items := list_items p; intervals := intervals p; today_iso := today_iso p;
     sent := sent p; unhandled := l |}.

(** *** Leaflet *)

(** a new layer object *)
Definition new_layer (l : layer) : M page positive :=
  o <- gets objects ;;
  let r := fresh (dom o) in
  modify (set_objects (<[r := l]> o)) ;;;
  ret r.

(** [L.polyline(latlngs, {color})] *)
Definition L_polyline (latlngs : list latlng) (color : string) : M page positive :=
  new_layer (Polyline latlngs color).

(** [L.marker(latlng)]; Leaflet throws on a missing position *)
Definition L_marker (position : option latlng) : M page positive :=
  match position with
  | Some ll => new_layer (Marker ll None)
  | None => throw (TypeError "Invalid LatLng object")
  end.

(** [L.tileLayer(url, {maxZoom})] *)
Definition L_tileLayer (u : string) (maxZoom : Z) : M page positive :=
  new_layer (TileLayer u maxZoom).

(** the global [map], which is [undefined] until [window.onload] ran *)
Definition the_map : M page leaflet_map :=
  m <- gets map ;;
  match m with
  | Some m => ret m
  | None => throw (TypeError "map is undefined")
  end.

(** [layer.addTo(map)] *)
Definition addTo (l : positive) : M page unit :=
  m <- the_map ;;
  modify (set_map (Some {| container := container m; on_map := {[l]} ∪ on_map m;
                           map_view := map_view m |})).

(** [map.removeLayer(layer)]: nothing happens if the layer is not shown *)
Definition removeLayer (l : positive) : M page unit :=
  m <- the_map ;;
  modify (set_map (Some {| container := container m; on_map := on_map m ∖ {[l]};
                           map_view := map_view m |})).

(** [marker.bindPopup(content)] *)
Definition bindPopup (l : positive) (content : string) : M page unit :=
  o <- gets objects ;;
  match o !! l with
  | Some (Marker ll _) => modify (set_objects (<[l := Marker ll (Some content)]> o))
  | _ => throw (TypeError "bindPopup is not a function")
  end.

(** [polyline.getBounds()], kept as the vertices it bounds *)
Definition getBounds (l : positive) : M page (list latlng) :=
  o <- gets objects ;;
  match o !! l with
  | Some (Polyline latlngs _) => ret latlngs
  | _ => throw (TypeError "getBounds is not a function")
  end.

(** [map.fitBounds(bounds)] *)
Definition fitBounds (bounds : list latlng) : M page unit :=
  m <- the_map ;;
  modify (set_map (Some {| container := container m; on_map := on_map m;
                           map_view := Some (FitBounds bounds) |})).

(** *** The network: the two endpoints the dashboard reads *)

Variable net_roster : list request -> request -> fetch_result (parsed employee).
Variable net_track : list request -> request -> fetch_result track.

Definition fetch {J} (net : list request -> request -> fetch_result J)
    (u : string) (i : fetch_init) : M page (response J) :=
  let r := {| url := u; init := i |} in
  before <- gets sent ;;
  modify (set_sent (before ++ [r])) ;;;
  match net before r with
  | Rejected e => throw e
  | Resolved resp => ret resp
  end.

(** [await res.json()] *)
Definition res_json {J} (r : response J) : M page J :=
  match json r with
  | Returned data => ret data
  | Thrown e => throw e
  end.

(** *** The script *)

(** the body of [data.forEach] in loadEmployees *)
Definition list_item_of (emp : employee) : item :=
  {| item_class := "emp " +:+ fresh_status emp;
     item_text := employee_id emp +:+ " (" +:+ fresh_status emp +:+ ")";
     item_onclick := CbShowTrack (employee_id emp) |}.

Definition loadEmployees : M page unit :=
  res <- fetch net_roster "/api/online/employees" no_init ;;
  data <- res_json res ;;
  modify (set_list_items []) ;;;
  match data with
  | Array_of data =>
      for_each data (fun emp =>
        modify (fun p => set_list_items (list_items p ++ [list_item_of emp]) p))
  | Not_array v => throw (no_method v "data" "forEach")
  end.

(** [data.points.map(p=>[p.lat,p.lon])] *)
Definition latlngs_of (pts : list point) : list latlng :=
  (fun p => (lat p, lon p)) <$> pts.

(** showTrack, the two [removeLayer] lines *)
Definition clear_track (employee_id : string) : M page unit :=
  pl <- gets polyline ;;
  match pl with Some l => removeLayer l | None => ret tt end ;;;
  mk <- gets (fun p => markers p !! employee_id) ;;
  match mk with Some l => removeLayer l | None => ret tt end.

(** showTrack, from [const latlngs] to its end *)
Definition plot_track (employee_id : string) (data : track) : M page unit :=
  let latlngs := latlngs_of (points data) in
  line <- L_polyline latlngs "blue" ;;
  addTo line ;;;
  modify (set_polyline (Some line)) ;;;
  let last := latlngs !! (length latlngs - 1)%nat in
  mark <- L_marker last ;;
  addTo mark ;;;
  bindPopup mark employee_id ;;;
  modify (fun p => set_markers (<[employee_id := mark]> (markers p)) p) ;;;
  line <- gets polyline ;;
  match line with
  | Some line => bounds <- getBounds line ;; fitBounds bounds
  | None => throw (TypeError "polyline is undefined")
  end.

(** the part of showTrack after its two awaits *)
Definition showTrack_draw (employee_id : string) (data : track) : M page unit :=
  clear_track employee_id ;;;
  if (length (points data) =? 0)%nat then ret tt
  else plot_track employee_id data.

(** the request for the track of [employee_id] on the day [today] *)
Definition track_request (employee_id today : string) : request :=
  {| url := "/api/online/track?employee_id=" +:+ employee_id +:+ "&date=" +:+ today;
     init := no_init |}.

Definition showTrack (employee_id : string) : M page unit :=
  today <- gets today_iso ;;
  res <- fetch net_track
           ("/api/online/track?employee_id=" +:+ employee_id +:+ "&date=" +:+ today)
           no_init ;;
  data <- res_json res ;;
  showTrack_draw employee_id data.

(** a call that is not awaited *)
Definition call_async (c : M page unit) : M page unit :=
  fun p =>
    match c p with
    | (Returned _, p') => (Returned tt, p')
    | (Thrown e, p') => (Returned tt, set_unhandled (unhandled p' ++ [e]) p')
    end.

(** The browser calls a click handler or a timer callback and drops the
    promise it returns. *)
Definition run_callback (cb : callback) : M page unit :=
  match cb with
  | CbLoadEmployees => call_async loadEmployees
  | CbShowTrack id => call_async (showTrack id)
  end.

Definition setInterval (cb : callback) (delay : Z) : M page unit :=
  modify (fun p => set_intervals (intervals p ++ [(cb, delay)]) p).

(** [window.onload] *)
Definition onload : M page unit :=
  modify (set_map (Some {| container := "map"; on_map := ∅;
                           map_view := Some (SetView (55.75%Q, 37.61%Q) 10) |})) ;;;
  tiles <- L_tileLayer "https://{s}.tile.openstreetmap.org/{z}/{x}/{y}.png" 19 ;;
  addTo tiles ;;;
  call_async loadEmployees ;;;
  setInterval CbLoadEmployees 10000.

(** The page when the script has been evaluated: [markers = {}], the
    other two globals undefined. *)
Definition fresh_page (today : string) : page :=
  {| map := None; markers := ∅; polyline := None; objects := ∅;
     list_items := []; intervals := []; today_iso := today;
     sent := []; unhandled := [] |}.

(** the request for the roster *)
Definition roster_request : request :=
  {| url := "/api/online/employees"; init := no_init |}.

(** What happens to the page after [window.onload]: timers fire and
    list items are clicked. *)
Definition run (cbs : list callback) (p : page) : page :=
  fold_left (fun p cb => snd (run_callback cb p)) cbs p.

(** *** What the map shows *)

(** the layers on the map *)
Definition shown (p : page) : gset positive :=
  match map p with
  | Some m => on_map m
  | None => ∅
  end.

Definition layer_set (l : option positive) : gset positive :=
  match l with
  | Some l => {[l]}
  | None => ∅
  end.

(** the layers showTrack takes off the map for [employee_id] *)
Definition stale_layers (employee_id : string) (p : page) : gset positive :=
  layer_set (polyline p) ∪ layer_set (markers p !! employee_id).

(** the map [m] with the layers [ls] on it *)
Definition with_layers (ls : gset positive) (m : leaflet_map) : leaflet_map :=
  {| container := container m; on_map := ls; map_view := map_view m |}.

(** the page once the request [r] has left *)
Definition requested (r : request) (p : page) : page := set_sent (sent p ++ [r]) p.

(** The references the globals hold are to layer objects that exist,
    and no layer is held twice: not as the marker of two identities,
    not as a marker and as the polyline. *)
Definition wf (p : page) : Prop :=
  (forall l : positive, polyline p = Some l -> l ∈ dom (objects p))
  /\ (forall (id : string) (l : positive),
         markers p !! id = Some l -> l ∈ dom (objects p))
  /\ (forall (id : string) (l : positive),
         markers p !! id = Some l -> polyline p <> Some l)
  /\ (forall (id1 id2 : string) (l : positive),
         markers p !! id1 = Some l -> markers p !! id2 = Some l -> id1 = id2).

End Script.
End OnlineMap.

(** ** The freshness rule *)

Module Freshness.

Inductive status : Type := Fresh | Stale | Offline.

(** the order in which a status ages *)
Definition rank (s : status) : Z :=
  match s with Fresh => 0 | Stale => 1 | Offline => 2 end.

Section Thresholds.
Variables T_fresh T_offline : Z.

(** Modelled from the spec: the freshness evaluator [classify] runs in
    the back end, whose code is not among the sources; the three cases
    are those of the specification, read top to bottom, with times in
    integer seconds since the epoch. *)
Definition classify (now last_timestamp : Z) : status :=
  if (now - last_timestamp <=? T_fresh)%Z then Fresh
  else if (now - last_timestamp <=? T_offline)%Z then Stale
  else Offline.

End Thresholds.
End Freshness.

(** ** A host to run the scripts on

    The integer-valued numbers, on which [String], [Math.round] and
    [toFixed] have closed forms, with times of day printed in UTC; and
    the strings of Basic Latin letters, on which [toLowerCase] moves
    A-Z to a-z. *)

Definition Z_to_string (z : Z) : string := NilZero.string_of_int (Z.to_int z).

Definition two_digits (z : Z) : string :=
  if z <? 10 then "0" +:+ Z_to_string z else Z_to_string z.

Definition utc_time (ms : Z) : string :=
  let s := (ms / 1000) mod 86400 in
  two_digits (s / 3600) +:+ ":" +:+ two_digits (s / 60 mod 60)
  +:+ ":" +:+ two_digits (s mod 60).

Definition int_toFixed (n d : Z) : string :=
  if d <=? 0 then Z_to_string n
  else Z_to_string n +:+ "." +:+ string_of_list_ascii (replicate (Z.to_nat d) "0"%char).

Definition IntegerNumbers : JsNumber :=
  {| num := Z;
     num_of_Z := fun z => z;
     num_mul := Z.mul;
     num_truthy := fun z => negb (z =? 0);
     num_to_string := Z_to_string;
     num_toFixed := int_toFixed;
     Math_round := fun z => z;
     toLocaleTimeString := utc_time;
     zero_falsy := eq_refl;
     round_zero := eq_refl;
     zero_to_string := eq_refl |}.

Definition lower_latin (a : ascii) : ascii :=
  let n := N_of_ascii a in
  if ((65 <=? n) && (n <=? 90))%N then ascii_of_N (n + 32) else a.

Definition BasicLatin : JsString :=
  {| toLowerCase := fun s => string_of_list_ascii (lower_latin <$> list_ascii_of_string s);
     toLowerCase_empty := eq_refl |}.

(** Roster entries, positions and track points of the integer host. *)
Definition int_entry (id st : string) (ts la lo : Z) (acc : option Z)
  : @Manager.entry IntegerNumbers :=
  @Manager.Build_entry IntegerNumbers id st ts la lo acc.

Definition int_point (la lo : Z) : @OnlineMap.point IntegerNumbers :=
  @OnlineMap.Build_point IntegerNumbers la lo.

Definition int_latlng (la lo : Z) : @OnlineMap.latlng IntegerNumbers := (la, lo).

(** A back end for the map dashboard: two identities on the roster;
    the first track asked for has two points, the tracks asked for
    later have none. *)
Definition demo_roster (_ : list request) (_ : request)
  : fetch_result (parsed OnlineMap.employee) :=
  Resolved {| ok := true; status := 200;
              json := Returned (Array_of [OnlineMap.Build_employee "E1" "fresh";
                                          OnlineMap.Build_employee "E2" "offline"]) |}.

Definition demo_answer (pts : list (@OnlineMap.point IntegerNumbers))
  : response (@OnlineMap.track IntegerNumbers) :=
  {| ok := true; status := 200;
     json := Returned (@OnlineMap.Build_track IntegerNumbers pts) |}.

Definition demo_track (before : list request) (_ : request)
  : fetch_result (@OnlineMap.track IntegerNumbers) :=
  Resolved (demo_answer (if (length before <=? 1)%nat
                         then [int_point 55 37; int_point 56 38]
                         else [])).

(** The map dashboard once loaded on the integer host. *)
Definition demo_map_page : @OnlineMap.page IntegerNumbers :=
  snd (@OnlineMap.onload IntegerNumbers demo_roster (OnlineMap.fresh_page "2026-11-02")).

(** ** The administration page (manager.js, from [_ts] on)

    The helpers [_ts], [_withTs], [jget], [jpost], [jdel], [loadAll]
    and the click handlers of the save and delete buttons.
    [drawThreads], [drawBrigades] and [drawEmployees] write their rows
    as HTML text that the browser parses; they send nothing, read no
    clock and open no dialog, and what they do to the tables is a
    parameter here. *)

(** [ToBoolean] *)
Definition ToBoolean `{JsNumber} (v : value) : bool :=
  match v with
  | VUndefined => false
  | VNull => false
  | VBool b => b
  | VNum n => num_truthy n
  | VStr s => str_truthy s
  end.

(** [a || b] *)
Definition js_or `{JsNumber} (a b : value) : value := if ToBoolean a then a else b.

Module Admin.

(** What an async function of the page can be rejected with: something
    thrown by the host, or the [new Error(msg)] of the three helpers. *)
Inductive failure : Type :=
| Raised (e : exn)
| HttpError (msg : string).

Inductive result (A : Type) : Type :=
| Done (a : A)
| Failed (f : failure).
Arguments Done {A} a.
Arguments Failed {A} f.

(** a request as the helpers make it *)
Record call : Type := {
  c_url : string;
  c_method : option http_method;
  c_cache : option string;
  c_headers : list (string * string);
  c_body : option string
}.

Definition call_method (c : call) : http_method := default GET (c_method c).

Inductive callback : Type :=
| CbLoadAll.                                 (* setTimeout(loadAll, 300) *)

Inductive click : Type :=
| SaveThread | SaveBrigade | SaveChat | SaveEmployee.

Section Script.
(** [Dom]: the tables, as the draw functions leave them *)
Context `{JsNumber} {Dom : Type}.

(** The page: the inputs by id with their value, the buttons there are
    and the handler each has, the tables, the dialogs shown by
    [alert], the requests that left, how often [Date.now()] was read,
    the timers and the rejections nobody handled. *)
Record page : Type := {
  inputs : gmap string string;
  buttons : gset string;
  onclick : gmap string click;
  dom : Dom;
  alerts : list string;
  sent : list call;
  reads : nat;
  timeouts : list (callback * Z);
  unhandled : list failure
}.

Definition set_inputs (i : gmap string string) (p : page) : page :=
  {| inputs := i; buttons := buttons p; onclick := onclick p; dom := dom p;
     alerts := alerts p; sent := sent p; reads := reads p; timeouts := timeouts p;
     unhandled := unhandled p |}.
Definition set_onclick (o : gmap string click) (p : page) : page :=
  {| inputs := inputs p; buttons := buttons p; onclick := o; dom := dom p;
     alerts := alerts p; sent := sent p; reads := reads p; timeouts := timeouts p;
     unhandled := unhandled p |}.
Definition set_dom (d : Dom) (p : page) : page :=
  {| inputs := inputs p; buttons := buttons p; onclick := onclick p; dom := d;
     alerts := alerts p; sent := sent p; reads := reads p; timeouts := timeouts p;
     unhandled := unhandled p |}.
Definition set_alerts (a : list string) (p : page) : page :=
  {| inputs := inputs p; buttons := buttons p; onclick := onclick p; dom := dom p;
     alerts := a; sent := sent p; reads := reads p; timeouts := timeouts p;
     unhandled := unhandled p |}.
Definition set_sent (l : list call) (p : page) : page :=
  {| inputs := inputs p; buttons := buttons p; onclick := onclick p; dom := dom p;
     alerts := alerts p; sent := l; reads := reads p; timeouts := timeouts p;
     unhandled := unhandled p |}.
Definition set_reads (n : nat) (p : page) : page :=
  {| inputs := inputs p; buttons := buttons p; onclick := onclick p; dom := dom p;
     alerts := alerts p; sent := sent p; reads := n; timeouts := timeouts p;
     unhandled := unhandled p |}.
Definition set_timeouts (l : list (callback * Z)) (p : page) : page :=
  {| inputs := inputs p; buttons := buttons p; onclick := onclick p; dom := dom p;
     alerts := alerts p; sent := sent p; reads := reads p; timeouts := l;
     unhandled := unhandled p |}.
Definition set_unhandled (l : list failure) (p : page) : page :=
  {| inputs := inputs p; buttons := buttons p; onclick := onclick p; dom := dom p;
     alerts := alerts p; sent := sent p; reads := reads p; timeouts := timeouts p;
     unhandled := l |}.

(** *** The monad of the page's functions *)

Definition Act (A : Type) : Type := page -> result A * page.

Definition aret {A} (a : A) : Act A := fun p => (Done a, p).

Definition abind {A B} (c : Act A) (k : A -> Act B) : Act B :=
  fun p =>
    match c p with
    | (Done a, p') => k a p'
    | (Failed f, p') => (Failed f, p')
    end.

Definition afail {A} (f : failure) : Act A := fun p => (Failed f, p).

(** the outcome of a promise that has settled *)
Definition settled {A} (r : result A) : Act A := fun p => (r, p).

Definition aget {A} (f : page -> A) : Act A := fun p => (Done (f p), p).
Definition amodify (f : page -> page) : Act unit := fun p => (Done tt, f p).

Notation "x <~ c ;; k" := (abind c (fun x => k))
  (at level 100, c at next level, right associativity).
Notation "c ~;; k" := (abind c (fun _ => k))
  (at level 100, right associativity).

(** a call that is not awaited *)
Definition unawaited (c : Act unit) : Act unit :=
  fun p =>
    match c p with
    | (Done _, p') => (Done tt, p')
    | (Failed f, p') => (Done tt, set_unhandled (unhandled p' ++ [f]) p')
    end.

(** *** The host *)

(** what the [n]-th call of [Date.now()] on the page reads *)
Variable clock_at : nat -> Z.
(** [Number(s)] *)
Variable Number_of : string -> num.
Variable encodeURIComponent : string -> string.
(** [JSON.stringify] of an object literal, given by its fields *)
Variable JSON_stringify : list (string * value) -> string.
(** what the user answers to [confirm(message)] *)
Variable confirm : string -> bool.
(** the rejection [Promise.all] reports, of those that occurred *)
Variable race : list failure -> failure.

Definition Date_now : Act Z :=
  n <~ aget reads ;;
  amodify (set_reads (S n)) ~;;
  aret (clock_at n).

Definition alert (msg : string) : Act unit :=
  amodify (fun p => set_alerts (alerts p ++ [msg]) p).

(** [fetch(url, init)]: the request leaves; what comes back is the
    state the promise settles to *)
Definition fetch {J} (net : list call -> call -> fetch_result J) (c : call)
  : Act (fetch_result J) :=
  before <~ aget sent ;;
  amodify (set_sent (before ++ [c])) ~;;
  aret (net before c).

(** [document.getElementById(id).value] *)
Definition getValue (id : string) : Act string :=
  i <~ aget inputs ;;
  match i !! id with
  | Some v => aret v
  | None => afail (Raised (TypeError "document.getElementById(...) is null"))
  end.

(** *** The anti-cache helpers *)

Definition _ts : Act string :=
  now <~ Date_now ;;
  aret (Z_to_string now).

Definition _withTs (u : string) : Act string :=
  ts <~ _ts ;;
  aret (u +:+ (if includes u "?" then "&" else "?") +:+ "t=" +:+ ts).

(** the two lines the helpers share: [if(!r.ok) throw new Error(...)]
    and [return await r.json()], for the helper named [verb] *)
Definition answer {J} (verb u : string) (a : fetch_result J) : result J :=
  match a with
  | Rejected e => Failed (Raised e)
  | Resolved r =>
      if negb (ok r)
      then Failed (HttpError ("HTTP " +:+ Z_to_string (status r) +:+ " " +:+ verb
                              +:+ " " +:+ u))
      else match json r with
           | Returned j => Done j
           | Thrown e => Failed (Raised e)
           end
  end.

(** [jget(u)] up to its first await: the request has left *)
Definition jget_called {J} (net : list call -> call -> fetch_result J) (u : string)
  : Act (fetch_result J) :=
  url <~ _withTs u ;;
  fetch net {| c_url := url; c_method := None; c_cache := Some "no-store";
               c_headers := [("Cache-Control", "no-cache")]; c_body := None |}.

Definition jget {J} (net : list call -> call -> fetch_result J) (u : string) : Act J :=
  a <~ jget_called net u ;;
  settled (answer "GET" u a).

Definition jpost {J} (net : list call -> call -> fetch_result J) (u : string)
    (b : list (string * value)) : Act J :=
  url <~ _withTs u ;;
  a <~ fetch net {| c_url := url; c_method := Some POST; c_cache := Some "no-store";
                    c_headers := [("Content-Type", "application/json");
                                  ("Cache-Control", "no-cache")];
                    c_body := Some (JSON_stringify b) |} ;;
  settled (answer "POST" u a).

Definition jdel {J} (net : list call -> call -> fetch_result J) (u : string) : Act J :=
  url <~ _withTs u ;;
  a <~ fetch net {| c_url := url; c_method := Some DELETE; c_cache := Some "no-store";
                    c_headers := [("Cache-Control", "no-cache")]; c_body := None |} ;;
  settled (answer "DELETE" u a).

(** *** The back end, by endpoint *)

(** the bodies of the two maps and of the directory *)
Variables Threads Brigades Employees : Type.

(** The body of /api/org/group_chat_id: [None] when it is null or
    another falsy value, otherwise its [group_chat_id] ([VUndefined]
    when it has none). *)
Definition Chat : Type := option value.

(** The body a POST or a DELETE is answered with, read at [ok] and at
    [error] ([VUndefined] where it has no such property); a body that
    is null is [None]. *)
Record verdict : Type := {
  j_ok : value;
  j_error : value
}.

Definition Verdict : Type := option verdict.

Variable net_threads : list call -> call -> fetch_result Threads.
Variable net_brigades : list call -> call -> fetch_result Brigades.
Variable net_chat : list call -> call -> fetch_result Chat.
Variable net_employees : list call -> call -> fetch_result Employees.
Variable net_change : list call -> call -> fetch_result Verdict.

Variable drawThreads : Threads -> Dom -> result unit * Dom.
Variable drawBrigades : Brigades -> Dom -> result unit * Dom.
Variable drawEmployees : Employees -> Dom -> result unit * Dom.

(** a draw function, run on the tables of the page *)
Definition on_dom (draw : Dom -> result unit * Dom) : Act unit :=
  fun p =>
    match draw (dom p) with
    | (r, d) => (r, set_dom d p)
    end.

(** [(chat && chat.group_chat_id) ? chat.group_chat_id : ''], as the
    text the input shows *)
Definition chat_text (chat : Chat) : string :=
  match chat with
  | Some id => if ToBoolean id then String_of id else ""
  | None => ""
  end.

(** [const g = document.getElementById('g-id'); if(g) g.value = ...] *)
Definition show_chat (chat : Chat) : Act unit :=
  amodify (fun p =>
    match inputs p !! "g-id" with
    | Some _ => set_inputs (<["g-id" := chat_text chat]> (inputs p)) p
    | None => p
    end).

Definition rejections {A} (r : result A) : list failure :=
  match r with
  | Done _ => []
  | Failed f => [f]
  end.

(** what [Promise.all] is rejected with *)
Definition first_rejection (fs : list failure) : failure :=
  match fs with
  | [f] => f
  | _ => race fs
  end.

(** [loadAll]: the four helpers are called one after the other, so the
    four requests leave before any answer is looked at; [Promise.all]
    then waits for them.  [drawEmployees] is an async function whose
    promise nobody awaits. *)
Definition loadAll : Act unit :=
  a1 <~ jget_called net_threads "/api/org/threads" ;;
  a2 <~ jget_called net_brigades "/api/org/brigades" ;;
  a3 <~ jget_called net_chat "/api/org/group_chat_id" ;;
  a4 <~ jget_called net_employees "/api/org/employees" ;;
  let r1 := answer "GET" "/api/org/threads" a1 in
  let r2 := answer "GET" "/api/org/brigades" a2 in
  let r3 := answer "GET" "/api/org/group_chat_id" a3 in
  let r4 := answer "GET" "/api/org/employees" a4 in
  match r1, r2, r3, r4 with
  | Done threads, Done brigades, Done chat, Done employees =>
      on_dom (drawThreads threads) ~;;
      on_dom (drawBrigades brigades) ~;;
      show_chat chat ~;;
      unawaited (on_dom (drawEmployees employees))
  | _, _, _, _ =>
      afail (first_rejection
               (rejections r1 ++ rejections r2 ++ rejections r3 ++ rejections r4))
  end.

(** [j.ok], which throws on null *)
Definition read_ok (j : Verdict) : Act value :=
  match j with
  | Some v => aret (j_ok v)
  | None => afail (Raised (TypeError "Cannot read properties of null (reading 'ok')"))
  end.

(** [j.error], read once [j.ok] was *)
Definition read_error (j : Verdict) : value :=
  match j with
  | Some v => j_error v
  | None => VUndefined
  end.

(** [if(!j.ok) alert('Ошибка: '+(j.error||'unknown'))] *)
Definition report (j : Verdict) : Act unit :=
  k <~ read_ok j ;;
  if negb (ToBoolean k)
  then alert ("Ошибка: " +:+ String_of (js_or (read_error j) (VStr "unknown")))
  else aret tt.

(** [if(!j.ok) alert(j.error || 'Ошибка')] *)
Definition report_employee (j : Verdict) : Act unit :=
  k <~ read_ok j ;;
  if negb (ToBoolean k)
  then alert (String_of (js_or (read_error j) (VStr "Ошибка")))
  else aret tt.

Definition setTimeout (cb : callback) (delay : Z) : Act unit :=
  amodify (fun p => set_timeouts (timeouts p ++ [(cb, delay)]) p).

(** *** The save buttons *)

(** the handler of [#t-save] *)
Definition save_thread : Act unit :=
  v <~ getValue "t-fio" ;;
  let fio := trim v in
  v <~ getValue "t-thread" ;;
  let tid := Number_of (trim v) in
  if negb (str_truthy fio) || negb (num_truthy tid)
  then alert "Укажите ФИО и числовой thread_id"
  else
    j <~ jpost net_change "/api/org/threads" [("fio", VStr fio); ("thread_id", VNum tid)] ;;
    report j ~;;
    loadAll.

(** the handler of [#b-save] *)
Definition save_brigade : Act unit :=
  v <~ getValue "b-fio" ;;
  let fio := trim v in
  v <~ getValue "b-name" ;;
  let name := trim v in
  if negb (str_truthy fio)
  then alert "Укажите ФИО"
  else
    j <~ jpost net_change "/api/org/brigades" [("fio", VStr fio); ("name", VStr name)] ;;
    report j ~;;
    loadAll.

(** the handler of [#g-save] *)
Definition save_chat : Act unit :=
  v <~ getValue "g-id" ;;
  let id := Number_of (trim v) in
  j <~ jpost net_change "/api/org/group_chat_id" [("group_chat_id", VNum id)] ;;
  report j ~;;
  loadAll.

(** the handler of [#e-save] *)
Definition save_employee : Act unit :=
  v <~ getValue "e-fio" ;;
  let fio := trim v in
  v <~ getValue "e-uid" ;;
  let uid := Number_of (trim v) in
  if negb (str_truthy fio) || negb (num_truthy uid)
  then alert "Укажите ФИО и числовой tg_user_id"
  else
    j <~ jpost net_change "/api/org/employees" [("fio", VStr fio); ("tg_user_id", VNum uid)] ;;
    report_employee j ~;;
    loadAll.

(** *** The delete buttons of the rows

    Each handler reads the name, or the id, from the [dataset] of its
    button. *)

(** [.t-del], for a button whose [dataset.fio] is [fio] *)
Definition delete_thread (fio : string) : Act unit :=
  if negb (confirm ("Удалить тред для " +:+ fio +:+ "?")) then aret tt
  else
    j <~ jdel net_change ("/api/org/threads/" +:+ encodeURIComponent fio) ;;
    report j ~;;
    loadAll ~;;
    setTimeout CbLoadAll 300.

(** [.b-del] *)
Definition delete_brigade (fio : string) : Act unit :=
  if negb (confirm ("Удалить бригадное назначение для " +:+ fio +:+ "?")) then aret tt
  else
    j <~ jdel net_change ("/api/org/brigades/" +:+ encodeURIComponent fio) ;;
    report j ~;;
    loadAll ~;;
    setTimeout CbLoadAll 300.

(** [.e-del], for a button whose [dataset.uid] is [uid] *)
Definition delete_employee (uid : string) : Act unit :=
  if negb (confirm ("Удалить запись uid=" +:+ uid +:+ "?")) then aret tt
  else
    j <~ jdel net_change ("/api/org/employees/" +:+ uid) ;;
    report_employee j ~;;
    loadAll.

(** *** Wiring *)

Definition handler (c : click) : Act unit :=
  match c with
  | SaveThread => save_thread
  | SaveBrigade => save_brigade
  | SaveChat => save_chat
  | SaveEmployee => save_employee
  end.

(** [const b = document.getElementById(id); if(b){ b.onclick = ... }] *)
Definition wire (id : string) (c : click) : Act unit :=
  amodify (fun p =>
    if decide (id ∈ buttons p) then set_onclick (<[id := c]> (onclick p)) p else p).

(** the listener of [DOMContentLoaded] *)
Definition onDOMContentLoaded : Act unit :=
  wire "t-save" SaveThread ~;;
  wire "b-save" SaveBrigade ~;;
  wire "g-save" SaveChat ~;;
  wire "e-save" SaveEmployee ~;;
  unawaited loadAll.

(** *** Requests and pages the functions are shown to reach *)

(** [_withTs(u)] at the clock reading [t] *)
Definition stamped (u : string) (t : Z) : string :=
  u +:+ (if includes u "?" then "&" else "?") +:+ "t=" +:+ Z_to_string t.

(** the request of [jget(u)] *)
Definition reload_call (u : string) (t : Z) : call :=
  {| c_url := stamped u t; c_method := None;
     c_cache := Some "no-store"; c_headers := [("Cache-Control", "no-cache")];
     c_body := None |}.

(** the request of [jpost(u, b)] *)
Definition post_call (u : string) (b : list (string * value)) (t : Z) : call :=
  {| c_url := stamped u t; c_method := Some POST; c_cache := Some "no-store";
     c_headers := [("Content-Type", "application/json"); ("Cache-Control", "no-cache")];
     c_body := Some (JSON_stringify b) |}.

(** the request of [jdel(u)] *)
Definition delete_call (u : string) (t : Z) : call :=
  {| c_url := stamped u t; c_method := Some DELETE; c_cache := Some "no-store";
     c_headers := [("Cache-Control", "no-cache")]; c_body := None |}.

(** the page once a helper has made the request [c] *)
Definition called (c : call) (p : page) : page :=
  set_sent (sent p ++ [c]) (set_reads (S (reads p)) p).

Definition reload_calls (n : nat) : list call :=
  [reload_call "/api/org/threads" (clock_at n);
   reload_call "/api/org/brigades" (clock_at (S n));
   reload_call "/api/org/group_chat_id" (clock_at (S (S n)));
   reload_call "/api/org/employees" (clock_at (S (S (S n))))].

(** the page once the answer [v] of a change was looked at, [msg] being
    what the handler tells about a refusal *)
Definition noted (v : verdict) (msg : string) (p : page) : page :=
  if ToBoolean (j_ok v) then p else set_alerts (alerts p ++ [msg]) p.

(** the page once [loadAll] has made its four calls *)
Definition reloading (p : page) : page :=
  set_sent (sent p ++ reload_calls (reads p)) (set_reads (4 + reads p) p).

(** the four answers [loadAll] waits for *)
Definition reload_threads (p : page) : result Threads :=
  answer "GET" "/api/org/threads"
    (net_threads (sent p) (reload_call "/api/org/threads" (clock_at (reads p)))).
Definition reload_brigades (p : page) : result Brigades :=
  answer "GET" "/api/org/brigades"
    (net_brigades (sent p ++ take 1 (reload_calls (reads p)))
       (reload_call "/api/org/brigades" (clock_at (S (reads p))))).
Definition reload_chat (p : page) : result Chat :=
  answer "GET" "/api/org/group_chat_id"
    (net_chat (sent p ++ take 2 (reload_calls (reads p)))
       (reload_call "/api/org/group_chat_id" (clock_at (S (S (reads p)))))).
Definition reload_employees (p : page) : result Employees :=
  answer "GET" "/api/org/employees"
    (net_employees (sent p ++ take 3 (reload_calls (reads p)))
       (reload_call "/api/org/employees" (clock_at (S (S (S (reads p))))))).

End Script.
End Admin.

(** ** An administration page on the integer host

    The tables hold the rows they were last drawn with; [Number] reads
    a decimal numeral and gives 0, as falsy as NaN, for the rest; the
    clock advances by one at each reading. *)

Record admin_tables : Type := {
  t_rows : list (string * Z);
  b_rows : list (string * string);
  e_rows : list (string * Z)
}.

Definition demo_drawThreads (m : list (string * Z)) (d : admin_tables)
  : Admin.result unit * admin_tables :=
  (Admin.Done tt, {| t_rows := m; b_rows := b_rows d; e_rows := e_rows d |}).

Definition demo_drawBrigades (m : list (string * string)) (d : admin_tables)
  : Admin.result unit * admin_tables :=
  (Admin.Done tt, {| t_rows := t_rows d; b_rows := m; e_rows := e_rows d |}).

Definition demo_drawEmployees (l : list (string * Z)) (d : admin_tables)
  : Admin.result unit * admin_tables :=
  (Admin.Done tt, {| t_rows := t_rows d; b_rows := b_rows d; e_rows := l |}).

(** a page without [#t-table] *)
Definition failing_drawThreads (m : list (string * Z)) (d : admin_tables)
  : Admin.result unit * admin_tables :=
  (Admin.Failed (Admin.Raised (TypeError "document.querySelector(...) is null")), d).

Definition demo_clock (n : nat) : Z := 1700000000000 + Z.of_nat n.

Definition int_Number (s : string) : Z :=
  match NilZero.int_of_string s with
  | Some d => Z.of_int d
  | None => 0
  end.

(** the pairs [name=value], one after the other *)
Definition demo_stringify (b : list (string * @value IntegerNumbers)) : string :=
  fold_right (fun '(k, v) acc => k +:+ "=" +:+ @String_of IntegerNumbers v +:+ ";" +:+ acc)
             "" b.

(** [encodeURIComponent] on letters, digits and spaces *)
Fixpoint percent_spaces (s : string) : string :=
  match s with
  | EmptyString => EmptyString
  | String a s' =>
      if Ascii.eqb a " "%char then "%20" +:+ percent_spaces s'
      else String a (percent_spaces s')
  end.

Definition demo_race (fs : list Admin.failure) : Admin.failure :=
  hd (Admin.Raised NetworkError) fs.

Definition answered {J : Type} (j : J) (_ : list Admin.call) (_ : Admin.call)
  : fetch_result J :=
  Resolved {| ok := true; status := 200; json := Returned j |}.

Definition refused {J : Type} (st : Z) (_ : list Admin.call) (_ : Admin.call)
  : fetch_result J :=
  Resolved {| ok := false; status := st; json := Thrown SyntaxError |}.

Definition demo_admin_page : @Admin.page admin_tables :=
  {| Admin.inputs := list_to_map [("t-fio", " Ivanov "); ("t-thread", "17");
                                  ("b-fio", "Ivanov"); ("b-name", "");
                                  ("g-id", ""); ("e-fio", ""); ("e-uid", "42")];
     Admin.buttons := {["t-save"; "g-save"]};
     Admin.onclick := ∅;
     Admin.dom := {| t_rows := []; b_rows := []; e_rows := [] |};
     Admin.alerts := [];
     Admin.sent := [];
     Admin.reads := 0;
     Admin.timeouts := [];
     Admin.unhandled := [] |}.

(** the same page, with a thread id that is no number *)
Definition mistyped_admin_page : @Admin.page admin_tables :=
  Admin.set_inputs (<["t-thread" := "x17"]> (Admin.inputs demo_admin_page)) demo_admin_page.

(** ** Counting what the sensor delivered *)

Definition is_position `{JsNumber} (ev : GeoWatch.event) : bool :=
  match ev with
  | GeoWatch.EvPosition _ _ => true
  | _ => false
  end.

(** The watches of other scripts, [ws0], all handed out before the
    counter stood at [n0]; the script holds the one in [watchId]. *)
Definition holds_only `{JsNumber} (n0 : Z) (ws0 : list Z) (p : GeoWatch.page) : Prop :=
  exists g : GeoWatch.geolocation,
    GeoWatch.geo p = Some g
    /\ GeoWatch.watches g = option_list (GeoWatch.watchId p) ++ ws0
    /\ (forall id : Z, GeoWatch.watchId p = Some id -> n0 <= id < GeoWatch.next_watch g)
    /\ n0 <= GeoWatch.next_watch g.

(** Every layer on the map is the tile layer [tiles], the polyline the
    global refers to, or the marker [markers] holds for an identity. *)
Definition accounted `{JsNumber} (tiles : positive) (p : OnlineMap.page) : Prop :=
  forall l : positive,
    l ∈ OnlineMap.shown p ->
    l = tiles \/ OnlineMap.polyline p = Some l
    \/ exists id : string, OnlineMap.markers p !! id = Some l.

(** What the pages after [window.onload] keep, for the tile layer
    [tiles]. *)
Definition kept_by_map `{JsNumber} (tiles : positive) (p : OnlineMap.page) : Prop :=
  is_Some (OnlineMap.map p) /\ OnlineMap.wf p
  /\ tiles ∈ dom (OnlineMap.objects p) /\ tiles ∈ OnlineMap.shown p
  /\ OnlineMap.polyline p <> Some tiles
  /\ (forall id : string, OnlineMap.markers p !! id <> Some tiles)
  /\ accounted tiles p.

(** * Theorems *)

(** Open the monad's combinators in the goal. *)
Ltac monad_unfold :=
  cbv beta iota zeta delta [bind ret throw try_catch gets modify].

Lemma spaced_snoc (d : Z) (l : list Z) (t : Z) :
  spaced d (l ++ [t]) <-> spaced d l /\ Forall (fun t' => d <= t - t') l.
Proof.
  induction l as [|a l IH]; simpl.
  - split; [intros _; split; [exact I | constructor] | intros _; split; [constructor | exact I]].
  - rewrite Forall_app, Forall_singleton, IH, Forall_cons. tauto.
Qed.

(** [spaced], read by positions. *)
Lemma spaced_lookup (d : Z) (l : list Z) (i j : nat) (ti tj : Z) :
  spaced d l -> (i < j)%nat -> l !! i = Some ti -> l !! j = Some tj -> d <= tj - ti.
Proof.
  revert i j. induction l as [|a l IH]; intros i j Hs Hij Hi Hj.
  - rewrite lookup_nil in Hi. discriminate.
  - destruct Hs as [Hall Hs]. destruct j as [|j]; [lia|].
    destruct i as [|i]; simpl in Hi, Hj.
    + injection Hi as <-. rewrite Forall_forall in Hall.
      apply Hall. eapply list_elem_of_lookup_2. exact Hj.
    + apply (IH i j); [exact Hs | lia | exact Hi | exact Hj].
Qed.

Module GeoWatchFacts.
Import GeoWatch.
Section Facts.
Context `{JsNumber}.
Variable net : list (Z * request) -> request -> fetch_result unit.

(** [send] issues one request and returns, whatever the network does. *)
Lemma send_run (lat lon acc : value) (p : page) :
  send net lat lon acc p = (Returned tt, log_request (ping lat lon acc) p).
Proof.
  unfold send, fetch, append, ping. monad_unfold.
  destruct (decide (typeof acc = "number")); simpl;
    match goal with |- context [net ?a ?b] => destruct (net a b) end; reflexivity.
Qed.

Lemma onPosition_run (pos : geoposition) (p : page) :
  onPosition net pos p =
  (Returned tt,
   if clock p - lastSent p <? 10000 then p
   else let c := default no_coordinates (coords pos) in
        log_request (ping (latitude c) (longitude c) (accuracy c))
                    (set_lastSent (clock p) p)).
Proof.
  unfold onPosition, Date_now, call_async. monad_unfold.
  destruct (clock p - lastSent p <? 10000); [reflexivity|].
  rewrite send_run. reflexivity.
Qed.

Lemma startWatch_frame (p : page) :
  (is_Some (watchId p) -> is_Some (geo p)) ->
  let p' := snd (startWatch p) in
  sent p' = sent p /\ lastSent p' = lastSent p /\ unhandled p' = unhandled p
  /\ fst (startWatch p) = Returned tt
  /\ (is_Some (watchId p') -> is_Some (geo p')) .
Proof.
  intros Hw. unfold startWatch, watchPosition. monad_unfold. simpl.
  destruct (geo p) as [g|] eqn:Eg, (watchId p) as [w|] eqn:Ew; simpl;
    rewrite ?Eg, ?Ew; repeat split; auto;
    intros [x Hx]; try discriminate; eauto.
Qed.

Lemma stopWatch_frame (p : page) :
  (is_Some (watchId p) -> is_Some (geo p)) ->
  let p' := snd (stopWatch p) in
  sent p' = sent p /\ lastSent p' = lastSent p /\ unhandled p' = unhandled p
  /\ fst (stopWatch p) = Returned tt
  /\ (is_Some (watchId p') -> is_Some (geo p')).
Proof.
  intros Hw. unfold stopWatch, clearWatch. monad_unfold. simpl.
  destruct (watchId p) as [w|] eqn:Ew; simpl.
  - destruct Hw as [g Hg]; [eauto|]. rewrite Hg. simpl.
    repeat split; eauto.
  - rewrite Ew. repeat split; auto; intros [x Hx]; discriminate.
Qed.

Lemma inv_loaded (g : option geolocation) (t : Z) : inv (loaded g t).
Proof.
  unfold inv, loaded, send_times; simpl.
  repeat split; auto. intros [x Hx]; discriminate.
Qed.

Lemma inv_set_clock (t : Z) (p : page) : inv p -> inv (set_clock t p).
Proof. intros Hp. exact Hp. Qed.

Lemma inv_handler (ev : event) (q : page) :
  inv q -> fst (handler net ev q) = Returned tt /\ inv (snd (handler net ev q)).
Proof.
  intros (Hsp & Hle & Hun & Hw).
  destruct ev as [t|t|t pos|t err]; simpl handler.
  - pose proof (startWatch_frame q Hw) as (Fs & Fl & Fu & Fr & Fw).
    split; [exact Fr|]. unfold inv, send_times.
    rewrite Fs, Fl, Fu. auto.
  - pose proof (stopWatch_frame q Hw) as (Fs & Fl & Fu & Fr & Fw).
    split; [exact Fr|]. unfold inv, send_times.
    rewrite Fs, Fl, Fu. auto.
  - rewrite onPosition_run. split; [reflexivity|]. simpl snd.
    destruct (clock q - lastSent q <? 10000) eqn:Et.
    + exact (conj Hsp (conj Hle (conj Hun Hw))).
    + apply Z.ltb_ge in Et. unfold inv, send_times; simpl.
      rewrite fmap_app; simpl. rewrite spaced_snoc, Forall_app, Forall_singleton.
      repeat split; auto.
      * eapply Forall_impl; [exact Hle|]. simpl; intros; lia.
      * eapply Forall_impl; [exact Hle|]. simpl; intros; lia.
      * lia.
  - split; [reflexivity|]. exact (conj Hsp (conj Hle (conj Hun Hw))).
Qed.

Lemma inv_step (ev : event) (p : page) :
  inv p -> fst (step net ev p) = Returned tt /\ inv (snd (step net ev p)).
Proof.
  intros Hp. unfold step. apply inv_handler, inv_set_clock, Hp.
Qed.

Lemma inv_run (evs : list event) (p : page) : inv p -> inv (run net evs p).
Proof.
  revert p. induction evs as [|ev evs IH]; intros p Hp; simpl; [exact Hp|].
  apply IH. apply inv_step. exact Hp.
Qed.

(** C1. Whatever the browser and the template do to the page, and
    however the clock that [Date.now()] reads moves: (a) a position
    callback that finds that clock less than 10000 ms past [lastSent]
    returns with the page as it was, nothing sent, and otherwise it
    records the reading in [lastSent] and one request leaves; (b) any
    two requests that left the page did so at readings at least
    10000 ms apart, so consecutive ones in particular. *)
Theorem throttle_ten_seconds (g : option geolocation) (t0 : Z) (evs : list event) :
  (forall (pos : geoposition) (p : page),
      if clock p - lastSent p <? 10000
      then onPosition net pos p = (Returned tt, p)
      else exists r : request,
          onPosition net pos p
          = (Returned tt, log_request r (set_lastSent (clock p) p)))
  /\ spaced 10000 (send_times (run net evs (loaded g t0)))
  /\ (forall (i j : nat) (ti tj : Z),
         (i < j)%nat ->
         send_times (run net evs (loaded g t0)) !! i = Some ti ->
         send_times (run net evs (loaded g t0)) !! j = Some tj ->
         10000 <= tj - ti).
Proof.
  pose proof (inv_run evs _ (inv_loaded g t0)) as (Hsp & _).
  split; [|split].
  - intros pos p. rewrite onPosition_run.
    destruct (clock p - lastSent p <? 10000); [reflexivity|].
    eexists. reflexivity.
  - exact Hsp.
  - intros i j ti tj. apply spaced_lookup. exact Hsp.
Qed.

(** C2. Every call of [send] issues one POST to /api/geo/ping whose
    body has the fields lat and lon, followed by acc exactly when
    [typeof acc] is number, and no other field: none named ts,
    timestamp or time, so the time of a sample is the server's to set. *)
Theorem send_body_has_no_timestamp (lat lon acc : value) (p : page) :
  exists r : request,
    send net lat lon acc p = (Returned tt, log_request r p)
    /\ url r = "/api/geo/ping"
    /\ request_method r = POST
    /\ request_fields r
       = ["lat"; "lon"] ++ (if decide (typeof acc = "number") then ["acc"] else [])
    /\ (forall k : string, k ∈ request_fields r -> k = "lat" \/ k = "lon" \/ k = "acc")
    /\ ("ts" ∉ request_fields r)
    /\ ("timestamp" ∉ request_fields r)
    /\ ("time" ∉ request_fields r).
Proof.
  exists (ping lat lon acc). split; [apply send_run|].
  assert (Hk : forall k : string, k ∈ request_fields (ping lat lon acc) ->
                                  k = "lat" \/ k = "lon" \/ k = "acc").
  { intros k. unfold request_fields, ping; simpl.
    destruct (decide (typeof acc = "number")); simpl;
      rewrite ?elem_of_cons, elem_of_nil; tauto. }
  repeat split; try reflexivity.
  - unfold request_fields, ping; simpl.
    destruct (decide (typeof acc = "number")); reflexivity.
  - exact Hk.
  - intros Hin. destruct (Hk _ Hin) as [E|[E|E]]; discriminate E.
  - intros Hin. destruct (Hk _ Hin) as [E|[E|E]]; discriminate E.
  - intros Hin. destruct (Hk _ Hin) as [E|[E|E]]; discriminate E.
Qed.

(** C4. The reporting path surfaces no error: (a) [send] returns
    normally and leaves no unhandled rejection, however the network
    answers, a rejected fetch included; (b) the geolocation error
    callback returns with the page unchanged; (c) without
    [navigator.geolocation], [startWatch] returns with the page
    unchanged, so no watch is registered; (d) along every sequence of
    events from the freshly loaded page no handler throws and no
    rejection is left unhandled. *)
Theorem reporting_surfaces_no_error (g : option geolocation) (t0 : Z) (evs : list event) :
  (forall (lat lon acc : value) (p : page),
      fst (send net lat lon acc p) = Returned tt
      /\ unhandled (snd (send net lat lon acc p)) = unhandled p)
  /\ (forall (err : string) (p : page), onError err p = (Returned tt, p))
  /\ (forall p : page, geo p = None -> startWatch p = (Returned tt, p))
  /\ unhandled (run net evs (loaded g t0)) = []
  /\ (forall ev : event, fst (step net ev (run net evs (loaded g t0))) = Returned tt).
Proof.
  pose proof (inv_run evs _ (inv_loaded g t0)) as Hinv.
  repeat split.
  - rewrite send_run. reflexivity.
  - rewrite send_run. reflexivity.
  - intros p Hg. unfold startWatch. monad_unfold. rewrite Hg. reflexivity.
  - apply Hinv.
  - intros ev. apply inv_step, Hinv.
Qed.

End Facts.

(** A run on the integer host: the sensor fires every 4 s, starting at
    a clock reading of 1700000000000 ms, on a network that rejects
    everything; the 1st, 4th and 7th readings are sent. *)
Example throttle_run :
  let pos := {| coords := Some {| latitude := @VNum IntegerNumbers 55;
                                  longitude := @VNum IntegerNumbers 37;
                                  accuracy := @VUndefined IntegerNumbers |} |} in
  let evs := EvStartWatch 1699999999000
             :: ((fun k => EvPosition (1700000000000 + 4000 * k) pos)
                   <$> [0; 1; 2; 3; 4; 5; 6]) in
  let p := run (fun _ _ => Rejected NetworkError) evs
               (loaded (Some {| next_watch := 1; watches := [] |}) 0) in
  send_times p = [1700000000000; 1700000012000; 1700000024000]
  /\ (request_fields ∘ snd <$> sent p) = [["lat"; "lon"]; ["lat"; "lon"]; ["lat"; "lon"]]
  /\ watchId p = Some 1 /\ unhandled p = [].
Proof. vm_compute. repeat split. Qed.

End GeoWatchFacts.

(** ** Strings *)

Lemma prefix_app (q s : string) :
  String.prefix q s = true <-> exists b : string, s = q +:+ b.
Proof.
  revert s. induction q as [|a q IH]; intros s.
  - split; [intros _; exists s; reflexivity | destruct s; reflexivity].
  - destruct s as [|c s]; simpl.
    + split; [discriminate | intros [b Hb]; discriminate Hb].
    + destruct (ascii_dec a c) as [->|Hne].
      * rewrite IH. split; intros [b Hb]; exists b.
        -- rewrite Hb. reflexivity.
        -- injection Hb as ->. reflexivity.
      * split; [discriminate | intros [b Hb]]. injection Hb as -> _. contradiction.
Qed.

(** [includes] finds exactly the substrings. *)
Lemma includes_substring (s q : string) :
  includes s q = true <-> exists a b : string, s = a +:+ q +:+ b.
Proof.
  induction s as [|c s IH].
  - cbn [includes]. rewrite orb_false_r, prefix_app. split.
    + intros [b Hb]. exists "", b. exact Hb.
    + intros ([|x a] & b & Hab); [exists b; exact Hab | discriminate Hab].
  - cbn [includes]. rewrite orb_true_iff, prefix_app, IH. split.
    + intros [[b Hb] | (a & b & Hab)].
      * exists "", b. exact Hb.
      * exists (String c a), b. simpl. rewrite Hab. reflexivity.
    + intros ([|x a] & b & Hab).
      * left. exists b. exact Hab.
      * right. injection Hab as -> ->. exists a, b. reflexivity.
Qed.

Lemma includes_empty (s : string) : includes s "" = true.
Proof. destruct s; reflexivity. Qed.

Lemma str_truthy_false (s : string) : str_truthy s = false <-> s = "".
Proof. destruct s; simpl; split; congruence. Qed.

Lemma or_empty_id (v : string) : (if str_truthy v then v else "") = v.
Proof. destruct v; reflexivity. Qed.

(** [trim] on blanks, tabs and line ends, on a no-break space (U+00A0)
    and on the byte order mark (U+FEFF); blanks inside stay. *)
Example trim_examples :
  trim "  a b  " = "a b"
  /\ trim (String (ascii_of_nat 9) ("x" +:+ String (ascii_of_nat 10) "")) = "x"
  /\ trim (String (ascii_of_nat 194) (String (ascii_of_nat 160) "x")) = "x"
  /\ trim ("x" +:+ String (ascii_of_nat 239)
                     (String (ascii_of_nat 187) (String (ascii_of_nat 191) ""))) = "x"
  /\ trim "   " = "" /\ trim "" = "".
Proof. repeat split. Qed.

Example includes_examples :
  includes "ivanov" "van" = true /\ includes "ivanov" "" = true
  /\ includes "ivanov" "vn" = false /\ includes "" "a" = false.
Proof. repeat split. Qed.

Module ManagerFacts.
Import Manager.
Section Facts.
Context `{JsNumber} `{JsString}.

Lemma new_array_run (xs : list entry) (p : page) :
  new_array xs p
  = (Returned (fresh (dom (arrays p))),
     set_arrays (<[fresh (dom (arrays p)) := xs]> (arrays p)) p).
Proof. reflexivity. Qed.

Lemma fresh_unused (a : gmap positive (list entry)) : a !! fresh (dom a) = None.
Proof. apply not_elem_of_dom, is_fresh. Qed.

Lemma read_array_run (l : positive) (xs : list entry) (p : page) :
  arrays p !! l = Some xs -> read_array l p = (Returned xs, p).
Proof. intros Hl. unfold read_array. monad_unfold. rewrite Hl. reflexivity. Qed.

(** the search test of the script is the containment test of the
    specification, on the trimmed text *)
Lemma passes_kept (status v : string) (e : entry) :
  passes status (toLowerCase (trim v)) e = kept status (trim v) e.
Proof.
  unfold passes, kept, contains_ci. f_equal.
  destruct (trim v) as [|c t] eqn:Et.
  - rewrite toLowerCase_empty. reflexivity.
  - rewrite bool_decide_eq_false_2 by discriminate.
    destruct (str_truthy (toLowerCase (String c t))) eqn:Eq; [reflexivity|].
    apply str_truthy_false in Eq. rewrite Eq, includes_empty. reflexivity.
Qed.

Lemma applyFilters_run (items : positive) (xs : list entry) (p : page) :
  arrays p !! items = Some xs ->
  applyFilters (Ref items) p
  = (Returned (fresh (dom (arrays p))),
     set_arrays (<[fresh (dom (arrays p)) :=
                     filter_spec (status_filter p) (trim (search p)) xs]> (arrays p)) p).
Proof.
  intros Hl. unfold applyFilters, read_items. monad_unfold. rewrite or_empty_id.
  rewrite (read_array_run _ _ _ Hl), new_array_run.
  unfold filter_spec. do 3 f_equal. apply filter_ext. intros e. apply passes_kept.
Qed.

Lemma set_employees_same (p : page) : set_employees (employees p) p = p.
Proof. destruct p; reflexivity. Qed.

Lemma for_each_cards (f : entry -> node) (xs : list entry) (p : page) :
  for_each xs (fun e => wrap_appendChild (f e)) p
  = (Returned tt, set_employees (employees p ++ (f <$> xs)) p).
Proof.
  revert p. induction xs as [|x xs IH]; intros p; simpl.
  - unfold ret. rewrite app_nil_r, set_employees_same. reflexivity.
  - monad_unfold. unfold wrap_appendChild at 1. monad_unfold. rewrite IH.
    simpl. rewrite <- app_assoc. reflexivity.
Qed.

Lemma renderList_run (items : positive) (xs : list entry) (p : page) :
  arrays p !! items = Some xs ->
  renderList items p = (Returned tt, set_employees (rendering xs) p).
Proof.
  intros Hl. unfold renderList. monad_unfold.
  rewrite (read_array_run items xs) by exact Hl.
  destruct xs as [|x xs]; cbn [length Nat.eqb].
  - reflexivity.
  - rewrite for_each_cards. reflexivity.
Qed.

End Facts.

Section Network.
Context `{JsNumber} `{JsString}.
Variable net : list request -> request -> fetch_result (parsed entry).

Lemma fetchEmployees_run (p : page) :
  fetchEmployees net p
  = match net (sent p) roster_request with
    | Rejected e => (Thrown e, requested p)
    | Resolved r =>
        if ok r then
          match json r with
          | Returned (Array_of data) => (l <- new_array data ;; ret (Ref l)) (requested p)
          | Returned (Not_array v) => (Returned (Plain v), requested p)
          | Thrown e => (Thrown e, requested p)
          end
        else (l <- new_array [] ;; ret (Ref l)) (requested p)
    end.
Proof.
  unfold fetchEmployees, fetch, res_json. monad_unfold.
  fold roster_request. fold (requested p).
  destruct (net (sent p) roster_request) as [e|r]; [reflexivity|].
  destruct (ok r); simpl; [|reflexivity].
  destruct (json r) as [[data|v]|e]; reflexivity.
Qed.

Lemma pipeline_run (data : list entry) (p : page) :
  (d <- (l <- new_array data ;; ret (Ref l)) ;;
   shown <- applyFilters d ;; renderList shown) p
  = (Returned tt, rendered data p).
Proof.
  unfold bind at 1. unfold bind at 1. rewrite new_array_run. unfold ret at 1.
  unfold bind at 1. erewrite applyFilters_run by (simpl; apply lookup_insert_eq).
  erewrite renderList_run by (simpl; apply lookup_insert_eq).
  reflexivity.
Qed.

(** a body that is no array stops [applyFilters] at [items.filter] *)
Lemma stray_run (v : non_array) (p : page) :
  (shown <- applyFilters (Plain v) ;; renderList shown) p
  = (Thrown (no_method v "items" "filter"), p).
Proof. reflexivity. Qed.

Lemma refresh_run (p : page) :
  refresh net p
  = (Returned tt,
     match net (sent p) roster_request with
     | Rejected e => failed e (requested p)
     | Resolved r =>
         if ok r then
           match json r with
           | Returned (Array_of data) => rendered data (requested p)
           | Returned (Not_array v) => failed (no_method v "items" "filter") (requested p)
           | Thrown e => failed e (requested p)
           end
         else rendered [] (requested p)
     end).
Proof.
  unfold refresh, try_catch.
  assert (Hb : forall k : jsval -> M page unit,
             (data <- fetchEmployees net ;; k data) p
             = match fetchEmployees net p with
               | (Returned d, p') => k d p'
               | (Thrown e, p') => (Thrown e, p')
               end) by reflexivity.
  rewrite Hb, fetchEmployees_run.
  destruct (net (sent p) roster_request) as [e|r]; [reflexivity|].
  destruct (ok r).
  - destruct (json r) as [[data|v]|e]; [| |reflexivity].
    + change (match (l <- new_array data ;; ret (Ref l)) (requested p) with
              | (Returned d, p') => (shown <- applyFilters d ;; renderList shown) p'
              | (Thrown e, p') => (Thrown e, p')
              end)
        with ((d <- (l <- new_array data ;; ret (Ref l)) ;;
               shown <- applyFilters d ;; renderList shown) (requested p)).
      rewrite pipeline_run. reflexivity.
    + rewrite stray_run. reflexivity.
  - change (match (l <- new_array [] ;; ret (Ref l)) (requested p) with
            | (Returned d, p') => (shown <- applyFilters d ;; renderList shown) p'
            | (Thrown e, p') => (Thrown e, p')
            end)
      with ((d <- (l <- new_array [] ;; ret (Ref l)) ;;
             shown <- applyFilters d ;; renderList shown) (requested p)).
    rewrite pipeline_run. reflexivity.
Qed.

Lemma refresh_frame (p : page) :
  fst (refresh net p) = Returned tt
  /\ sent (snd (refresh net p)) = sent p ++ [roster_request]
  /\ intervals (snd (refresh net p)) = intervals p
  /\ listeners (snd (refresh net p)) = listeners p
  /\ unhandled (snd (refresh net p)) = unhandled p.
Proof.
  rewrite refresh_run. simpl.
  destruct (net (sent p) roster_request) as [e|r]; [repeat split|].
  destruct (ok r); [|repeat split].
  destruct (json r) as [[data|v]|e]; repeat split.
Qed.

Lemma call_async_refresh (p : page) : call_async (refresh net) p = refresh net p.
Proof. unfold call_async. rewrite refresh_run. reflexivity. Qed.

Lemma onDOMContentLoaded_frame (p : page) :
  let p' := snd (onDOMContentLoaded net p) in
  fst (onDOMContentLoaded net p) = Returned tt
  /\ intervals p' = intervals p ++ [(CbRefresh, 15000)]
  /\ sent p' = sent p ++ [roster_request]
  /\ unhandled p' = unhandled p.
Proof.
  unfold onDOMContentLoaded, addEventListener, setInterval. monad_unfold.
  rewrite call_async_refresh.
  match goal with |- context [refresh net ?q] =>
    pose proof (refresh_frame q) as (Fr & Fs & Fi & _ & Fu);
    destruct (refresh net q) as [o q'] end.
  simpl in *. subst o. simpl. rewrite Fs, Fi, Fu. auto.
Qed.

End Network.

Section Claims.
Context `{JsNumber} `{JsString}.

(** C6, as the code has it. For every array [items] of the page and
    every setting of the two controls, [applyFilters] returns a new
    array holding, in their order, exactly the entries whose
    [fresh_status] is the selected status (all of them when the
    selection is all) and whose [employee_id] contains, without regard
    to case, the search text with the white space at its ends trimmed
    (all of them when the trimmed text is empty); the page is otherwise
    as it was: the input array and every other array hold what they
    held, the controls and the rendered list are untouched, and no
    request leaves the page. *)
Theorem applyFilters_filters_trimmed (items : positive) (xs : list entry) (p : page) :
  arrays p !! items = Some xs ->
  exists (l : positive) (p' : page),
    applyFilters (Ref items) p = (Returned l, p')
    /\ arrays p !! l = None
    /\ arrays p' !! l = Some (filter_spec (status_filter p) (trim (search p)) xs)
    /\ (forall e : entry,
           e ∈ filter_spec (status_filter p) (trim (search p)) xs <->
           e ∈ xs
           /\ (status_filter p = "all" \/ fresh_status e = status_filter p)
           /\ (trim (search p) = ""
               \/ exists a b : string,
                   toLowerCase (employee_id e)
                   = a +:+ toLowerCase (trim (search p)) +:+ b))
    /\ p' = set_arrays (<[l := filter_spec (status_filter p) (trim (search p)) xs]>
                          (arrays p)) p
    /\ (forall (l' : positive) (ys : list entry),
           arrays p !! l' = Some ys -> arrays p' !! l' = Some ys)
    /\ status_filter p' = status_filter p /\ search p' = search p
    /\ employees p' = employees p /\ sent p' = sent p.
Proof.
  intros Hl. eexists _, _. split; [apply applyFilters_run; exact Hl|].
  pose proof (fresh_unused (arrays p)) as Hf.
  split; [exact Hf|]. split; [simpl; apply lookup_insert_eq|].
  split.
  { intros e. unfold filter_spec. rewrite list_elem_of_In, filter_In, <- list_elem_of_In.
    unfold kept, contains_ci.
    rewrite andb_true_iff, !orb_true_iff, !bool_decide_eq_true, includes_substring.
    reflexivity. }
  split; [reflexivity|]. split; [|repeat split].
  intros l' ys Hl'. simpl. rewrite lookup_insert_ne; [exact Hl'|].
  intros E. rewrite <- E, Hf in Hl'. discriminate.
Qed.

Lemma card_not_error (e : entry) : card_of e <> error_notice.
Proof. unfold card_of, error_notice. simpl. intros E. discriminate E. Qed.

Lemma rendering_not_error (xs : list entry) : rendering xs <> [error_notice].
Proof.
  destruct xs as [|x [|y xs]]; simpl; intros E.
  - discriminate E.
  - apply (card_not_error x). congruence.
  - discriminate E.
Qed.

(** C9, as the code has it.  When the roster request is answered with
    a status that is not OK, [fetchEmployees] returns a new empty
    array and throws nothing, and [refresh] leaves the page exactly as
    an OK answer carrying the empty roster does, with the no-data
    notice under [#employees].  The error notice is what [refresh]
    leaves there when the fetch was rejected, when the body of an OK
    answer failed to parse, and also when that body parsed to a value
    that is no array, [items.filter] then throwing inside the [try];
    it is not what an answer that is not OK, or an OK answer whose
    body is an array of roster entries, leaves there, and those two
    write nothing to the console. *)
Theorem non_ok_roster_renders_empty
    (net net' : list request -> request -> fetch_result (parsed entry))
    (p : page) (r r' : response (parsed entry)) :
  net (sent p) roster_request = Resolved r -> ok r = false ->
  net' (sent p) roster_request = Resolved r' -> ok r' = true ->
  json r' = Returned (Array_of []) ->
  (exists (l : positive) (p1 : page),
      fetchEmployees net p = (Returned (Ref l), p1) /\ arrays p1 !! l = Some [])
  /\ employees (snd (refresh net p)) = [empty_notice]
  /\ refresh net p = refresh net' p
  /\ (forall net'' : list request -> request -> fetch_result (parsed entry),
         (exists e : exn, net'' (sent p) roster_request = Rejected e)
         \/ (exists (r'' : response (parsed entry)) (e : exn),
                net'' (sent p) roster_request = Resolved r''
                /\ ok r'' = true /\ json r'' = Thrown e)
         \/ (exists (r'' : response (parsed entry)) (v : non_array),
                net'' (sent p) roster_request = Resolved r''
                /\ ok r'' = true /\ json r'' = Returned (Not_array v)) ->
         exists e : exn,
           refresh net'' p = (Returned tt, failed e (requested p))
           /\ employees (snd (refresh net'' p)) = [error_notice]
           /\ console (snd (refresh net'' p)) = console p ++ [e])
  /\ (forall (net'' : list request -> request -> fetch_result (parsed entry))
             (r'' : response (parsed entry)),
         net'' (sent p) roster_request = Resolved r'' ->
         ok r'' = false \/ (exists data : list entry, json r'' = Returned (Array_of data)) ->
         employees (snd (refresh net'' p)) <> [error_notice]
         /\ console (snd (refresh net'' p)) = console p).
Proof.
  intros Hn Hr Hn' Hr' Hj. split; [|split; [|split; [|split]]].
  - rewrite fetchEmployees_run, Hn, Hr. unfold bind. rewrite new_array_run.
    eexists _, _. split; [reflexivity|]. simpl. apply lookup_insert_eq.
  - rewrite refresh_run, Hn, Hr. reflexivity.
  - rewrite !refresh_run, Hn, Hr, Hn', Hr', Hj. reflexivity.
  - intros net'' Hfail. rewrite refresh_run.
    destruct Hfail as [(e & En) | [(r'' & e & En & Eo & Ej) | (r'' & v & En & Eo & Ej)]];
      rewrite En, ?Eo, ?Ej; eexists; repeat split; reflexivity.
  - intros net'' r'' En Hfine. rewrite refresh_run, En.
    destruct (ok r'') eqn:Eo.
    + destruct Hfine as [?|(data & Ej)]; [discriminate|]. rewrite Ej.
      split; [apply rendering_not_error | reflexivity].
    + split; [apply rendering_not_error | reflexivity].
Qed.

End Claims.

(** C9 on the integer host: the endpoint answers 502 to one dashboard
    and 200 with an empty roster to another. *)
Lemma non_ok_roster_renders_empty_witness :
  let bad : response (parsed (@entry IntegerNumbers)) :=
    {| ok := false; status := 502; json := Thrown SyntaxError |} in
  let good : response (parsed (@entry IntegerNumbers)) :=
    {| ok := true; status := 200; json := Returned (Array_of []) |} in
  let p := @fresh_page IntegerNumbers "all" "" in
  @employees IntegerNumbers
    (snd (@refresh IntegerNumbers BasicLatin (fun _ _ => Resolved bad) p))
  = [empty_notice]
  /\ @refresh IntegerNumbers BasicLatin (fun _ _ => Resolved bad) p
     = @refresh IntegerNumbers BasicLatin (fun _ _ => Resolved good) p.
Proof.
  intros bad good p.
  destruct (@non_ok_roster_renders_empty IntegerNumbers BasicLatin
              (fun _ _ => Resolved bad) (fun _ _ => Resolved good) p bad good
              eq_refl eq_refl eq_refl eq_refl eq_refl)
    as (_ & Hshown & Hsame & _).
  split; [exact Hshown | exact Hsame].
Defined.

(** C9 as it was claimed, on the integer host: the endpoint answers 200
    with the body null.  The fetch is not rejected and the body parses,
    and the dashboard shows the error notice. *)
Lemma null_body_reaches_error_display :
  let answer : response (parsed (@entry IntegerNumbers)) :=
    {| ok := true; status := 200; json := Returned (Not_array JNull) |} in
  let p := @fresh_page IntegerNumbers "all" "" in
  ok answer = true
  /\ json answer = Returned (Not_array JNull)
  /\ @refresh IntegerNumbers BasicLatin (fun _ _ => Resolved answer) p
     = (Returned tt,
        failed (TypeError "Cannot read properties of null (reading 'filter')")
          (requested p))
  /\ @employees IntegerNumbers
       (snd (@refresh IntegerNumbers BasicLatin (fun _ _ => Resolved answer) p))
     = [error_notice].
Proof. repeat split; reflexivity. Qed.

(** The list dashboard on the integer host: a roster of two, the
    status control on stale. *)
Example refresh_run_example :
  let roster := [int_entry "Bob" "fresh" 1700000000 55 37 None;
                 int_entry "Eve" "stale" 1700000100 56 38 (Some 12)] in
  let net := fun (_ : list request) (_ : request) =>
               Resolved {| ok := true; status := 200; json := Returned (Array_of roster) |} in
  let p := snd (@refresh IntegerNumbers BasicLatin net
                  (@fresh_page IntegerNumbers "stale" "")) in
  employees p
  = [Element "div" "emp stale" "" []
       [Element "div" "fio" "Eve" [] [];
        Element "div" "meta"
          "Последняя точка: 22:15:00 · 56.00000, 38.00000 · ±12м" [] [];
        Element "div" "actions" "" []
          [Element "a" "" "Открыть карту"
             [("href", "/online"); ("target", "_blank")] []]]]
  /\ sent p = [roster_request] /\ console p = [].
Proof. repeat split. Qed.

(** C6 on the integer host: with the status control on all and a
    single space typed in the search box, the roster with the one entry
    bob comes back whole, while no entry of it contains a space. *)
Lemma applyFilters_blank_search :
  let bob := int_entry "bob" "fresh" 1700000000 55 37 None in
  let p := @set_arrays IntegerNumbers {[1%positive := [bob]]}
             (@fresh_page IntegerNumbers "all" " ") in
  @applyFilters_result IntegerNumbers BasicLatin 1%positive p = Some [bob]
  /\ @filter_spec IntegerNumbers BasicLatin (status_filter p) (search p) [bob] = [].
Proof. split; reflexivity. Qed.

Lemma applyFilters_filters_trimmed_witness :
  let bob := int_entry "Bob" "fresh" 1700000000 55 37 None in
  let eve := int_entry "Eve" "stale" 1700000100 56 38 (Some 12) in
  let p := @set_arrays IntegerNumbers {[1%positive := [bob; eve]]}
             (@fresh_page IntegerNumbers "all" " bO ") in
  exists (l : positive) (p' : @page IntegerNumbers),
    @applyFilters IntegerNumbers BasicLatin (Ref 1%positive) p = (Returned l, p')
    /\ arrays p' !! l = Some [bob]
    /\ arrays p' !! 1%positive = Some [bob; eve].
Proof.
  intros bob eve p.
  destruct (@applyFilters_filters_trimmed IntegerNumbers BasicLatin 1%positive [bob; eve] p)
    as (l & p' & Hrun & _ & Hres & _ & _ & Hframe & _).
  - reflexivity.
  - exists l, p'. split; [exact Hrun|]. split; [exact Hres|].
    apply Hframe. reflexivity.
Defined.

End ManagerFacts.

Module OnlineMapFacts.
Import OnlineMap.
Section Facts.
Context {host : JsNumber}.
Variable net_roster : list request -> request -> fetch_result (parsed employee).
Variable net_track : list request -> request -> fetch_result track.

Lemma set_map_same (p : page) : set_map (map p) p = p.
Proof. destruct p; reflexivity. Qed.

Lemma with_layers_same (m : leaflet_map) : with_layers (on_map m) m = m.
Proof. destruct m; reflexivity. Qed.

Lemma removeLayer_run (l : positive) (p : page) (m : leaflet_map) :
  map p = Some m ->
  removeLayer l p = (Returned tt, set_map (Some (with_layers (on_map m ∖ {[l]}) m)) p).
Proof. intros Hm. unfold removeLayer, the_map. monad_unfold. rewrite Hm. reflexivity. Qed.

Lemma addTo_run (l : positive) (p : page) (m : leaflet_map) :
  map p = Some m ->
  addTo l p = (Returned tt, set_map (Some (with_layers ({[l]} ∪ on_map m) m)) p).
Proof. intros Hm. unfold addTo, the_map. monad_unfold. rewrite Hm. reflexivity. Qed.

Lemma clear_track_run (id : string) (p : page) (m : leaflet_map) :
  map p = Some m ->
  clear_track id p
  = (Returned tt, set_map (Some (with_layers (on_map m ∖ stale_layers id p) m)) p).
Proof.
  intros Hm. unfold clear_track, stale_layers. unfold bind at 1, gets at 1.
  destruct (polyline p) as [l|] eqn:Epl; unfold bind at 1.
  - rewrite (removeLayer_run l p m Hm). unfold bind at 1, gets at 1.
    cbn [markers set_map].
    destruct (markers p !! id) as [k|] eqn:Emk.
    + erewrite removeLayer_run by reflexivity.
      replace (on_map m ∖ (layer_set (Some l) ∪ layer_set (Some k)))
        with (on_map m ∖ {[l]} ∖ {[k]}) by (unfold layer_set; set_solver).
      reflexivity.
    + replace (on_map m ∖ (layer_set (Some l) ∪ layer_set None))
        with (on_map m ∖ {[l]}) by (unfold layer_set; set_solver).
      reflexivity.
  - unfold ret at 1. unfold bind at 1, gets at 1.
    destruct (markers p !! id) as [k|] eqn:Emk.
    + rewrite (removeLayer_run k p m Hm).
      replace (on_map m ∖ (layer_set None ∪ layer_set (Some k)))
        with (on_map m ∖ {[k]}) by (unfold layer_set; set_solver).
      reflexivity.
    + replace (on_map m ∖ (layer_set None ∪ layer_set None))
        with (on_map m) by (unfold layer_set; set_solver).
      rewrite with_layers_same, <- Hm, set_map_same. reflexivity.
Qed.

Ltac page_simpl :=
  cbn [map markers polyline objects list_items intervals today_iso sent unhandled
       set_map set_markers set_polyline set_objects set_list_items set_intervals
       set_sent set_unhandled requested fst snd container on_map map_view with_layers]
    in *.

Lemma new_layer_run (l : layer) (p : page) :
  new_layer l p
  = (Returned (fresh (dom (objects p))),
     set_objects (<[fresh (dom (objects p)) := l]> (objects p)) p).
Proof. reflexivity. Qed.

Lemma bindPopup_run (l : positive) (c : string) (p : page) (ll : latlng) (old : option string) :
  objects p !! l = Some (Marker ll old) ->
  bindPopup l c p = (Returned tt, set_objects (<[l := Marker ll (Some c)]> (objects p)) p).
Proof. intros Hl. unfold bindPopup. monad_unfold. rewrite Hl. reflexivity. Qed.

Lemma getBounds_run (l : positive) (p : page) (lls : list latlng) (c : string) :
  objects p !! l = Some (Polyline lls c) -> getBounds l p = (Returned lls, p).
Proof. intros Hl. unfold getBounds. monad_unfold. rewrite Hl. reflexivity. Qed.

Lemma fitBounds_run (b : list latlng) (p : page) (m : leaflet_map) :
  map p = Some m ->
  fitBounds b p
  = (Returned tt,
     set_map (Some {| container := container m; on_map := on_map m;
                      map_view := Some (FitBounds b) |}) p).
Proof. intros Hm. unfold fitBounds, the_map. monad_unfold. rewrite Hm. reflexivity. Qed.

Lemma fresh_layer_unused (o : gmap positive layer) : o !! fresh (dom o) = None.
Proof. apply not_elem_of_dom, is_fresh. Qed.

Lemma fresh_layer_ne (o : gmap positive layer) (l : positive) :
  l ∈ dom o -> fresh (dom o) <> l.
Proof. intros Hl E. apply (is_fresh (dom o)). rewrite E. exact Hl. Qed.

Lemma plot_track_run (id : string) (data : track) (p : page) (m : leaflet_map) (ll : latlng) :
  map p = Some m ->
  last (latlngs_of (points data)) = Some ll ->
  let latlngs := latlngs_of (points data) in
  let r1 := fresh (dom (objects p)) in
  let o1 := <[r1 := Polyline latlngs "blue"]> (objects p) in
  let r2 := fresh (dom o1) in
  plot_track id data p
  = (Returned tt,
     set_map (Some {| container := container m;
                      on_map := {[r2]} ∪ ({[r1]} ∪ on_map m);
                      map_view := Some (FitBounds latlngs) |})
       (set_markers (<[id := r2]> (markers p))
          (set_objects (<[r2 := Marker ll (Some id)]> (<[r2 := Marker ll None]> o1))
             (set_polyline (Some r1) p)))).
Proof.
  intros Hm Hlast latlngs r1 o1 r2.
  assert (Hne : r2 <> r1).
  { apply fresh_layer_ne. subst o1. rewrite dom_insert_L. set_solver. }
  unfold plot_track, L_polyline, L_marker. fold latlngs.
  replace (latlngs !! (length latlngs - 1)%nat) with (Some ll)
    by (rewrite <- Hlast, last_lookup, Nat.sub_1_r; reflexivity).
  unfold bind at 1. rewrite new_layer_run. fold r1. fold o1.
  unfold bind at 1. erewrite addTo_run by (page_simpl; exact Hm).
  unfold bind at 1, modify at 1.
  unfold bind at 1. rewrite new_layer_run. page_simpl. fold r2.
  unfold bind at 1. erewrite addTo_run by (page_simpl; reflexivity).
  unfold bind at 1.
  erewrite bindPopup_run by (page_simpl; apply lookup_insert_eq).
  unfold bind at 1, modify at 1.
  unfold bind at 1, gets at 1. page_simpl.
  unfold bind at 1.
  erewrite getBounds_run
    by (page_simpl; rewrite !lookup_insert_ne by exact Hne; apply lookup_insert_eq).
  erewrite fitBounds_run by (page_simpl; reflexivity).
  reflexivity.
Qed.

Lemma showTrack_draw_run (id : string) (data : track) (p : page) (m : leaflet_map) :
  map p = Some m ->
  showTrack_draw id data p
  = let cleared := set_map (Some (with_layers (on_map m ∖ stale_layers id p) m)) p in
    match points data with
    | [] => (Returned tt, cleared)
    | _ :: _ => plot_track id data cleared
    end.
Proof.
  intros Hm. unfold showTrack_draw. unfold bind at 1.
  rewrite (clear_track_run id p m Hm).
  destruct (points data); reflexivity.
Qed.

Lemma showTrack_run (id : string) (p : page) :
  showTrack net_track id p
  = let r := track_request id (today_iso p) in
    match net_track (sent p) r with
    | Rejected e => (Thrown e, requested r p)
    | Resolved resp =>
        match json resp with
        | Returned data => showTrack_draw id data (requested r p)
        | Thrown e => (Thrown e, requested r p)
        end
    end.
Proof.
  unfold showTrack, fetch, res_json. monad_unfold.
  fold (track_request id (today_iso p)).
  fold (requested (track_request id (today_iso p)) p).
  destruct (net_track (sent p) (track_request id (today_iso p))) as [e|resp];
    [reflexivity|].
  destruct (json resp); reflexivity.
Qed.

Lemma set_list_items_same (p : page) : set_list_items (list_items p) p = p.
Proof. destruct p; reflexivity. Qed.

Lemma for_each_items (data : list employee) (p : page) :
  for_each data (fun emp =>
    modify (fun p => set_list_items (list_items p ++ [list_item_of emp]) p)) p
  = (Returned tt, set_list_items (list_items p ++ (list_item_of <$> data)) p).
Proof.
  revert p. induction data as [|x data IH]; intros p; cbn [for_each fmap list_fmap].
  - unfold ret. rewrite app_nil_r, set_list_items_same. reflexivity.
  - unfold bind at 1, modify at 1. rewrite IH. page_simpl.
    rewrite <- app_assoc. reflexivity.
Qed.

Lemma loadEmployees_run (p : page) :
  loadEmployees net_roster p
  = match net_roster (sent p) roster_request with
    | Rejected e => (Thrown e, requested roster_request p)
    | Resolved resp =>
        match json resp with
        | Returned (Array_of data) =>
            (Returned tt, set_list_items (list_item_of <$> data) (requested roster_request p))
        | Returned (Not_array v) =>
            (Thrown (no_method v "data" "forEach"),
             set_list_items [] (requested roster_request p))
        | Thrown e => (Thrown e, requested roster_request p)
        end
    end.
Proof.
  unfold loadEmployees, fetch, res_json.
  unfold bind at 1. unfold bind at 1, gets at 1. unfold bind at 1, modify at 1.
  fold roster_request. fold (requested roster_request p).
  destruct (net_roster (sent p) roster_request) as [e|resp]; [reflexivity|].
  unfold ret at 1. unfold bind at 1.
  destruct (json resp) as [[data|v]|e]; [| reflexivity | reflexivity].
  unfold ret at 1. unfold bind at 1, modify at 1. rewrite for_each_items. reflexivity.
Qed.

Lemma loadEmployees_frame (p : page) :
  let p' := snd (call_async (loadEmployees net_roster) p) in
  fst (call_async (loadEmployees net_roster) p) = Returned tt
  /\ map p' = map p /\ markers p' = markers p /\ polyline p' = polyline p
  /\ objects p' = objects p /\ intervals p' = intervals p
  /\ sent p' = sent p ++ [roster_request].
Proof.
  unfold call_async. rewrite loadEmployees_run.
  destruct (net_roster (sent p) roster_request) as [e|resp]; [repeat split|].
  destruct (json resp) as [[data|v]|e]; repeat split.
Qed.

(** The page after a track with a last vertex [ll] was plotted on the
    page [p] whose map is [m]. *)
Lemma plot_track_post (id : string) (data : track) (p : page) (m : leaflet_map) (ll : latlng) :
  map p = Some m ->
  last (latlngs_of (points data)) = Some ll ->
  exists (line mark : positive) (p' : page),
    plot_track id data p = (Returned tt, p')
    /\ objects p !! line = None /\ objects p !! mark = None /\ line <> mark
    /\ polyline p' = Some line
    /\ markers p' = <[id := mark]> (markers p)
    /\ objects p' !! line = Some (Polyline (latlngs_of (points data)) "blue")
    /\ objects p' !! mark = Some (Marker ll (Some id))
    /\ (forall l : positive, l ∈ dom (objects p) -> objects p' !! l = objects p !! l)
    /\ dom (objects p') = {[line; mark]} ∪ dom (objects p)
    /\ shown p' = {[line; mark]} ∪ on_map m
    /\ sent p' = sent p /\ intervals p' = intervals p /\ unhandled p' = unhandled p.
Proof.
  intros Hm Hlast.
  pose proof (plot_track_run id data p m ll Hm Hlast) as Hrun. cbv zeta in Hrun.
  set (r1 := fresh (dom (objects p))) in *.
  set (o1 := <[r1 := Polyline (latlngs_of (points data)) "blue"]> (objects p)) in *.
  set (r2 := fresh (dom o1)) in *.
  assert (H1 : objects p !! r1 = None) by apply fresh_layer_unused.
  assert (H2 : o1 !! r2 = None) by apply fresh_layer_unused.
  assert (Hne : r1 <> r2).
  { intros E. rewrite <- E in H2. subst o1. rewrite lookup_insert_eq in H2. discriminate. }
  assert (H3 : objects p !! r2 = None).
  { subst o1. rewrite lookup_insert_ne in H2 by exact Hne. exact H2. }
  exists r1, r2. eexists. split; [exact Hrun|]. page_simpl. unfold shown. page_simpl.
  repeat split; try assumption.
  - rewrite !lookup_insert_ne by exact (not_eq_sym Hne). apply lookup_insert_eq.
  - apply lookup_insert_eq.
  - intros l Hl. apply elem_of_dom in Hl as [x Hx].
    rewrite !lookup_insert_ne by congruence. subst o1.
    rewrite lookup_insert_ne by congruence. reflexivity.
  - subst o1. rewrite !dom_insert_L. set_solver.
  - set_solver.
Qed.

Lemma last_latlng (pts : list point) (pt : point) :
  last pts = Some pt -> last (latlngs_of pts) = Some (lat pt, lon pt).
Proof. intros Hl. unfold latlngs_of. rewrite fmap_last, Hl. reflexivity. Qed.

Lemma nonempty_last (pts : list point) : pts <> [] -> exists pt : point, last pts = Some pt.
Proof.
  intros Hne. destruct (last pts) as [pt|] eqn:El; [eauto|].
  apply last_None in El. contradiction.
Qed.

(** [wf] is kept by [showTrack], whatever the track endpoint answers. *)
Lemma wf_showTrack (id : string) (p : page) :
  wf p -> is_Some (map p) ->
  wf (snd (showTrack net_track id p)) /\ is_Some (map (snd (showTrack net_track id p))).
Proof.
  intros Hwf [m Hm]. rewrite showTrack_run. cbv zeta.
  set (q := requested (track_request id (today_iso p)) p).
  assert (Hq : wf q /\ map q = Some m) by (split; [exact Hwf | exact Hm]).
  destruct (net_track (sent p) (track_request id (today_iso p))) as [e|resp];
    [split; [apply Hq | exists m; apply Hq]|].
  destruct (json resp) as [data|e]; [|split; [apply Hq | exists m; apply Hq]].
  destruct Hq as [Hwq Hmq]. rewrite (showTrack_draw_run id data q m Hmq). cbv zeta.
  destruct (points data) as [|pt pts] eqn:Epts.
  - split; [exact Hwq | eexists; reflexivity].
  - destruct (nonempty_last (pt :: pts)) as [lp Hlp]; [discriminate|].
    rewrite <- Epts in Hlp. apply last_latlng in Hlp. clear Hmq.
    set (c := set_map (Some (with_layers (on_map m ∖ stale_layers id q) m)) q).
    destruct (plot_track_post id data c _ _ eq_refl Hlp) as
      (line & mark & p' & Hrun & Hl & Hk & Hne & Hpl & Hmk & _ & _ & _ & Hdom & Hsh & _).
    rewrite Hrun. subst c q. page_simpl. clear Hwq.
    destruct Hwf as (W1 & W2 & W3 & W4).
    split.
    + unfold wf. rewrite Hpl, Hmk, Hdom. repeat split.
      * intros l [= <-]. set_solver.
      * intros id' l. rewrite lookup_insert. case_decide.
        -- intros [= <-]. set_solver.
        -- intros Hl'. apply W2 in Hl'. set_solver.
      * intros id' l. rewrite lookup_insert. case_decide.
        -- intros [= <-] [= E]. congruence.
        -- intros Hl' [= E]. apply W2, elem_of_dom in Hl' as [x Hx]. congruence.
      * intros id1 id2 l. rewrite !lookup_insert. repeat case_decide; try congruence.
        -- intros [= <-] Hl'. apply W2, elem_of_dom in Hl' as [x Hx]. congruence.
        -- intros Hl' [= <-]. apply W2, elem_of_dom in Hl' as [x Hx]. congruence.
        -- apply W4.
    + unfold shown in Hsh. destruct (map p') as [m'|]; [eauto|].
      exfalso. set_solver.
Qed.

Lemma call_async_pair (c : M page unit) (p : page) :
  call_async c p = (Returned tt, snd (call_async c p)).
Proof. unfold call_async. destruct (c p) as [[u|e] q]; reflexivity. Qed.

Lemma onload_run (p : page) :
  onload net_roster p
  = let m0 := {| container := "map"; on_map := ∅;
                 map_view := Some (SetView (55.75%Q, 37.61%Q) 10) |} in
    let tiles := fresh (dom (objects p)) in
    let q := set_map (Some (with_layers ({[tiles]} ∪ ∅) m0))
               (set_objects
                  (<[tiles := TileLayer "https://{s}.tile.openstreetmap.org/{z}/{x}/{y}.png" 19]>
                     (objects p))
                  (set_map (Some m0) p)) in
    let q' := snd (call_async (loadEmployees net_roster) q) in
    (Returned tt, set_intervals (intervals q' ++ [(CbLoadEmployees, 10000)]) q').
Proof.
  unfold onload, L_tileLayer, setInterval.
  unfold bind at 1, modify at 1.
  unfold bind at 1. rewrite new_layer_run.
  unfold bind at 1. erewrite addTo_run by reflexivity.
  unfold bind at 1. cbv zeta.
  match goal with |- context [call_async ?c ?q] =>
    rewrite (call_async_pair c q) end.
  reflexivity.
Qed.

Lemma onload_post (p : page) :
  let p' := snd (onload net_roster p) in
  fst (onload net_roster p) = Returned tt
  /\ is_Some (map p')
  /\ markers p' = markers p /\ polyline p' = polyline p
  /\ dom (objects p) ⊆ dom (objects p')
  /\ intervals p' = intervals p ++ [(CbLoadEmployees, 10000)]
  /\ sent p' = sent p ++ [roster_request].
Proof.
  rewrite onload_run. cbv zeta.
  match goal with |- context [call_async _ ?q] =>
    pose proof (loadEmployees_frame q) as (_ & Fm & Fk & Fp & Fo & Fi & Fs);
    destruct (call_async (loadEmployees net_roster) q) as [o q'] end.
  page_simpl. rewrite Fm, Fk, Fp, Fo, Fi, Fs. repeat split; eauto.
  rewrite dom_insert_L. set_solver.
Qed.

Lemma wf_fresh_page (today : string) : wf (fresh_page today).
Proof.
  unfold wf, fresh_page; page_simpl. repeat split; intros *; try discriminate;
    rewrite lookup_empty; discriminate.
Qed.

(** Every page the dashboard reaches after [window.onload] is well
    formed and has its map. *)
Lemma wf_run (cbs : list callback) (p : page) :
  wf p -> is_Some (map p) ->
  wf (run net_roster net_track cbs p) /\ is_Some (map (run net_roster net_track cbs p)).
Proof.
  revert p. induction cbs as [|cb cbs IH]; intros p Hwf Hm; [split; assumption|].
  cbn [run fold_left]. fold (run net_roster net_track cbs).
  destruct cb as [|id]; cbn [run_callback].
  - pose proof (loadEmployees_frame p) as (_ & Fm & Fk & Fp & Fo & _).
    apply IH; [|rewrite Fm; exact Hm].
    unfold wf. rewrite Fk, Fp, Fo. exact Hwf.
  - assert (Hc : snd (call_async (showTrack net_track id) p)
                 = snd (showTrack net_track id p)
                 \/ exists e, snd (call_async (showTrack net_track id) p)
                              = set_unhandled e (snd (showTrack net_track id p))).
    { unfold call_async. destruct (showTrack net_track id p) as [[u|e] q]; eauto. }
    pose proof (wf_showTrack id p Hwf Hm) as [Hw' Hm'].
    destruct Hc as [-> | [e ->]]; apply IH; assumption.
Qed.

Lemma wf_booted (cbs : list callback) (today : string) :
  let p := run net_roster net_track cbs (snd (onload net_roster (fresh_page today))) in
  wf p /\ is_Some (map p).
Proof.
  pose proof (onload_post (fresh_page today)) as (_ & Hm & Hk & Hp & Hd & _).
  apply wf_run; [|exact Hm].
  unfold wf. rewrite Hk, Hp. repeat split; intros *; try discriminate;
    cbn [markers fresh_page]; rewrite lookup_empty; discriminate.
Qed.

Lemma showTrack_resolved (id : string) (p : page) (resp : response track) (data : track) :
  net_track (sent p) (track_request id (today_iso p)) = Resolved resp ->
  json resp = Returned data ->
  showTrack net_track id p
  = showTrack_draw id data (requested (track_request id (today_iso p)) p).
Proof. intros Hnet Hjson. rewrite showTrack_run. cbv zeta. rewrite Hnet, Hjson. reflexivity. Qed.

(** C5. When the track endpoint answers with at least one point,
    [showTrack] goes on, after its awaits, as [showTrack_draw] on the
    page it finds; and on every page that has its map this leaves on
    the map a new polyline whose vertices are the points' (lat, lon)
    pairs, one per point and in the order of the answer, and for the
    identity a new marker, bound to its key, at the last point of the
    answer; nothing is dropped, moved or reordered. *)
Theorem showTrack_plots_points_in_order (id : string) (q : page) (data : track) :
  is_Some (map q) ->
  points data <> [] ->
  (exists (line mark : positive) (lastpt : point) (q' : page),
      showTrack_draw id data q = (Returned tt, q')
      /\ last (points data) = Some lastpt
      /\ polyline q' = Some line
      /\ objects q' !! line = Some (Polyline (latlngs_of (points data)) "blue")
      /\ length (latlngs_of (points data)) = length (points data)
      /\ (forall (i : nat) (pt : point),
             points data !! i = Some pt ->
             latlngs_of (points data) !! i = Some (lat pt, lon pt))
      /\ markers q' !! id = Some mark
      /\ objects q' !! mark = Some (Marker (lat lastpt, lon lastpt) (Some id))
      /\ line ∈ shown q' /\ mark ∈ shown q'
      /\ line <> mark /\ objects q !! line = None /\ objects q !! mark = None)
  /\ (forall (p : page) (resp : response track),
         net_track (sent p) (track_request id (today_iso p)) = Resolved resp ->
         json resp = Returned data ->
         showTrack net_track id p
         = showTrack_draw id data (requested (track_request id (today_iso p)) p)).
Proof.
  intros [m Hm] Hne. split; [|intros p resp; apply showTrack_resolved].
  destruct (nonempty_last _ Hne) as [lastpt Hlast].
  erewrite showTrack_draw_run by exact Hm. cbv zeta.
  destruct (points data) as [|pt pts] eqn:Epts; [contradiction|].
  rewrite <- Epts in *.
  match goal with |- context [plot_track id data ?c] =>
    destruct (plot_track_post id data c _ _ eq_refl (last_latlng _ _ Hlast)) as
      (line & mark & q' & Hrun & Hl & Hk & Hlm & Hpl & Hmk & Hol & Hok & _ & _ & Hsh & _)
  end.
  page_simpl. exists line, mark, lastpt, q'.
  split; [exact Hrun|]. split; [exact Hlast|]. split; [exact Hpl|].
  split; [exact Hol|]. split; [apply length_fmap|].
  split; [intros i x Hx; unfold latlngs_of; rewrite list_lookup_fmap, Hx; reflexivity|].
  split; [rewrite Hmk; apply lookup_insert_eq|]. split; [exact Hok|].
  rewrite Hsh. repeat split; try assumption; set_solver.
Qed.

(** C10. Whatever the track endpoint answers with, [showTrack] goes on,
    after its awaits, as [showTrack_draw] on the page it finds; and on
    every well-formed page that has its map this takes the polyline
    drawn before and the marker drawn before for this identity off the
    map, before the points are looked at; the markers of the other
    identities stay as they are, on the map or off it; and when the
    answer has no point, nothing is created or drawn: the map shows
    what it showed, less those two layers. *)
Theorem showTrack_clears_previous_track (id : string) (q : page) (data : track) :
  wf q -> is_Some (map q) ->
  (exists q' : page,
      showTrack_draw id data q = (Returned tt, q')
      /\ (forall l : positive, polyline q = Some l -> l ∉ shown q')
      /\ (forall l : positive, markers q !! id = Some l -> l ∉ shown q')
      /\ (forall (id' : string) (l : positive),
             id' <> id -> markers q !! id' = Some l ->
             markers q' !! id' = Some l
             /\ objects q' !! l = objects q !! l
             /\ (l ∈ shown q' <-> l ∈ shown q))
      /\ (points data = [] ->
          shown q' = shown q ∖ stale_layers id q
          /\ objects q' = objects q /\ markers q' = markers q
          /\ polyline q' = polyline q))
  /\ (forall (p : page) (resp : response track),
         net_track (sent p) (track_request id (today_iso p)) = Resolved resp ->
         json resp = Returned data ->
         showTrack net_track id p
         = showTrack_draw id data (requested (track_request id (today_iso p)) p)).
Proof.
  intros (W1 & W2 & W3 & W4) [m Hm]. split; [|intros p resp; apply showTrack_resolved].
  assert (Hother : forall (id' : string) (l : positive),
             id' <> id -> markers q !! id' = Some l -> l ∉ stale_layers id q).
  { intros id' l Hid Hl. unfold stale_layers, layer_set.
    pose proof (W3 id' l Hl) as Hp.
    destruct (polyline q) as [k|] eqn:Ep, (markers q !! id) as [k'|] eqn:Ek;
      set_unfold; intros [E|E]; subst; try congruence; try tauto.
    - apply Hid. exact (W4 id' id _ Hl Ek).
    - apply Hid. exact (W4 id' id _ Hl Ek). }
  erewrite showTrack_draw_run by exact Hm. cbv zeta.
  assert (Hsh : shown q = on_map m) by (unfold shown; rewrite Hm; reflexivity).
  destruct (points data) as [|pt pts] eqn:Epts.
  - eexists. split; [reflexivity|]. unfold shown. page_simpl.
    split; [|split; [|split; [|intros _; rewrite Hm; repeat split]]].
    + intros l Hl. unfold stale_layers, layer_set. rewrite Hl. set_solver.
    + intros l Hl. unfold stale_layers, layer_set. rewrite Hl. set_solver.
    + intros id' l Hid Hl. split; [exact Hl|]. split; [reflexivity|].
      rewrite Hm. pose proof (Hother id' l Hid Hl). set_solver.
  - destruct (nonempty_last (pt :: pts)) as [lp Hlp]; [discriminate|].
    rewrite <- Epts in *.
    match goal with |- context [plot_track id data ?c] =>
      destruct (plot_track_post id data c _ _ eq_refl (last_latlng _ _ Hlp)) as
        (line & mark & q' & Hrun & Hl & Hk & Hlm & Hpl & Hmk & _ & _ & Hfr & _ & Hsh' & _)
    end.
    page_simpl. exists q'. split; [exact Hrun|]. rewrite Hsh'.
    assert (Hold : forall l : positive, l ∈ dom (objects q) -> l <> line /\ l <> mark).
    { intros l Hin. apply elem_of_dom in Hin as [x Hx]. split; congruence. }
    split; [|split; [|split; [|intros E; rewrite Epts in E; discriminate E]]].
    + intros l Hp. destruct (Hold l (W1 l Hp)).
      unfold stale_layers, layer_set. rewrite Hp. set_solver.
    + intros l Hp. destruct (Hold l (W2 id l Hp)).
      unfold stale_layers, layer_set. rewrite Hp. set_solver.
    + intros id' l Hid Hp. destruct (Hold l (W2 id' l Hp)).
      split; [rewrite Hmk, lookup_insert_ne by congruence; exact Hp|].
      split; [apply Hfr, (W2 id' l Hp)|].
      pose proof (Hother id' l Hid Hp). set_solver.
Qed.

End Facts.

(** C5 on the integer host: the first click on E1, just after the
    dashboard loaded. *)
Lemma showTrack_plots_points_in_order_witness :
  exists (line mark : positive) (p' : @page IntegerNumbers),
    showTrack demo_track "E1" demo_map_page = (Returned tt, p')
    /\ objects p' !! line = Some (Polyline [int_latlng 55 37; int_latlng 56 38] "blue")
    /\ markers p' !! "E1" = Some mark
    /\ objects p' !! mark = Some (Marker (int_latlng 56 38) (Some "E1"))
    /\ line ∈ shown p' /\ mark ∈ shown p'.
Proof.
  destruct (@showTrack_plots_points_in_order IntegerNumbers demo_track "E1"
              (requested (track_request "E1" "2026-11-02") demo_map_page)
              (@Build_track IntegerNumbers [int_point 55 37; int_point 56 38]))
    as ((line & mark & lastpt & p' & Hrun & Hlast & _ & Hline & _ & _ & Hmk & Hmark
         & Hs1 & Hs2 & _) & Hlink).
  - apply (wf_booted demo_roster demo_track [] "2026-11-02").
  - discriminate.
  - injection Hlast as <-. exists line, mark, p'.
    rewrite (Hlink demo_map_page _ eq_refl eq_refl).
    repeat split; assumption.
Defined.

(** C10 on the integer host: E1 is clicked a second time, and this time
    the track comes back empty. *)
Lemma showTrack_clears_previous_track_witness :
  let p := run demo_roster demo_track [CbShowTrack "E1"] demo_map_page in
  exists p' : @page IntegerNumbers,
    showTrack demo_track "E1" p = (Returned tt, p')
    /\ shown p' = shown p ∖ stale_layers "E1" p
    /\ objects p' = objects p.
Proof.
  intros p.
  destruct (@showTrack_clears_previous_track IntegerNumbers demo_track "E1"
              (requested (track_request "E1" "2026-11-02") p)
              (@Build_track IntegerNumbers []))
    as ((p' & Hrun & _ & _ & _ & Hempty) & Hlink).
  - apply (wf_booted demo_roster demo_track [CbShowTrack "E1"] "2026-11-02").
  - apply (wf_booted demo_roster demo_track [CbShowTrack "E1"] "2026-11-02").
  - exists p'. rewrite (Hlink p _ eq_refl eq_refl).
    split; [exact Hrun|]. destruct (Hempty eq_refl) as (Hs & Ho & _).
    split; assumption.
Defined.

End OnlineMapFacts.

Module PollingFacts.

(** C8. Each dashboard registers one timer when it loads, the list
    dashboard [refresh] every 15000 ms and the map dashboard
    [loadEmployees] every 10000 ms, both within 10 to 15 seconds; each
    run of the timer's callback sends one request, to the roster
    endpoint, with fetch's default method GET and no body, and leaves
    the timers as they are. *)
Theorem dashboards_poll_by_get `{JsNumber} `{JsString}
    (net : list request -> request -> fetch_result (parsed Manager.entry))
    (net_roster : list request -> request -> fetch_result (parsed OnlineMap.employee))
    (net_track : list request -> request -> fetch_result OnlineMap.track)
    (status_value search_value today : string) :
  (Manager.intervals
     (snd (Manager.onDOMContentLoaded net (Manager.fresh_page status_value search_value)))
   = [(Manager.CbRefresh, 15000)]
   /\ forall p : Manager.page,
       exists p' : Manager.page,
         Manager.run_callback net Manager.CbRefresh p = (Returned tt, p')
         /\ Manager.sent p' = Manager.sent p ++ [Manager.roster_request]
         /\ Manager.intervals p' = Manager.intervals p)
  /\ (OnlineMap.intervals
        (snd (OnlineMap.onload net_roster (OnlineMap.fresh_page today)))
      = [(OnlineMap.CbLoadEmployees, 10000)]
      /\ forall p : OnlineMap.page,
          exists p' : OnlineMap.page,
            OnlineMap.run_callback net_roster net_track OnlineMap.CbLoadEmployees p
            = (Returned tt, p')
            /\ OnlineMap.sent p' = OnlineMap.sent p ++ [OnlineMap.roster_request]
            /\ OnlineMap.intervals p' = OnlineMap.intervals p)
  /\ (10000 <= 15000 <= 15000 /\ 10000 <= 10000 <= 15000)
  /\ (url Manager.roster_request = "/api/online/employees"
      /\ request_method Manager.roster_request = GET
      /\ init_body (init Manager.roster_request) = None)
  /\ (url OnlineMap.roster_request = "/api/online/employees"
      /\ request_method OnlineMap.roster_request = GET
      /\ init_body (init OnlineMap.roster_request) = None).
Proof.
  split; [|split; [|split; [lia | repeat split]]].
  - split.
    + pose proof (ManagerFacts.onDOMContentLoaded_frame net
                    (Manager.fresh_page status_value search_value)) as (_ & Hi & _).
      exact Hi.
    + intros p. cbn [Manager.run_callback].
      rewrite ManagerFacts.call_async_refresh.
      pose proof (ManagerFacts.refresh_frame net p) as (Hr & Hs & Hi & _).
      destruct (Manager.refresh net p) as [o p']. cbn [fst snd] in *. subst o.
      exists p'. auto.
  - split.
    + pose proof (OnlineMapFacts.onload_post net_roster (OnlineMap.fresh_page today))
        as (_ & _ & _ & _ & _ & Hi & _).
      exact Hi.
    + intros p. cbn [OnlineMap.run_callback].
      pose proof (OnlineMapFacts.loadEmployees_frame net_roster p)
        as (Hr & _ & _ & _ & _ & Hi & Hs).
      destruct (OnlineMap.call_async (OnlineMap.loadEmployees net_roster) p) as [o p'].
      cbn [fst snd] in *. subst o. exists p'. auto.
Qed.

End PollingFacts.

Module AccuracyFacts.

(** C7. (a) When the accuracy handed to [send] is not a number, the
    body of the request has the fields lat and lon and no field acc.
    (b) For a roster entry without [last_accuracy], the meta line that
    [renderList] writes on the entry's card ends in an accuracy of 0
    metres. *)
Theorem absent_accuracy_is_not_fabricated `{JsNumber}
    (net : list (Z * request) -> request -> fetch_result unit) :
  (forall (lat lon acc : value) (p : GeoWatch.page),
      typeof acc <> "number" ->
      exists r : request,
        GeoWatch.send net lat lon acc p = (Returned tt, GeoWatch.log_request r p)
        /\ init_body (init r) = Some [("lat", String_of lat); ("lon", String_of lon)]
        /\ ("acc" ∉ request_fields r))
  /\ (forall e : Manager.entry,
         Manager.last_accuracy e = None ->
         Manager.meta_text e
         = "Последняя точка: "
           +:+ toLocaleTimeString (num_mul (Manager.last_ts e) (num_of_Z 1000))
           +:+ " · " +:+ num_toFixed (Manager.last_lat e) 5
           +:+ ", " +:+ num_toFixed (Manager.last_lon e) 5
           +:+ " · ±" +:+ "0" +:+ "м")
  /\ (forall (items : positive) (xs : list Manager.entry) (p : Manager.page)
             (e : Manager.entry),
         Manager.arrays p !! items = Some xs -> e ∈ xs ->
         exists title actions : Manager.node,
           Manager.Element "div" ("emp " +:+ Manager.fresh_status e) "" []
             [title; Manager.Element "div" "meta" (Manager.meta_text e) [] []; actions]
           ∈ Manager.employees (snd (Manager.renderList items p))).
Proof.
  split; [|split].
  - intros lat lon acc p Hacc. exists (GeoWatch.ping lat lon acc).
    split; [apply GeoWatchFacts.send_run|].
    unfold request_fields, GeoWatch.ping; simpl.
    destruct (decide (typeof acc = "number")) as [E|_]; [contradiction|].
    split; [reflexivity|]. simpl. set_solver.
  - intros e He. unfold Manager.meta_text. rewrite He.
    cbn [Manager.accuracy_or_zero]. rewrite round_zero, zero_to_string. reflexivity.
  - intros items xs p e Hl He.
    rewrite (ManagerFacts.renderList_run items xs p Hl). cbn [snd Manager.employees].
    destruct xs as [|x xs]; [set_solver|].
    eexists _, _. cbn [Manager.set_employees Manager.employees Manager.rendering].
    apply (list_elem_of_fmap_2 Manager.card_of) in He. exact He.
Qed.

(** C7 on the integer host: an entry served without an accuracy. *)
Lemma absent_accuracy_is_not_fabricated_witness :
  @Manager.meta_text IntegerNumbers (int_entry "E1" "fresh" 1700000000 55 37 None)
  = "Последняя точка: 22:13:20 · 55.00000, 37.00000 · ±0м".
Proof.
  destruct (@absent_accuracy_is_not_fabricated IntegerNumbers (fun _ _ => Rejected NetworkError))
    as (_ & Hmeta & _).
  rewrite (Hmeta (int_entry "E1" "fresh" 1700000000 55 37 None) eq_refl).
  reflexivity.
Defined.

End AccuracyFacts.

Module FreshnessFacts.
Import Freshness.

(** C3. With the thresholds in their order, [T_fresh <= T_offline],
    [classify] answers fresh exactly up to an age of [T_fresh], stale
    exactly above it and up to [T_offline], offline exactly above that;
    and a greater age never gives an earlier status. *)
Theorem classify_by_age_is_monotone (T_fresh T_offline : Z) :
  T_fresh <= T_offline ->
  (forall now t : Z, classify T_fresh T_offline now t = Fresh <-> now - t <= T_fresh)
  /\ (forall now t : Z,
         classify T_fresh T_offline now t = Stale <-> T_fresh < now - t <= T_offline)
  /\ (forall now t : Z, classify T_fresh T_offline now t = Offline <-> now - t > T_offline)
  /\ (forall now1 t1 now2 t2 : Z,
         now1 - t1 <= now2 - t2 ->
         rank (classify T_fresh T_offline now1 t1)
         <= rank (classify T_fresh T_offline now2 t2)).
Proof.
  intros Hle. unfold classify. repeat split.
  all: intros; repeat match goal with
       | |- context [?a <=? ?b] => destruct (Z.leb_spec a b)
       | H : context [?a <=? ?b] |- _ => destruct (Z.leb_spec a b)
       end; simpl in *; try lia; try congruence.
Qed.

(** C3 with thresholds of 20 s and 60 s: a sample 10 s old is fresh,
    one 61 s old is offline. *)
Lemma classify_by_age_is_monotone_witness :
  classify 20 60 1700000010 1700000000 = Fresh
  /\ classify 20 60 1700000061 1700000000 = Offline.
Proof.
  destruct (classify_by_age_is_monotone 20 60) as (Hf & _ & Ho & _); [lia|].
  split; [apply Hf | apply Ho]; lia.
Defined.

End FreshnessFacts.

(** * Further properties of the device reporting script *)

Module GeoWatchMore.
Import GeoWatch.

Section Watches.
Context `{JsNumber}.
Variable net : list (Z * request) -> request -> fetch_result unit.

Lemma filter_others (id n0 : Z) (ws0 : list Z) :
  Forall (fun w => w < n0) ws0 -> n0 <= id ->
  filter (fun w => w <> id) ws0 = ws0.
Proof.
  intros Hws Hid. induction Hws as [|w ws Hw Hws IH]; [reflexivity|].
  rewrite filter_cons_True by lia. rewrite IH. reflexivity.
Qed.

Lemma holds_only_handler (n0 : Z) (ws0 : list Z) (ev : event) (p : page) :
  Forall (fun w => w < n0) ws0 ->
  holds_only n0 ws0 p -> holds_only n0 ws0 (snd (handler net ev p)).
Proof.
  intros Hws (g & Hg & Hw & Hid & Hn).
  destruct ev as [t|t|t pos|t err]; cbn [handler].
  - unfold startWatch, watchPosition. monad_unfold. rewrite Hg.
    destruct (watchId p) as [id|] eqn:Ew; cbn [snd].
    + exists g. rewrite Ew. auto.
    + eexists. cbn. split; [reflexivity|]. rewrite Hw. cbn.
      split; [reflexivity|]. split; [intros id [= <-]|]; lia.
  - unfold stopWatch, clearWatch. monad_unfold.
    destruct (watchId p) as [id|] eqn:Ew; cbn [snd].
    + rewrite Hg. cbn [snd]. unfold holds_only.
      cbn [geo watchId set_geo set_watchId]. eexists. split; [reflexivity|].
      cbn [watches next_watch]. rewrite Hw.
      change (option_list (Some id) ++ ws0) with (id :: ws0).
      change (option_list None ++ ws0) with ws0.
      rewrite filter_cons_False by tauto.
      rewrite (filter_others id n0 ws0 Hws) by (apply (Hid id eq_refl)).
      split; [reflexivity|]. split; [intros id' [=]|exact Hn].
    + exists g. rewrite Ew. auto.
  - rewrite GeoWatchFacts.onPosition_run. cbn [snd].
    destruct (clock p - lastSent p <? 10000); exists g; auto.
  - exists g. auto.
Qed.

Lemma holds_only_run (n0 : Z) (ws0 : list Z) (evs : list event) (p : page) :
  Forall (fun w => w < n0) ws0 ->
  holds_only n0 ws0 p -> holds_only n0 ws0 (run net evs p).
Proof.
  intros Hws. revert p. induction evs as [|ev evs IH]; intros p Hp; [exact Hp|].
  cbn [run fold_left]. apply IH. unfold step.
  apply holds_only_handler; [exact Hws|].
  destruct Hp as (g & Hp). exists g. exact Hp.
Qed.

(** X1. However [startWatch], [stopWatch] and the callbacks are
    interleaved, the watches registered with [navigator.geolocation]
    are those that other scripts registered before, untouched, and at
    most one of this script: the one whose id [watchId] holds, none
    when [watchId] is null. *)
Theorem script_holds_one_watch (n0 : Z) (ws0 : list Z) (t0 : Z) (evs : list event) :
  Forall (fun w => w < n0) ws0 ->
  exists g : geolocation,
    geo (run net evs (loaded (Some {| next_watch := n0; watches := ws0 |}) t0)) = Some g
    /\ watches g
       = option_list
           (watchId (run net evs (loaded (Some {| next_watch := n0; watches := ws0 |}) t0)))
         ++ ws0.
Proof.
  intros Hws.
  destruct (holds_only_run n0 ws0 evs
              (loaded (Some {| next_watch := n0; watches := ws0 |}) t0) Hws)
    as (g & Hg & Hw & _).
  - eexists. cbn. split; [reflexivity|]. split; [reflexivity|].
    split; [intros id [=] | cbn; lia].
  - exists g. auto.
Qed.

(** X2. [startWatch] and [stopWatch] are idempotent: a second
    [startWatch] returns with the page as the first left it, a second
    [stopWatch] leaves the page as the first left it; and where there
    is a geolocation object, [stopWatch] leaves [watchId] null. *)
Theorem startWatch_stopWatch_idempotent (p : page) :
  startWatch (snd (startWatch p)) = (Returned tt, snd (startWatch p))
  /\ snd (stopWatch (snd (stopWatch p))) = snd (stopWatch p)
  /\ (is_Some (geo p) -> watchId (snd (stopWatch p)) = None).
Proof.
  split; [|split].
  - unfold startWatch, watchPosition. monad_unfold.
    destruct (geo p) as [g|] eqn:Eg, (watchId p) as [id|] eqn:Ew; cbn;
      rewrite ?Eg, ?Ew; reflexivity.
  - unfold stopWatch, clearWatch. monad_unfold.
    destruct (watchId p) as [id|] eqn:Ew; cbn.
    + destruct (geo p) as [g|] eqn:Eg; cbn; rewrite ?Ew, ?Eg; reflexivity.
    + rewrite Ew. reflexivity.
  - intros [g Hg]. unfold stopWatch, clearWatch. monad_unfold.
    destruct (watchId p) as [id|] eqn:Ew; cbn; rewrite ?Hg; [reflexivity | exact Ew].
Qed.

Lemma step_lastSent (ev : event) (p : page) :
  lastSent p = default 0 (last (send_times p)) ->
  lastSent (snd (step net ev p)) = default 0 (last (send_times (snd (step net ev p))))
  /\ (length (sent (snd (step net ev p)))
      <= length (sent p) + (if is_position ev then 1 else 0))%nat.
Proof.
  intros Hl. unfold step.
  assert (Hq : lastSent (set_clock (event_time ev) p)
               = default 0 (last (send_times (set_clock (event_time ev) p))))
    by exact Hl.
  assert (Hs : sent (set_clock (event_time ev) p) = sent p) by reflexivity.
  revert Hq Hs. generalize (set_clock (event_time ev) p). intros q Hq Hs.
  destruct ev as [t|t|t pos|t err]; cbn [handler is_position].
  - unfold startWatch, watchPosition. monad_unfold.
    destruct (geo q) as [g|], (watchId q) as [id|]; cbn; rewrite <- Hs; split; auto; lia.
  - unfold stopWatch, clearWatch. monad_unfold.
    destruct (watchId q) as [id|]; [destruct (geo q) as [g|]|];
      cbn; rewrite <- Hs; split; auto; lia.
  - rewrite GeoWatchFacts.onPosition_run. cbn [snd].
    destruct (clock q - lastSent q <? 10000); [rewrite <- Hs; split; [exact Hq | lia]|].
    unfold send_times. cbn [sent lastSent log_request set_lastSent clock].
    rewrite fmap_app. cbn [fmap list_fmap fst]. rewrite last_snoc, length_app, <- Hs.
    cbn [length default]. split; [reflexivity | lia].
  - cbn. rewrite <- Hs. split; [exact Hq | lia].
Qed.

(** X4. [lastSent] is the clock reading at which the latest request
    left the page, and 0 while none has; and no more requests leave the
    page than positions were delivered. *)
Theorem lastSent_is_latest_send (g : option geolocation) (t0 : Z) (evs : list event) :
  lastSent (run net evs (loaded g t0))
  = default 0 (last (send_times (run net evs (loaded g t0))))
  /\ (length (sent (run net evs (loaded g t0))) <= length (List.filter is_position evs))%nat.
Proof.
  assert (Hgen : forall (evs : list event) (p : page),
             lastSent p = default 0 (last (send_times p)) ->
             lastSent (run net evs p) = default 0 (last (send_times (run net evs p)))
             /\ (length (sent (run net evs p))
                 <= length (sent p) + length (List.filter is_position evs))%nat).
  { clear evs. induction evs as [|ev evs IH]; intros p Hp; [split; [exact Hp | cbn; lia]|].
    change (run net (ev :: evs) p) with (run net evs (snd (step net ev p))).
    destruct (step_lastSent ev p Hp) as [Hp' Hlen].
    destruct (IH _ Hp') as [Hl Hn]. split; [exact Hl|]. cbn [List.filter].
    destruct (is_position ev); cbn [length] in *; lia. }
  destruct (Hgen evs (loaded g t0) eq_refl) as [Hl Hn]. split; [exact Hl | exact Hn].
Qed.

(** X5. A position without [coords], or with coordinates whose fields
    are missing, is still reported once the window has passed: the
    request carries the text undefined for lat and for lon, and no
    acc. *)
Theorem position_without_coords_sends_undefined (p : page) :
  10000 <= clock p - lastSent p ->
  exists r : request,
    onPosition net {| coords := None |} p
    = (Returned tt, log_request r (set_lastSent (clock p) p))
    /\ onPosition net {| coords := Some no_coordinates |} p
       = (Returned tt, log_request r (set_lastSent (clock p) p))
    /\ url r = "/api/geo/ping"
    /\ init_body (init r) = Some [("lat", "undefined"); ("lon", "undefined")].
Proof.
  intros Hw. apply Z.ltb_ge in Hw.
  exists (ping VUndefined VUndefined VUndefined).
  rewrite !GeoWatchFacts.onPosition_run, Hw. repeat split.
Qed.

End Watches.

(** X3. The page never learns what became of a request: after any
    sequence of events it is the same page whatever the network
    answered, so a ping that failed is not sent again and the next one
    waits for its window like any other. *)
Theorem page_ignores_network `{JsNumber}
    (net net' : list (Z * request) -> request -> fetch_result unit)
    (evs : list event) (p : page) :
  run net evs p = run net' evs p.
Proof.
  revert p. induction evs as [|ev evs IH]; intros p; [reflexivity|].
  cbn [run fold_left]. fold (run net evs). fold (run net' evs).
  replace (step net' ev p) with (step net ev p); [apply IH|].
  unfold step. destruct ev; cbn [handler]; try reflexivity.
  rewrite !GeoWatchFacts.onPosition_run. reflexivity.
Qed.

(** X1 where another script holds the watches 3 and 5: the script
    starts, is sent two positions, stops and starts again. *)
Lemma script_holds_one_watch_witness :
  let pos := {| coords := @None (@coordinates IntegerNumbers) |} in
  exists g : geolocation,
    geo (@run IntegerNumbers (fun _ _ => Rejected NetworkError)
           [EvStartWatch 1000; EvPosition 20000 pos; EvPosition 40000 pos;
            EvStopWatch 50000; EvStartWatch 60000]
           (loaded (Some {| next_watch := 7; watches := [3; 5] |}) 0)) = Some g
    /\ watches g
       = option_list
           (watchId (@run IntegerNumbers (fun _ _ => Rejected NetworkError)
              [EvStartWatch 1000; EvPosition 20000 pos; EvPosition 40000 pos;
               EvStopWatch 50000; EvStartWatch 60000]
              (loaded (Some {| next_watch := 7; watches := [3; 5] |}) 0)))
         ++ [3; 5].
Proof.
  intros pos.
  apply (@script_holds_one_watch IntegerNumbers (fun _ _ => Rejected NetworkError) 7 [3; 5]).
  repeat constructor; lia.
Defined.

(** X5 on the integer host, at a clock reading past the first window. *)
Lemma position_without_coords_sends_undefined_witness :
  exists r : request,
    @onPosition IntegerNumbers (fun _ _ => Rejected NetworkError)
      {| coords := None |} (loaded None 1700000000000)
    = (Returned tt,
       log_request r (set_lastSent 1700000000000 (loaded None 1700000000000)))
    /\ init_body (init r) = Some [("lat", "undefined"); ("lon", "undefined")].
Proof.
  destruct (@position_without_coords_sends_undefined IntegerNumbers
              (fun _ _ => Rejected NetworkError) (loaded None 1700000000000))
    as (r & Hr & _ & _ & Hb).
  - cbn. lia.
  - exists r. split; [exact Hr | exact Hb].
Defined.

End GeoWatchMore.

(** * Further properties of the list dashboard *)

Module ManagerMore.
Import Manager.

Lemma filter_bool_sublist {A} (f : A -> bool) (l : list A) : sublist (List.filter f l) l.
Proof.
  induction l as [|x l IH]; cbn [List.filter]; [constructor|].
  destruct (f x); [apply sublist_skip | apply sublist_cons]; exact IH.
Qed.

Lemma filter_bool_twice {A} (f : A -> bool) (l : list A) :
  List.filter f (List.filter f l) = List.filter f l.
Proof.
  induction l as [|x l IH]; cbn [List.filter]; [reflexivity|].
  destruct (f x) eqn:Ex; [|exact IH]. cbn [List.filter]. rewrite Ex, IH. reflexivity.
Qed.

Lemma filter_bool_all {A} (f : A -> bool) (l : list A) :
  (forall x : A, f x = true) -> List.filter f l = l.
Proof.
  intros Hf. induction l as [|x l IH]; cbn [List.filter]; [reflexivity|].
  rewrite Hf, IH. reflexivity.
Qed.

Section Facts.
Context `{JsNumber} `{JsString}.

(** X6. [renderList] replaces whatever was under [#employees]: for an
    empty array the single no-data notice, otherwise one card per
    entry, in the order of the array, each with the entry's status in
    its class, its key as title, its meta line and the link to the
    map; rendering again changes nothing, and neither the arrays nor
    the network are touched. *)
Theorem renderList_replaces_content (items : positive) (xs : list entry) (p : page) :
  arrays p !! items = Some xs ->
  exists p' : page,
    renderList items p = (Returned tt, p')
    /\ (xs = [] -> employees p' = [empty_notice])
    /\ (xs <> [] ->
        length (employees p') = length xs
        /\ forall (i : nat) (e : entry),
            xs !! i = Some e ->
            employees p' !! i
            = Some (Element "div" ("emp " +:+ fresh_status e) "" []
                      [Element "div" "fio" (employee_id e) [] [];
                       Element "div" "meta" (meta_text e) [] [];
                       Element "div" "actions" "" []
                         [Element "a" "" "Открыть карту"
                            [("href", "/online"); ("target", "_blank")] []]]))
    /\ renderList items p' = (Returned tt, p')
    /\ arrays p' = arrays p /\ sent p' = sent p /\ console p' = console p.
Proof.
  intros Hl. exists (set_employees (rendering xs) p).
  split; [apply ManagerFacts.renderList_run; exact Hl|].
  split; [intros ->; reflexivity|]. split; [|split; [|repeat split]].
  - intros Hne. destruct xs as [|x xs]; [contradiction|].
    cbn [employees set_employees rendering]. split; [apply length_fmap|].
    intros i e He. rewrite list_lookup_fmap, He. reflexivity.
  - rewrite (ManagerFacts.renderList_run items xs) by exact Hl. reflexivity.
Qed.

(** X7. The array [applyFilters] returns is cut out of its input: the
    entries it keeps stand in the order they had; with the selection
    on all and a blank search box it holds every entry; and filtering
    it again under the same controls gives the same entries. *)
Theorem applyFilters_keeps_order (items : positive) (xs : list entry) (p : page) :
  arrays p !! items = Some xs ->
  exists (l : positive) (p' : page) (ys : list entry),
    applyFilters (Ref items) p = (Returned l, p')
    /\ arrays p' !! l = Some ys
    /\ sublist ys xs
    /\ (status_filter p = "all" -> trim (search p) = "" -> ys = xs)
    /\ applyFilters_result l p' = Some ys.
Proof.
  intros Hl. eexists _, _, _.
  split; [apply ManagerFacts.applyFilters_run; exact Hl|].
  split; [cbn [arrays set_arrays]; apply lookup_insert_eq|].
  split; [apply filter_bool_sublist|]. split.
  - intros Hs Hq. apply filter_bool_all. intros e. unfold kept.
    rewrite Hs, Hq. reflexivity.
  - unfold applyFilters_result.
    erewrite ManagerFacts.applyFilters_run
      by (cbn [arrays set_arrays]; apply lookup_insert_eq).
    cbn [arrays set_arrays status_filter search]. rewrite lookup_insert_eq.
    unfold filter_spec. rewrite filter_bool_twice. reflexivity.
Qed.

(** X8. When the roster endpoint answers OK with a roster, [refresh]
    leaves under [#employees] the cards of the served entries that pass
    the filters, in the order served, or the no-data notice when none
    passes; it writes nothing to the console and sends the one roster
    request. *)
Theorem refresh_shows_passing_entries
    (net : list request -> request -> fetch_result (parsed entry))
    (p : page) (r : response (parsed entry)) (data : list entry) :
  net (sent p) roster_request = Resolved r -> ok r = true ->
  json r = Returned (Array_of data) ->
  exists p' : page,
    refresh net p = (Returned tt, p')
    /\ (filter_spec (status_filter p) (trim (search p)) data = [] ->
        employees p' = [empty_notice])
    /\ (filter_spec (status_filter p) (trim (search p)) data <> [] ->
        employees p'
        = card_of <$> filter_spec (status_filter p) (trim (search p)) data)
    /\ console p' = console p
    /\ sent p' = sent p ++ [roster_request].
Proof.
  intros Hn Ho Hj. eexists. rewrite ManagerFacts.refresh_run, Hn, Ho, Hj.
  split; [reflexivity|]. unfold rendered. cbn [employees set_employees].
  cbn [status_filter search requested set_sent].
  destruct (filter_spec (status_filter p) (trim (search p)) data) as [|x xs] eqn:Ef.
  - repeat split. intros Hne. contradiction.
  - repeat split. discriminate.
Qed.

(** X9. Once the document is loaded the dashboard has three listeners,
    click on [#refresh], change on [#status-filter] and input on
    [#search], has sent one roster request and left no rejection
    unhandled; and whenever the browser runs one of the registered
    callbacks it returns, sends one roster request, leaves listeners
    and timers as they are and leaves no rejection unhandled, whatever
    the network answers. *)
Theorem dashboard_wiring
    (net : list request -> request -> fetch_result (parsed entry))
    (status_value search_value : string) :
  listeners (snd (onDOMContentLoaded net (fresh_page status_value search_value)))
  = [("refresh", "click", CbRefresh); ("status-filter", "change", CbRefresh);
     ("search", "input", CbRefreshArrow)]
  /\ sent (snd (onDOMContentLoaded net (fresh_page status_value search_value)))
     = [roster_request]
  /\ unhandled (snd (onDOMContentLoaded net (fresh_page status_value search_value))) = []
  /\ forall (cb : callback) (q : page),
       fst (run_callback net cb q) = Returned tt
       /\ sent (snd (run_callback net cb q)) = sent q ++ [roster_request]
       /\ listeners (snd (run_callback net cb q)) = listeners q
       /\ intervals (snd (run_callback net cb q)) = intervals q
       /\ unhandled (snd (run_callback net cb q)) = unhandled q.
Proof.
  split; [|split; [|split]].
  - unfold onDOMContentLoaded, addEventListener, setInterval. monad_unfold.
    rewrite ManagerFacts.call_async_refresh.
    match goal with |- context [refresh net ?q] =>
      pose proof (ManagerFacts.refresh_frame net q) as (_ & _ & _ & Fl & _);
      destruct (refresh net q) as [o q'] end.
    cbn [snd] in Fl. destruct o; cbn; rewrite Fl; reflexivity.
  - pose proof (ManagerFacts.onDOMContentLoaded_frame net
                  (fresh_page status_value search_value)) as (_ & _ & Hs & _).
    exact Hs.
  - pose proof (ManagerFacts.onDOMContentLoaded_frame net
                  (fresh_page status_value search_value)) as (_ & _ & _ & Hu).
    exact Hu.
  - intros cb q.
    assert (E : run_callback net cb q = refresh net q)
      by (destruct cb; apply ManagerFacts.call_async_refresh).
    rewrite E. pose proof (ManagerFacts.refresh_frame net q) as (Fr & Fs & Fi & Fl & Fu).
    auto.
Qed.

End Facts.

(** X6 on the integer host. *)
Lemma renderList_replaces_content_witness :
  let xs := [int_entry "Bob" "fresh" 1700000000 55 37 None;
             int_entry "Eve" "stale" 1700000100 56 38 (Some 12)] in
  let p := set_employees [error_notice]
             (@set_arrays IntegerNumbers {[1%positive := xs]}
                (@fresh_page IntegerNumbers "all" "")) in
  exists p' : @page IntegerNumbers,
    @renderList IntegerNumbers 1%positive p = (Returned tt, p')
    /\ length (employees p') = 2%nat.
Proof.
  intros xs p.
  destruct (@renderList_replaces_content IntegerNumbers 1%positive xs p eq_refl)
    as (p' & Hrun & _ & Hcards & _).
  exists p'. split; [exact Hrun|]. apply Hcards. discriminate.
Defined.

(** X7 on the integer host, the status control on stale. *)
Lemma applyFilters_keeps_order_witness :
  let xs := [int_entry "Bob" "fresh" 1700000000 55 37 None;
             int_entry "Eve" "stale" 1700000100 56 38 (Some 12);
             int_entry "Ann" "stale" 1700000200 57 39 None] in
  let p := @set_arrays IntegerNumbers {[1%positive := xs]}
             (@fresh_page IntegerNumbers "stale" "") in
  exists (l : positive) (p' : @page IntegerNumbers) (ys : list (@entry IntegerNumbers)),
    @applyFilters IntegerNumbers BasicLatin (Ref 1%positive) p = (Returned l, p')
    /\ arrays p' !! l = Some ys /\ sublist ys xs.
Proof.
  intros xs p.
  destruct (@applyFilters_keeps_order IntegerNumbers BasicLatin 1%positive xs p eq_refl)
    as (l & p' & ys & Hrun & Hres & Hsub & _).
  exists l, p', ys. auto.
Defined.

(** X8 on the integer host. *)
Lemma refresh_shows_passing_entries_witness :
  let roster := [int_entry "Bob" "fresh" 1700000000 55 37 None;
                 int_entry "Eve" "stale" 1700000100 56 38 (Some 12)] in
  let r := {| ok := true; status := 200; json := Returned (Array_of roster) |} in
  exists p' : @page IntegerNumbers,
    @refresh IntegerNumbers BasicLatin (fun _ _ => Resolved r)
      (@fresh_page IntegerNumbers "all" "e") = (Returned tt, p')
    /\ console p' = [].
Proof.
  intros roster r.
  destruct (@refresh_shows_passing_entries IntegerNumbers BasicLatin
              (fun _ _ => Resolved r) (@fresh_page IntegerNumbers "all" "e") r roster
              eq_refl eq_refl eq_refl)
    as (p' & Hrun & _ & _ & Hc & _).
  exists p'. auto.
Defined.

End ManagerMore.

(** * Further properties of the map dashboard *)

Module OnlineMapMore.
Import OnlineMap.

Section Facts.
Context {host : JsNumber}.
Variable net_roster : list request -> request -> fetch_result (parsed employee).
Variable net_track : list request -> request -> fetch_result track.

(** X10. [loadEmployees] does not look at the status of the answer.
    A body that parses to an array of employees is shown, the list
    under [#list] replaced by one item per employee in the order
    served, with the status in its class, key and status in its text,
    and the click bound to the track of that key.  A body that parses
    to a value that is no array empties the list and then throws at
    [data.forEach], and, nothing catching it, the TypeError is left
    unhandled.  When the fetch is rejected or the body does not parse,
    the list stays as it was and the rejection is left unhandled. *)
Theorem loadEmployees_rebuilds_list (p : page) :
  (forall (r : response (parsed employee)) (data : list employee),
      net_roster (sent p) roster_request = Resolved r ->
      json r = Returned (Array_of data) ->
      exists p' : page,
        loadEmployees net_roster p = (Returned tt, p')
        /\ length (list_items p') = length data
        /\ (forall (i : nat) (emp : employee),
               data !! i = Some emp ->
               list_items p' !! i
               = Some {| item_class := "emp " +:+ fresh_status emp;
                         item_text := employee_id emp +:+ " (" +:+ fresh_status emp +:+ ")";
                         item_onclick := CbShowTrack (employee_id emp) |})
        /\ map p' = map p /\ markers p' = markers p /\ polyline p' = polyline p)
  /\ (forall (r : response (parsed employee)) (v : non_array),
         net_roster (sent p) roster_request = Resolved r ->
         json r = Returned (Not_array v) ->
         loadEmployees net_roster p
         = (Thrown (no_method v "data" "forEach"),
            set_list_items [] (requested roster_request p))
         /\ list_items (snd (run_callback net_roster net_track CbLoadEmployees p)) = []
         /\ unhandled (snd (run_callback net_roster net_track CbLoadEmployees p))
            = unhandled p ++ [no_method v "data" "forEach"]
         /\ map (snd (run_callback net_roster net_track CbLoadEmployees p)) = map p
         /\ markers (snd (run_callback net_roster net_track CbLoadEmployees p)) = markers p
         /\ polyline (snd (run_callback net_roster net_track CbLoadEmployees p))
            = polyline p)
  /\ (forall e : exn,
         net_roster (sent p) roster_request = Rejected e
         \/ (exists r : response (parsed employee),
                net_roster (sent p) roster_request = Resolved r /\ json r = Thrown e) ->
         loadEmployees net_roster p = (Thrown e, requested roster_request p)
         /\ list_items (snd (run_callback net_roster net_track CbLoadEmployees p))
            = list_items p
         /\ unhandled (snd (run_callback net_roster net_track CbLoadEmployees p))
            = unhandled p ++ [e]).
Proof.
  split; [|split].
  - intros r data Hn Hj. eexists.
    rewrite OnlineMapFacts.loadEmployees_run, Hn, Hj.
    split; [reflexivity|]. cbn [list_items set_list_items].
    split; [apply length_fmap|]. split; [|repeat split].
    intros i emp He. rewrite list_lookup_fmap, He. reflexivity.
  - intros r v Hn Hj.
    assert (Hrun : loadEmployees net_roster p
                   = (Thrown (no_method v "data" "forEach"),
                      set_list_items [] (requested roster_request p))).
    { rewrite OnlineMapFacts.loadEmployees_run, Hn, Hj. reflexivity. }
    split; [exact Hrun|]. cbn [run_callback]. unfold call_async. rewrite Hrun.
    repeat split; reflexivity.
  - intros e Hf.
    assert (Hrun : loadEmployees net_roster p = (Thrown e, requested roster_request p)).
    { rewrite OnlineMapFacts.loadEmployees_run.
      destruct Hf as [-> | (r & -> & ->)]; reflexivity. }
    split; [exact Hrun|]. cbn [run_callback]. unfold call_async. rewrite Hrun.
    split; reflexivity.
Qed.

(** X11. When the track request is rejected, or its body does not
    parse, [showTrack] has touched nothing but the network: the map,
    the track drawn before and every marker are as they were. *)
Theorem showTrack_failure_leaves_map (id : string) (p : page) (e : exn) :
  net_track (sent p) (track_request id (today_iso p)) = Rejected e
  \/ (exists r : response track,
         net_track (sent p) (track_request id (today_iso p)) = Resolved r
         /\ json r = Thrown e) ->
  showTrack net_track id p = (Thrown e, requested (track_request id (today_iso p)) p)
  /\ map (snd (showTrack net_track id p)) = map p
  /\ markers (snd (showTrack net_track id p)) = markers p
  /\ polyline (snd (showTrack net_track id p)) = polyline p
  /\ objects (snd (showTrack net_track id p)) = objects p
  /\ sent (snd (showTrack net_track id p)) = sent p ++ [track_request id (today_iso p)].
Proof.
  intros Hf.
  assert (Hrun : showTrack net_track id p
                 = (Thrown e, requested (track_request id (today_iso p)) p)).
  { rewrite OnlineMapFacts.showTrack_run. cbv zeta.
    destruct Hf as [-> | (r & -> & ->)]; reflexivity. }
  rewrite Hrun. repeat split.
Qed.

Lemma wf_showTrack_draw (id : string) (data : track) (q : page) :
  wf q -> is_Some (map q) ->
  wf (snd (showTrack_draw id data q)) /\ is_Some (map (snd (showTrack_draw id data q))).
Proof.
  intros Hwf [m Hm]. rewrite (OnlineMapFacts.showTrack_draw_run id data q m Hm). cbv zeta.
  destruct (points data) as [|pt pts] eqn:Epts.
  - split; [exact Hwf | eexists; reflexivity].
  - destruct (OnlineMapFacts.nonempty_last (pt :: pts)) as [lp Hlp]; [discriminate|].
    rewrite <- Epts in Hlp. apply OnlineMapFacts.last_latlng in Hlp.
    match goal with |- context [plot_track id data ?c] =>
      destruct (OnlineMapFacts.plot_track_post id data c _ _ eq_refl Hlp) as
        (line & mark & p' & Hrun & Hl & Hk & Hne & Hpl & Hmk & _ & _ & _ & Hdom & Hsh & _)
    end.
    rewrite Hrun. cbn [snd].
    cbn [map markers polyline objects set_map on_map with_layers] in *.
    destruct Hwf as (W1 & W2 & W3 & W4).
    split.
    + unfold wf. rewrite Hpl, Hmk, Hdom. repeat split.
      * intros l [= <-]. set_solver.
      * intros id' l. rewrite lookup_insert. case_decide.
        -- intros [= <-]. set_solver.
        -- intros Hl'. apply W2 in Hl'. set_solver.
      * intros id' l. rewrite lookup_insert. case_decide.
        -- intros [= <-] [= E]. congruence.
        -- intros Hl' [= E]. apply W2, elem_of_dom in Hl' as [x Hx]. congruence.
      * intros id1 id2 l. rewrite !lookup_insert. repeat case_decide; try congruence.
        -- intros [= <-] Hl'. apply W2, elem_of_dom in Hl' as [x Hx]. congruence.
        -- intros Hl' [= <-]. apply W2, elem_of_dom in Hl' as [x Hx]. congruence.
        -- apply W4.
    + unfold shown in Hsh. destruct (map p') as [m'|]; [eauto|].
      exfalso. set_solver.
Qed.

Lemma kept_by_map_unhandled (tiles : positive) (es : list exn) (p : page) :
  kept_by_map tiles p -> kept_by_map tiles (set_unhandled es p).
Proof. intros Hp. exact Hp. Qed.

Lemma kept_by_map_requested (tiles : positive) (r : request) (p : page) :
  kept_by_map tiles p -> kept_by_map tiles (requested r p).
Proof. intros Hp. exact Hp. Qed.

Lemma kept_by_map_draw (tiles : positive) (id : string) (data : track) (q : page) :
  kept_by_map tiles q -> kept_by_map tiles (snd (showTrack_draw id data q)).
Proof.
  intros ([m Hm] & Hwf & Hd & Hs & Hp & Hk & Hacc).
  assert (Hsh : shown q = on_map m) by (unfold shown; rewrite Hm; reflexivity).
  assert (Hst : tiles ∉ stale_layers id q).
  { unfold stale_layers, layer_set. specialize (Hk id).
    destruct (polyline q) as [k|], (markers q !! id) as [k'|]; set_unfold;
      intros [E|E]; subst; try congruence; tauto. }
  pose proof (wf_showTrack_draw id data q Hwf (ex_intro _ m Hm)) as [Hwf' Hm'].
  rewrite (OnlineMapFacts.showTrack_draw_run id data q m Hm) in Hwf', Hm' |- *.
  cbv zeta in Hwf', Hm' |- *.
  destruct (points data) as [|pt pts] eqn:Epts.
  - cbn [snd]. unfold kept_by_map, accounted, shown, wf in *.
    cbn [map markers polyline objects set_map on_map with_layers] in *.
    rewrite Hm in *. split; [eauto|]. split; [exact Hwf|].
    split; [exact Hd|]. split; [set_solver|]. split; [exact Hp|]. split; [exact Hk|].
    intros l Hl. apply Hacc. set_solver.
  - assert (Hlp : exists lp : point, last (points data) = Some lp)
      by (apply OnlineMapFacts.nonempty_last; rewrite Epts; discriminate).
    destruct Hlp as [lp Hlp].
    match goal with |- context [plot_track id data ?c] =>
      destruct (OnlineMapFacts.plot_track_post id data c _ _ eq_refl
                  (OnlineMapFacts.last_latlng _ _ Hlp)) as
        (line & mark & q' & Hrun & Hl & Hkk & Hlm & Hpl & Hmk & _ & _ & Hfr & Hdom & Hsh' & _)
    end.
    rewrite Hrun in *. cbn [snd] in *.
    cbn [map markers polyline objects set_map on_map with_layers] in *.
    assert (Htl : tiles <> line /\ tiles <> mark).
    { apply elem_of_dom in Hd as [x Hx]. split; congruence. }
    destruct Htl as [Ht1 Ht2].
    split; [exact Hm'|]. split; [exact Hwf'|].
    split; [rewrite Hdom; set_solver|]. split; [rewrite Hsh'; set_solver|].
    split; [rewrite Hpl; congruence|]. split.
    + intros id'. rewrite Hmk, lookup_insert. case_decide; [congruence | apply Hk].
    + intros l. rewrite Hsh', Hpl, Hmk. intros Hl'.
      destruct (decide (l = line)) as [->|Hn1]; [auto|].
      destruct (decide (l = mark)) as [->|Hn2];
        [right; right; exists id; apply lookup_insert_eq|].
      assert (Hin : l ∈ on_map m /\ l ∉ stale_layers id q) by set_solver.
      destruct Hin as [Hin Hns]. rewrite <- Hsh in Hin.
      destruct (Hacc l Hin) as [-> | [Hpq | (id' & Hid')]]; [auto | |].
      * exfalso. apply Hns. unfold stale_layers, layer_set. rewrite Hpq. set_solver.
      * destruct (decide (id' = id)) as [->|Hne].
        -- exfalso. apply Hns. unfold stale_layers, layer_set. rewrite Hid'. set_solver.
        -- right; right. exists id'. rewrite lookup_insert_ne by congruence. exact Hid'.
Qed.

Lemma kept_by_map_callback (tiles : positive) (cb : callback) (p : page) :
  kept_by_map tiles p ->
  kept_by_map tiles (snd (run_callback net_roster net_track cb p)).
Proof.
  intros Hp. destruct cb as [|id]; cbn [run_callback].
  - pose proof (OnlineMapFacts.loadEmployees_frame net_roster p)
      as (_ & Fm & Fk & Fp & Fo & _).
    unfold kept_by_map, accounted, shown, wf in *. rewrite Fm, Fk, Fp, Fo. exact Hp.
  - assert (Hs : kept_by_map tiles (snd (showTrack net_track id p))).
    { rewrite OnlineMapFacts.showTrack_run. cbv zeta.
      destruct (net_track (sent p) (track_request id (today_iso p))) as [e|r];
        [apply kept_by_map_requested, Hp|].
      destruct (json r) as [data|e]; [|apply kept_by_map_requested, Hp].
      apply kept_by_map_draw, kept_by_map_requested, Hp. }
    unfold call_async. destruct (showTrack net_track id p) as [[u|e] q]; cbn [snd] in *;
      [exact Hs | apply kept_by_map_unhandled, Hs].
Qed.

(** X12. After [window.onload], whatever is clicked and whenever the
    timer fires, and whatever the two endpoints answer: the tile layer
    stays on the map, and every other layer on the map is the polyline
    the script refers to or the marker it holds for some identity, so
    at most one track and one marker per identity are shown and no
    layer is left behind; no layer is held for two identities, or as a
    marker and as the polyline. *)
Theorem map_shows_no_leftover_layers (today : string) :
  exists tiles : positive,
    forall cbs : list callback,
      tiles ∈ shown (run net_roster net_track cbs
                       (snd (onload net_roster (fresh_page today))))
      /\ accounted tiles (run net_roster net_track cbs
                            (snd (onload net_roster (fresh_page today))))
      /\ wf (run net_roster net_track cbs
                (snd (onload net_roster (fresh_page today)))).
Proof.
  exists (fresh (dom (objects (fresh_page today)))).
  assert (H0 : kept_by_map (fresh (dom (objects (fresh_page today))))
                 (snd (onload net_roster (fresh_page today)))).
  { rewrite OnlineMapFacts.onload_run. cbv zeta. cbn [snd].
    match goal with |- context [call_async _ ?q] =>
      pose proof (OnlineMapFacts.loadEmployees_frame net_roster q)
        as (_ & Fm & Fk & Fp & Fo & _);
      destruct (call_async (loadEmployees net_roster) q) as [o q'] end.
    cbn [snd] in *.
    cbn [map markers polyline objects set_map set_objects set_intervals fresh_page] in *.
    unfold kept_by_map, accounted, shown, wf.
    cbn [map markers polyline objects set_intervals].
    rewrite Fm, Fk, Fp, Fo. cbn [on_map with_layers].
    split; [eauto|]. split.
    { repeat split; intros *; try discriminate; rewrite lookup_empty; discriminate. }
    split; [rewrite dom_insert_L; set_solver|]. split; [set_solver|].
    split; [discriminate|]. split; [intros id; rewrite lookup_empty; discriminate|].
    intros l Hl. left. set_solver. }
  assert (Hrun : forall (cbs : list callback) (p : page),
             kept_by_map (fresh (dom (objects (fresh_page today)))) p ->
             kept_by_map (fresh (dom (objects (fresh_page today))))
               (run net_roster net_track cbs p)).
  { induction cbs as [|cb cbs IH]; intros p Hp; [exact Hp|].
    change (run net_roster net_track (cb :: cbs) p)
      with (run net_roster net_track cbs (snd (run_callback net_roster net_track cb p))).
    apply IH, kept_by_map_callback, Hp. }
  intros cbs. destruct (Hrun cbs _ H0) as (_ & Hwf & _ & Hs & _ & _ & Hacc). auto.
Qed.

End Facts.

(** X11 on the integer host: the track endpoint is unreachable after a
    first track was drawn. *)
Lemma showTrack_failure_leaves_map_witness :
  let p := run demo_roster demo_track [CbShowTrack "E1"] demo_map_page in
  showTrack (fun _ _ => Rejected NetworkError) "E1" p
  = (Thrown NetworkError, requested (track_request "E1" (today_iso p)) p).
Proof.
  intros p.
  destruct (@showTrack_failure_leaves_map IntegerNumbers
              (fun _ _ => Rejected NetworkError) "E1" p NetworkError)
    as (Hrun & _).
  - left. reflexivity.
  - exact Hrun.
Defined.

End OnlineMapMore.

(** * The administration page *)

Lemma append_assoc (a b c : string) : (a +:+ b) +:+ c = a +:+ (b +:+ c).
Proof.
  induction a as [|x a IH]; [reflexivity|].
  change (String x ((a +:+ b) +:+ c) = String x (a +:+ (b +:+ c))).
  f_equal. exact IH.
Qed.

Lemma append_cancel (a b c : string) : a +:+ b = a +:+ c -> b = c.
Proof. apply (inj (String.app a)). Qed.

Lemma Z_to_string_inj (x y : Z) : Z_to_string x = Z_to_string y -> x = y.
Proof.
  unfold Z_to_string. intros E. apply Stdlib.Numbers.DecimalZ.to_int_inj.
  assert (Hn : forall z : Z, Z.to_int z <> Decimal.Pos Decimal.Nil
                            /\ Z.to_int z <> Decimal.Neg Decimal.Nil).
  { intros [|q|q]; cbn; split; try discriminate; intros [= E'];
      exact (Stdlib.Numbers.DecimalPos.Unsigned.to_uint_nonnil q E'). }
  apply (f_equal NilZero.int_of_string) in E.
  rewrite !NilZero.isi in E by apply Hn. congruence.
Qed.

Module AdminFacts.
Import Admin.

Section Facts.
Context `{JsNumber} {Dom : Type}.
Variable clock_at : nat -> Z.
Variable Number_of : string -> num.
Variable encodeURIComponent : string -> string.
Variable JSON_stringify : list (string * value) -> string.
Variable confirm : string -> bool.
Variable race : list failure -> failure.
Variables Threads Brigades Employees : Type.
Variable net_threads : list call -> call -> fetch_result Threads.
Variable net_brigades : list call -> call -> fetch_result Brigades.
Variable net_chat : list call -> call -> fetch_result Chat.
Variable net_employees : list call -> call -> fetch_result Employees.
Variable net_change : list call -> call -> fetch_result Verdict.
Variable drawThreads : Threads -> Dom -> result unit * Dom.
Variable drawBrigades : Brigades -> Dom -> result unit * Dom.
Variable drawEmployees : Employees -> Dom -> result unit * Dom.

#[local] Abbreviation page := (@page Dom).
#[local] Abbreviation _withTs := (Admin._withTs clock_at).
#[local] Abbreviation jget_called := (Admin.jget_called clock_at).
#[local] Abbreviation jget := (Admin.jget clock_at).
#[local] Abbreviation jpost := (Admin.jpost clock_at JSON_stringify).
#[local] Abbreviation jdel := (Admin.jdel clock_at).
#[local] Abbreviation post_call := (Admin.post_call JSON_stringify).
#[local] Abbreviation reload_calls := (Admin.reload_calls clock_at).
#[local] Abbreviation reloading := (Admin.reloading clock_at).
#[local] Abbreviation reload_threads := (Admin.reload_threads clock_at Threads net_threads).
#[local] Abbreviation reload_brigades :=
  (Admin.reload_brigades clock_at Brigades net_brigades).
#[local] Abbreviation reload_chat := (Admin.reload_chat clock_at net_chat).
#[local] Abbreviation reload_employees :=
  (Admin.reload_employees clock_at Employees net_employees).
#[local] Abbreviation loadAll :=
  (Admin.loadAll clock_at race Threads Brigades Employees
     net_threads net_brigades net_chat net_employees
     drawThreads drawBrigades drawEmployees).
#[local] Abbreviation save_thread :=
  (Admin.save_thread clock_at Number_of JSON_stringify race Threads Brigades Employees
     net_threads net_brigades net_chat net_employees net_change
     drawThreads drawBrigades drawEmployees).
#[local] Abbreviation save_brigade :=
  (Admin.save_brigade clock_at JSON_stringify race Threads Brigades Employees
     net_threads net_brigades net_chat net_employees net_change
     drawThreads drawBrigades drawEmployees).
#[local] Abbreviation save_chat :=
  (Admin.save_chat clock_at Number_of JSON_stringify race Threads Brigades Employees
     net_threads net_brigades net_chat net_employees net_change
     drawThreads drawBrigades drawEmployees).
#[local] Abbreviation save_employee :=
  (Admin.save_employee clock_at Number_of JSON_stringify race Threads Brigades Employees
     net_threads net_brigades net_chat net_employees net_change
     drawThreads drawBrigades drawEmployees).
#[local] Abbreviation delete_thread :=
  (Admin.delete_thread clock_at encodeURIComponent confirm race Threads Brigades Employees
     net_threads net_brigades net_chat net_employees net_change
     drawThreads drawBrigades drawEmployees).
#[local] Abbreviation delete_brigade :=
  (Admin.delete_brigade clock_at encodeURIComponent confirm race Threads Brigades Employees
     net_threads net_brigades net_chat net_employees net_change
     drawThreads drawBrigades drawEmployees).
#[local] Abbreviation delete_employee :=
  (Admin.delete_employee clock_at confirm race Threads Brigades Employees
     net_threads net_brigades net_chat net_employees net_change
     drawThreads drawBrigades drawEmployees).
#[local] Abbreviation onDOMContentLoaded :=
  (Admin.onDOMContentLoaded clock_at race Threads Brigades Employees
     net_threads net_brigades net_chat net_employees
     drawThreads drawBrigades drawEmployees).

#[local] Notation "x <~ c ;; k" := (abind c (fun x => k))
  (at level 100, c at next level, right associativity).
#[local] Notation "c ~;; k" := (abind c (fun _ => k))
  (at level 100, right associativity).


Lemma withTs_run (u : string) (p : page) :
  _withTs u p
  = (Done (stamped u (clock_at (reads p))), set_reads (S (reads p)) p).
Proof. reflexivity. Qed.

Lemma jget_called_run {J} (net : list call -> call -> fetch_result J) (u : string) (p : page) :
  jget_called net u p
  = (Done (net (sent p) (reload_call u (clock_at (reads p)))),
     called (reload_call u (clock_at (reads p))) p).
Proof. reflexivity. Qed.

Lemma jget_run {J} (net : list call -> call -> fetch_result J) (u : string) (p : page) :
  jget net u p
  = (answer "GET" u (net (sent p) (reload_call u (clock_at (reads p)))),
     called (reload_call u (clock_at (reads p))) p).
Proof. reflexivity. Qed.

Lemma jpost_run {J} (net : list call -> call -> fetch_result J) (u : string)
    (b : list (string * value)) (p : page) :
  jpost net u b p
  = (answer "POST" u (net (sent p) (post_call u b (clock_at (reads p)))),
     called (post_call u b (clock_at (reads p))) p).
Proof. reflexivity. Qed.

Lemma jdel_run {J} (net : list call -> call -> fetch_result J) (u : string) (p : page) :
  jdel net u p
  = (answer "DELETE" u (net (sent p) (delete_call u (clock_at (reads p)))),
     called (delete_call u (clock_at (reads p))) p).
Proof. reflexivity. Qed.

Lemma includes_stamped (u : string) (t : Z) : includes (stamped u t) "?" = true.
Proof.
  unfold stamped. apply includes_substring.
  destruct (includes u "?") eqn:Eu.
  - apply includes_substring in Eu as (a & b & ->).
    exists a, (b +:+ "&" +:+ "t=" +:+ Z_to_string t).
    rewrite !append_assoc. reflexivity.
  - exists u, ("t=" +:+ Z_to_string t). reflexivity.
Qed.

(** X13. [_withTs] reads the clock once and returns the URL it was
    given, whole, followed by the parameter t with the reading in
    decimal, after a question mark, or after an ampersand when the URL
    has a question mark already: the result always has a query string,
    and two results for the same URL are equal only if the clock read
    the same, so a request made at another reading has another URL. *)
Theorem withTs_busts_cache (u : string) (p p' : page) :
  (exists url : string,
      _withTs u p = (Done url, set_reads (S (reads p)) p)
      /\ String.prefix u url = true
      /\ includes url "?" = true
      /\ url = u +:+ (if includes u "?" then "&" else "?") +:+ "t="
               +:+ Z_to_string (clock_at (reads p)))
  /\ (fst (_withTs u p) = fst (_withTs u p') ->
      clock_at (reads p) = clock_at (reads p')).
Proof.
  split.
  - exists (stamped u (clock_at (reads p))). split; [reflexivity|].
    split; [apply prefix_app; eexists; reflexivity|].
    split; [apply includes_stamped | reflexivity].
  - rewrite !withTs_run. cbn [fst]. unfold stamped. intros [= E].
    apply append_cancel, append_cancel, append_cancel in E.
    exact (Z_to_string_inj _ _ E).
Qed.

Lemma snoc_app {A} (l r : list A) (a : A) : (l ++ [a]) ++ r = l ++ a :: r.
Proof. rewrite <- app_assoc. reflexivity. Qed.

Lemma snoc2 {A} (l : list A) (a b : A) : (l ++ [a]) ++ [b] = l ++ [a; b].
Proof. apply snoc_app. Qed.

Lemma snoc3 {A} (l : list A) (a b c : A) : ((l ++ [a]) ++ [b]) ++ [c] = l ++ [a; b; c].
Proof. rewrite snoc2. rewrite <- app_assoc. reflexivity. Qed.

Lemma snoc4 {A} (l : list A) (a b c d : A) :
  (((l ++ [a]) ++ [b]) ++ [c]) ++ [d] = l ++ [a; b; c; d].
Proof. rewrite snoc3. rewrite <- app_assoc. reflexivity. Qed.

Lemma abind_done {A B} (c : Act A) (k : A -> Act B) (p p' : page) (a : A) :
  c p = (Done a, p') -> abind c k p = k a p'.
Proof. unfold abind. intros ->. reflexivity. Qed.

Lemma abind_failed {A B} (c : Act A) (k : A -> Act B) (p p' : page) (f : failure) :
  c p = (Failed f, p') -> abind c k p = (Failed f, p').
Proof. unfold abind. intros ->. reflexivity. Qed.

Lemma four_calls (p : page) (c1 c2 c3 c4 : call) :
  called c4 (called c3 (called c2 (called c1 p)))
  = set_sent (sent p ++ [c1; c2; c3; c4]) (set_reads (4 + reads p) p).
Proof.
  unfold called. cbn [sent reads set_sent set_reads]. rewrite snoc4. reflexivity.
Qed.

(** [loadAll], once its four calls are made *)
Lemma loadAll_run (p : page) :
  loadAll p
  = match reload_threads p, reload_brigades p, reload_chat p, reload_employees p with
    | Done threads, Done brigades, Done chat, Done employees =>
        (on_dom (drawThreads threads) ~;;
         on_dom (drawBrigades brigades) ~;;
         show_chat chat ~;;
         unawaited (on_dom (drawEmployees employees))) (reloading p)
    | r1, r2, r3, r4 =>
        (Failed (first_rejection race
                   (rejections r1 ++ rejections r2 ++ rejections r3 ++ rejections r4)),
         reloading p)
    end.
Proof.
  unfold Admin.loadAll.
  rewrite (abind_done _ _ _ _ _ (jget_called_run net_threads _ _)).
  rewrite (abind_done _ _ _ _ _ (jget_called_run net_brigades _ _)).
  rewrite (abind_done _ _ _ _ _ (jget_called_run net_chat _ _)).
  rewrite (abind_done _ _ _ _ _ (jget_called_run net_employees _ _)).
  cbv zeta. rewrite four_calls.
  unfold Admin.reload_threads, Admin.reload_brigades, Admin.reload_chat,
    Admin.reload_employees, Admin.reloading, Admin.reload_calls.
  cbn [sent reads called set_sent set_reads take].
  rewrite snoc3, snoc2.
  destruct (answer "GET" "/api/org/threads" _) as [t|f1];
    destruct (answer "GET" "/api/org/brigades" _) as [b|f2];
    destruct (answer "GET" "/api/org/group_chat_id" _) as [c|f3];
    destruct (answer "GET" "/api/org/employees" _) as [e|f4]; reflexivity.
Qed.


(** what [loadAll] leaves as it was, and the requests it adds *)
Lemma loadAll_frame (p : page) :
  sent (snd (loadAll p)) = sent p ++ reload_calls (reads p)
  /\ reads (snd (loadAll p)) = (4 + reads p)%nat
  /\ alerts (snd (loadAll p)) = alerts p
  /\ timeouts (snd (loadAll p)) = timeouts p
  /\ onclick (snd (loadAll p)) = onclick p
  /\ buttons (snd (loadAll p)) = buttons p.
Proof.
  rewrite loadAll_run.
  destruct (reload_threads p) as [t|f1], (reload_brigades p) as [b|f2],
    (reload_chat p) as [c|f3], (reload_employees p) as [e|f4];
    try (repeat split; reflexivity).
  unfold abind, on_dom, show_chat, unawaited, amodify.
  destruct (drawThreads t (dom (reloading p))) as [[[]|g1] d1];
    [|repeat split; reflexivity].
  cbn [dom set_dom].
  destruct (drawBrigades b d1) as [[[]|g2] d2]; [|repeat split; reflexivity].
  cbn [inputs set_dom dom].
  destruct (inputs _ !! "g-id") as [old|];
    cbn [dom set_dom set_inputs];
    destruct (drawEmployees e d2) as [[[]|g3] d3]; repeat split; reflexivity.
Qed.


(** X14. A response whose [ok] is false makes each of the three helpers
    fail with the Error that names the status, the verb and the URL as
    the caller gave it, without the parameter t; the body of the
    response is not looked at, and the request has left. *)
Theorem helpers_report_http_errors {J} (net : list call -> call -> fetch_result J)
    (u : string) (b : list (string * value)) (p : page) (r : response J) :
  ok r = false ->
  (net (sent p) (reload_call u (clock_at (reads p))) = Resolved r ->
   jget net u p
   = (Failed (HttpError ("HTTP " +:+ Z_to_string (status r) +:+ " GET " +:+ u)),
      called (reload_call u (clock_at (reads p))) p))
  /\ (net (sent p) (post_call u b (clock_at (reads p))) = Resolved r ->
      jpost net u b p
      = (Failed (HttpError ("HTTP " +:+ Z_to_string (status r) +:+ " POST " +:+ u)),
         called (post_call u b (clock_at (reads p))) p))
  /\ (net (sent p) (delete_call u (clock_at (reads p))) = Resolved r ->
      jdel net u p
      = (Failed (HttpError ("HTTP " +:+ Z_to_string (status r) +:+ " DELETE " +:+ u)),
         called (delete_call u (clock_at (reads p))) p)).
Proof.
  intros Hok. repeat split; intros Hnet.
  - rewrite jget_run, Hnet. unfold answer. rewrite Hok. reflexivity.
  - rewrite jpost_run, Hnet. unfold answer. rewrite Hok. reflexivity.
  - rewrite jdel_run, Hnet. unfold answer. rewrite Hok. reflexivity.
Qed.

(** X15. Whatever the back end answers and whatever the draw functions
    do, [loadAll] sends exactly four requests, in the order threads,
    brigades, group_chat_id, employees, each a body-less GET that
    bypasses the cache, and it opens no dialog. *)
Theorem loadAll_sends_four_requests (p : page) :
  sent (snd (loadAll p)) = sent p ++ reload_calls (reads p)
  /\ c_url <$> reload_calls (reads p)
     = [stamped "/api/org/threads" (clock_at (reads p));
        stamped "/api/org/brigades" (clock_at (S (reads p)));
        stamped "/api/org/group_chat_id" (clock_at (S (S (reads p))));
        stamped "/api/org/employees" (clock_at (S (S (S (reads p)))))]
  /\ Forall (fun c => call_method c = GET /\ c_body c = None
                      /\ c_cache c = Some "no-store")
            (reload_calls (reads p))
  /\ alerts (snd (loadAll p)) = alerts p.
Proof.
  destruct (loadAll_frame p) as (Hs & _ & Ha & _).
  split; [exact Hs|]. split; [reflexivity|]. split; [|exact Ha].
  repeat constructor.
Qed.

(** X16. If any of the four answers fails, [loadAll] fails and nothing
    is drawn: the tables and the inputs are as before, also when the
    three other answers were fine.  When only one failed, [loadAll]
    fails with that rejection. *)
Theorem loadAll_all_or_nothing (p : page) :
  rejections (reload_threads p) ++ rejections (reload_brigades p)
    ++ rejections (reload_chat p) ++ rejections (reload_employees p) <> [] ->
  exists f : failure,
    loadAll p = (Failed f, reloading p)
    /\ (forall only : failure,
          rejections (reload_threads p) ++ rejections (reload_brigades p)
            ++ rejections (reload_chat p) ++ rejections (reload_employees p) = [only] ->
          f = only)
    /\ dom (snd (loadAll p)) = dom p
    /\ inputs (snd (loadAll p)) = inputs p
    /\ unhandled (snd (loadAll p)) = unhandled p.
Proof.
  intros Hne. rewrite loadAll_run.
  destruct (reload_threads p) as [t|f1], (reload_brigades p) as [b|f2],
    (reload_chat p) as [c|f3], (reload_employees p) as [e|f4];
    try (exfalso; apply Hne; reflexivity);
    (eexists; split; [reflexivity|]; split;
     [intros only E; cbn [rejections app] in E |- *; rewrite E; reflexivity
     |repeat split; reflexivity]).
Qed.

(** X17. When the four answers are in and the two maps are drawn,
    [loadAll] succeeds whatever [drawEmployees] does: the three draws
    happen in the order threads, brigades, employees, each on the
    tables the previous one left, the input g-id, if there is one,
    shows the group chat id, and a failure of [drawEmployees] is a
    rejection nobody handles. *)
Theorem loadAll_draws_what_it_got (p : page) (t : Threads) (b : Brigades) (c : Chat)
    (e : Employees) (d1 d2 d3 : Dom) (r : result unit) :
  reload_threads p = Done t -> reload_brigades p = Done b ->
  reload_chat p = Done c -> reload_employees p = Done e ->
  drawThreads t (dom p) = (Done tt, d1) ->
  drawBrigades b d1 = (Done tt, d2) ->
  drawEmployees e d2 = (r, d3) ->
  fst (loadAll p) = Done tt
  /\ dom (snd (loadAll p)) = d3
  /\ inputs (snd (loadAll p))
     = match inputs p !! "g-id" with
       | Some _ => <["g-id" := chat_text c]> (inputs p)
       | None => inputs p
       end
  /\ unhandled (snd (loadAll p)) = unhandled p ++ rejections r.
Proof.
  intros Ht Hb Hc He H1 H2 H3. rewrite loadAll_run, Ht, Hb, Hc, He.
  unfold abind, on_dom, show_chat, unawaited, amodify.
  change (dom (reloading p)) with (dom p). rewrite H1.
  cbn [dom set_dom]. rewrite H2.
  change (inputs (set_dom d2 (set_dom d1 (reloading p)))) with (inputs p).
  destruct (inputs p !! "g-id") as [old|]; cbn [dom set_dom set_inputs];
    rewrite H3; destruct r as [[]|f]; cbn [fst snd rejections];
    rewrite ?app_nil_r; repeat split; reflexivity.
Qed.

(** X18. A draw function that throws stops [loadAll] there: when
    [drawThreads] fails, [loadAll] fails with what it threw, and
    neither the brigades nor the employees are drawn nor is the input
    g-id written. *)
Theorem loadAll_stops_at_failing_draw (p : page) (t : Threads) (b : Brigades) (c : Chat)
    (e : Employees) (d1 : Dom) (f : failure) :
  reload_threads p = Done t -> reload_brigades p = Done b ->
  reload_chat p = Done c -> reload_employees p = Done e ->
  drawThreads t (dom p) = (Failed f, d1) ->
  loadAll p = (Failed f, set_dom d1 (reloading p)).
Proof.
  intros Ht Hb Hc He H1. rewrite loadAll_run, Ht, Hb, Hc, He.
  unfold abind, on_dom. change (dom (reloading p)) with (dom p). rewrite H1.
  reflexivity.
Qed.



(** *** The handlers *)

Lemma getValue_run (id v : string) (p : page) :
  inputs p !! id = Some v -> getValue id p = (Done v, p).
Proof. intros E. unfold getValue, abind, aget. rewrite E. reflexivity. Qed.

Lemma report_run (v : verdict) (p : page) :
  report (Some v) p
  = (Done tt,
     noted v ("Ошибка: " +:+ String_of (js_or (j_error v) (VStr "unknown"))) p).
Proof.
  unfold report, noted, abind, read_ok, read_error, aret, alert, amodify.
  destruct (ToBoolean (j_ok v)); reflexivity.
Qed.

Lemma report_employee_run (v : verdict) (p : page) :
  report_employee (Some v) p
  = (Done tt, noted v (String_of (js_or (j_error v) (VStr "Ошибка"))) p).
Proof.
  unfold report_employee, noted, abind, read_ok, read_error, aret, alert, amodify.
  destruct (ToBoolean (j_ok v)); reflexivity.
Qed.

Lemma jpost_answered {J} (net : list call -> call -> fetch_result J) (u : string)
    (b : list (string * value)) (p : page) (r : response J) (j : J) :
  net (sent p) (post_call u b (clock_at (reads p))) = Resolved r ->
  ok r = true -> json r = Returned j ->
  jpost net u b p = (Done j, called (post_call u b (clock_at (reads p))) p).
Proof.
  intros Hn Ho Hj. rewrite jpost_run, Hn. unfold answer. rewrite Ho, Hj. reflexivity.
Qed.

Lemma jdel_answered {J} (net : list call -> call -> fetch_result J) (u : string)
    (p : page) (r : response J) (j : J) :
  net (sent p) (delete_call u (clock_at (reads p))) = Resolved r ->
  ok r = true -> json r = Returned j ->
  jdel net u p = (Done j, called (delete_call u (clock_at (reads p))) p).
Proof.
  intros Hn Ho Hj. rewrite jdel_run, Hn. unfold answer. rewrite Ho, Hj. reflexivity.
Qed.

(** the reload that follows a change the back end answered *)
Lemma reload_after (v : verdict) (msg : string) (c : call) (p : page) :
  sent (snd (loadAll (noted v msg (called c p))))
  = sent p ++ c :: reload_calls (S (reads p))
  /\ alerts (snd (loadAll (noted v msg (called c p))))
     = alerts p ++ (if ToBoolean (j_ok v) then [] else [msg])
  /\ timeouts (snd (loadAll (noted v msg (called c p)))) = timeouts p.
Proof.
  destruct (loadAll_frame (noted v msg (called c p))) as (Hs & _ & Ha & Ht & _).
  rewrite Hs, Ha, Ht. unfold noted.
  destruct (ToBoolean (j_ok v));
    cbn [sent reads alerts timeouts called set_sent set_reads set_alerts];
    rewrite ?app_nil_r, ?snoc_app; repeat split; reflexivity.
Qed.

(** a change the back end answered with a body that is not null: the
    answer is looked at and the page reloads *)
Lemma change_run (rep : Verdict -> Act unit) (c : Act Verdict) (k : Act unit)
    (p p1 : page) (v : verdict) (msg : string) :
  c p = (Done (Some v), p1) ->
  (forall q : page, rep (Some v) q = (Done tt, noted v msg q)) ->
  (j <~ c ;; rep j ~;; k) p = k (noted v msg p1).
Proof.
  intros Hc Hrep.
  rewrite (abind_done _ _ _ _ _ Hc). rewrite (abind_done _ _ _ _ _ (Hrep p1)).
  reflexivity.
Qed.

Lemma save_thread_run (p : page) (a b : string) :
  inputs p !! "t-fio" = Some a -> inputs p !! "t-thread" = Some b ->
  save_thread p
  = if negb (str_truthy (trim a)) || negb (num_truthy (Number_of (trim b)))
    then (Done tt, set_alerts (alerts p ++ ["Укажите ФИО и числовой thread_id"]) p)
    else (j <~ jpost net_change "/api/org/threads"
                 [("fio", VStr (trim a)); ("thread_id", VNum (Number_of (trim b)))] ;;
          report j ~;; loadAll) p.
Proof.
  intros Ha Hb. unfold Admin.save_thread.
  rewrite (abind_done _ _ _ _ _ (getValue_run _ _ _ Ha)).
  rewrite (abind_done _ _ _ _ _ (getValue_run _ _ _ Hb)).
  cbv zeta. destruct (negb _ || negb _); reflexivity.
Qed.

Lemma save_employee_run (p : page) (a b : string) :
  inputs p !! "e-fio" = Some a -> inputs p !! "e-uid" = Some b ->
  save_employee p
  = if negb (str_truthy (trim a)) || negb (num_truthy (Number_of (trim b)))
    then (Done tt, set_alerts (alerts p ++ ["Укажите ФИО и числовой tg_user_id"]) p)
    else (j <~ jpost net_change "/api/org/employees"
                 [("fio", VStr (trim a)); ("tg_user_id", VNum (Number_of (trim b)))] ;;
          report_employee j ~;; loadAll) p.
Proof.
  intros Ha Hb. unfold Admin.save_employee.
  rewrite (abind_done _ _ _ _ _ (getValue_run _ _ _ Ha)).
  rewrite (abind_done _ _ _ _ _ (getValue_run _ _ _ Hb)).
  cbv zeta. destruct (negb _ || negb _); reflexivity.
Qed.

Lemma save_brigade_run (p : page) (a b : string) :
  inputs p !! "b-fio" = Some a -> inputs p !! "b-name" = Some b ->
  save_brigade p
  = if negb (str_truthy (trim a))
    then (Done tt, set_alerts (alerts p ++ ["Укажите ФИО"]) p)
    else (j <~ jpost net_change "/api/org/brigades"
                 [("fio", VStr (trim a)); ("name", VStr (trim b))] ;;
          report j ~;; loadAll) p.
Proof.
  intros Ha Hb. unfold Admin.save_brigade.
  rewrite (abind_done _ _ _ _ _ (getValue_run _ _ _ Ha)).
  rewrite (abind_done _ _ _ _ _ (getValue_run _ _ _ Hb)).
  cbv zeta. destruct (negb _); reflexivity.
Qed.

Lemma save_chat_run (p : page) (a : string) :
  inputs p !! "g-id" = Some a ->
  save_chat p
  = (j <~ jpost net_change "/api/org/group_chat_id"
            [("group_chat_id", VNum (Number_of (trim a)))] ;;
     report j ~;; loadAll) p.
Proof.
  intros Ha. unfold Admin.save_chat.
  rewrite (abind_done _ _ _ _ _ (getValue_run _ _ _ Ha)). reflexivity.
Qed.

Lemma report_null (p : page) :
  report None p
  = (Failed (Raised (TypeError "Cannot read properties of null (reading 'ok')")), p).
Proof. reflexivity. Qed.

Lemma report_employee_null (p : page) :
  report_employee None p
  = (Failed (Raised (TypeError "Cannot read properties of null (reading 'ok')")), p).
Proof. reflexivity. Qed.

(** what leaves once a handler posts: the POST first *)
Lemma post_leaves_first (rep : Verdict -> Act unit) (msg : verdict -> string)
    (u : string) (b : list (string * value)) (p : page) (f0 : failure) :
  (forall (v : verdict) (q : page), rep (Some v) q = (Done tt, noted v (msg v) q)) ->
  (forall q : page, rep None q = (Failed f0, q)) ->
  exists rest : list call,
    sent (snd ((j <~ jpost net_change u b ;; rep j ~;; loadAll) p))
    = sent p ++ post_call u b (clock_at (reads p)) :: rest.
Proof.
  intros Hrep Hnull. unfold abind at 1. rewrite jpost_run.
  destruct (answer "POST" u _) as [[v|]|f].
  - rewrite (abind_done _ _ _ _ _ (Hrep v _)).
    destruct (reload_after v (msg v) (post_call u b (clock_at (reads p))) p) as (Hs & _).
    eexists. exact Hs.
  - exists []. rewrite (abind_failed _ _ _ _ _ (Hnull _)). reflexivity.
  - exists []. reflexivity.
Qed.

(** a POST that is not answered with a body ends the handler *)
Lemma post_unanswered (rep : Verdict -> Act unit) (u : string)
    (b : list (string * value)) (p : page) (f0 : failure) :
  (forall q : page, rep None q = (Failed f0, q)) ->
  (forall v : verdict,
      answer "POST" u (net_change (sent p) (post_call u b (clock_at (reads p))))
      <> Done (Some v)) ->
  exists f : failure,
    (j <~ jpost net_change u b ;; rep j ~;; loadAll) p
    = (Failed f, called (post_call u b (clock_at (reads p))) p).
Proof.
  intros Hnull Hno. unfold abind at 1. rewrite jpost_run.
  destruct (answer "POST" u _) as [[v|]|f].
  - destruct (Hno v). reflexivity.
  - exists f0. rewrite (abind_failed _ _ _ _ _ (Hnull _)). reflexivity.
  - exists f. reflexivity.
Qed.

(** X20. The handler of t-save asks nothing of the back end unless the
    trimmed name is non-empty and the thread id, as a number, is
    truthy: otherwise it shows its one message and returns, with no
    request sent and no clock read. *)
Theorem save_thread_validates (p : page) (a b : string) :
  inputs p !! "t-fio" = Some a -> inputs p !! "t-thread" = Some b ->
  str_truthy (trim a) && num_truthy (Number_of (trim b)) = false ->
  save_thread p
  = (Done tt, set_alerts (alerts p ++ ["Укажите ФИО и числовой thread_id"]) p).
Proof.
  intros Ha Hb Hv. rewrite (save_thread_run p a b Ha Hb).
  destruct (str_truthy (trim a)), (num_truthy (Number_of (trim b)));
    try reflexivity; discriminate.
Qed.

(** X21. The handler of e-save validates the same way, with its own
    message. *)
Theorem save_employee_validates (p : page) (a b : string) :
  inputs p !! "e-fio" = Some a -> inputs p !! "e-uid" = Some b ->
  str_truthy (trim a) && num_truthy (Number_of (trim b)) = false ->
  save_employee p
  = (Done tt, set_alerts (alerts p ++ ["Укажите ФИО и числовой tg_user_id"]) p).
Proof.
  intros Ha Hb Hv. rewrite (save_employee_run p a b Ha Hb).
  destruct (str_truthy (trim a)), (num_truthy (Number_of (trim b)));
    try reflexivity; discriminate.
Qed.

(** X22. With valid input and a POST the back end answers with a body,
    the handler of t-save sends the POST with the trimmed name and the
    number, then the four requests of [loadAll], and nothing else; it
    reloads also when the answer says the change was refused, which is
    the one case in which it opens a dialog. *)
Theorem save_thread_posts_then_reloads (p : page) (a b : string)
    (r : response Verdict) (v : verdict) :
  inputs p !! "t-fio" = Some a -> inputs p !! "t-thread" = Some b ->
  str_truthy (trim a) = true -> num_truthy (Number_of (trim b)) = true ->
  let c := post_call "/api/org/threads"
             [("fio", VStr (trim a)); ("thread_id", VNum (Number_of (trim b)))]
             (clock_at (reads p)) in
  net_change (sent p) c = Resolved r -> ok r = true -> json r = Returned (Some v) ->
  sent (snd (save_thread p)) = sent p ++ c :: reload_calls (S (reads p))
  /\ alerts (snd (save_thread p))
     = alerts p ++ (if ToBoolean (j_ok v) then []
                    else ["Ошибка: " +:+ String_of (js_or (j_error v) (VStr "unknown"))]).
Proof.
  intros Ha Hb Hf Ht c Hn Ho Hj. rewrite (save_thread_run p a b Ha Hb), Hf, Ht.
  cbn [negb orb].
  rewrite (change_run report _ _ p _ v _ (jpost_answered _ _ _ _ _ _ Hn Ho Hj)
             (report_run v)).
  destruct (reload_after v ("Ошибка: " +:+ String_of (js_or (j_error v) (VStr "unknown")))
              c p) as (Hs & Hal & _).
  split; assumption.
Qed.

(** X23. When the POST of t-save is not answered with a body, because
    the request was rejected, refused by status, unreadable or
    answered with null, the handler fails there: the POST is the only
    request, there is no dialog and no reload. *)
Theorem save_thread_unanswered_does_not_reload (p : page) (a b : string) :
  inputs p !! "t-fio" = Some a -> inputs p !! "t-thread" = Some b ->
  str_truthy (trim a) = true -> num_truthy (Number_of (trim b)) = true ->
  let c := post_call "/api/org/threads"
             [("fio", VStr (trim a)); ("thread_id", VNum (Number_of (trim b)))]
             (clock_at (reads p)) in
  (forall v : verdict,
      answer "POST" "/api/org/threads" (net_change (sent p) c) <> Done (Some v)) ->
  exists f : failure, save_thread p = (Failed f, called c p).
Proof.
  intros Ha Hb Hf Ht c Hno. rewrite (save_thread_run p a b Ha Hb), Hf, Ht.
  cbn [negb orb]. exact (post_unanswered report _ _ p _ report_null Hno).
Qed.

(** X24. The handler of g-save validates nothing: whatever the input
    holds, blank included, the first thing it does is to POST the
    number read from the trimmed text. *)
Theorem save_chat_posts_whatever_is_typed (p : page) (a : string) :
  inputs p !! "g-id" = Some a ->
  exists rest : list call,
    sent (snd (save_chat p))
    = sent p ++ post_call "/api/org/group_chat_id"
                  [("group_chat_id", VNum (Number_of (trim a)))] (clock_at (reads p))
             :: rest.
Proof.
  intros Ha. rewrite (save_chat_run p a Ha).
  exact (post_leaves_first report _ _ _ p _ (fun v q => report_run v q) report_null).
Qed.

(** X25. The handler of b-save requires the name of the person only:
    with a non-empty trimmed name it POSTs name and brigade, the
    brigade as typed and trimmed, an empty one included; with an empty
    one it shows its message and sends nothing. *)
Theorem save_brigade_requires_only_the_name (p : page) (a b : string) :
  inputs p !! "b-fio" = Some a -> inputs p !! "b-name" = Some b ->
  if str_truthy (trim a)
  then exists rest : list call,
         sent (snd (save_brigade p))
         = sent p ++ post_call "/api/org/brigades"
                       [("fio", VStr (trim a)); ("name", VStr (trim b))]
                       (clock_at (reads p)) :: rest
  else save_brigade p = (Done tt, set_alerts (alerts p ++ ["Укажите ФИО"]) p).
Proof.
  intros Ha Hb. rewrite (save_brigade_run p a b Ha Hb).
  destruct (str_truthy (trim a)); cbn [negb]; [|reflexivity].
  exact (post_leaves_first report _ _ _ p _ (fun v q => report_run v q) report_null).
Qed.


(** X26. A delete the user declines changes nothing: no request, no
    dialog of the page's own, no timer, for each of the three kinds
    of rows. *)
Theorem declined_delete_changes_nothing (key : string) (p : page) :
  (confirm ("Удалить тред для " +:+ key +:+ "?") = false ->
   delete_thread key p = (Done tt, p))
  /\ (confirm ("Удалить бригадное назначение для " +:+ key +:+ "?") = false ->
      delete_brigade key p = (Done tt, p))
  /\ (confirm ("Удалить запись uid=" +:+ key +:+ "?") = false ->
      delete_employee key p = (Done tt, p)).
Proof.
  repeat split; intros Hc.
  - unfold Admin.delete_thread. rewrite Hc. reflexivity.
  - unfold Admin.delete_brigade. rewrite Hc. reflexivity.
  - unfold Admin.delete_employee. rewrite Hc. reflexivity.
Qed.

(** X27. A confirmed delete of a thread row that the back end answers
    with a body sends the DELETE to the URL that ends in the encoded
    name, then reloads, and ends as that reload ends; if the reload
    succeeds it also sets a timer for a second reload 300 ms later,
    and if the reload fails it sets none. *)
Theorem delete_thread_reloads_now_and_later (fio : string) (p : page)
    (r : response Verdict) (v : verdict) :
  confirm ("Удалить тред для " +:+ fio +:+ "?") = true ->
  let c := delete_call ("/api/org/threads/" +:+ encodeURIComponent fio)
             (clock_at (reads p)) in
  net_change (sent p) c = Resolved r -> ok r = true -> json r = Returned (Some v) ->
  sent (snd (delete_thread fio p)) = sent p ++ c :: reload_calls (S (reads p))
  /\ timeouts (snd (delete_thread fio p))
     = timeouts p ++ match fst (delete_thread fio p) with
                     | Done _ => [(CbLoadAll, 300)]
                     | Failed _ => []
                     end
  /\ fst (delete_thread fio p)
     = fst (loadAll
              (noted v ("Ошибка: " +:+ String_of (js_or (j_error v) (VStr "unknown")))
                 (called c p))).
Proof.
  intros Hc c Hn Ho Hj. unfold Admin.delete_thread. rewrite Hc. cbn [negb].
  rewrite (change_run report _ _ p _ v _ (jdel_answered _ _ _ _ _ Hn Ho Hj)
             (report_run v)).
  destruct (reload_after v ("Ошибка: " +:+ String_of (js_or (j_error v) (VStr "unknown")))
              c p) as (Hs & _ & Ht).
  unfold abind, setTimeout, amodify.
  destruct (loadAll _) as [[[]|f] q]; cbn [fst snd] in *;
    cbn [sent timeouts set_timeouts]; rewrite Hs, Ht, ?app_nil_r; repeat split; reflexivity.
Qed.

(** X28. The delete of an employee row sets no timer in any case, and
    when it sends anything the first request is the DELETE to the URL
    that ends in the id as the button holds it. *)
Theorem delete_employee_sets_no_timer (uid : string) (p : page) :
  timeouts (snd (delete_employee uid p)) = timeouts p
  /\ (sent (snd (delete_employee uid p)) = sent p
      \/ exists rest : list call,
           sent (snd (delete_employee uid p))
           = sent p ++ delete_call ("/api/org/employees/" +:+ uid) (clock_at (reads p))
                    :: rest).
Proof.
  unfold Admin.delete_employee.
  destruct (confirm _); cbn [negb]; [|split; [reflexivity | left; reflexivity]].
  unfold abind. rewrite jdel_run.
  destruct (answer "DELETE" _ _) as [[v|]|f].
  - rewrite report_employee_run.
    destruct (reload_after v (String_of (js_or (j_error v) (VStr "Ошибка")))
                (delete_call ("/api/org/employees/" +:+ uid) (clock_at (reads p))) p)
      as (Hs & _ & Ht).
    split; [exact Ht | right; eexists; exact Hs].
  - rewrite report_employee_null.
    split; [reflexivity | right; exists []; reflexivity].
  - split; [reflexivity | right; exists []; reflexivity].
Qed.

Lemma unawaited_loadAll (p : page) :
  fst (unawaited loadAll p) = Done tt
  /\ sent (snd (unawaited loadAll p)) = sent p ++ reload_calls (reads p)
  /\ alerts (snd (unawaited loadAll p)) = alerts p
  /\ onclick (snd (unawaited loadAll p)) = onclick p
  /\ buttons (snd (unawaited loadAll p)) = buttons p
  /\ unhandled (snd (unawaited loadAll p))
     = unhandled (snd (loadAll p)) ++ rejections (fst (loadAll p)).
Proof.
  destruct (loadAll_frame p) as (Hs & _ & Ha & _ & Ho & Hb).
  unfold unawaited. destruct (loadAll p) as [[[]|f] q]; cbn [fst snd] in *;
    cbn [sent alerts onclick buttons unhandled set_unhandled rejections];
    rewrite ?app_nil_r; repeat split; assumption.
Qed.

Lemma wire_spec (id : string) (c : click) (p : page) :
  exists q : page,
    wire id c p = (Done tt, q)
    /\ buttons q = buttons p
    /\ (forall x : string,
          onclick q !! x
          = if decide (x = id)
            then if decide (id ∈ buttons p) then Some c else onclick p !! x
            else onclick p !! x)
    /\ sent q = sent p /\ reads q = reads p /\ alerts q = alerts p.
Proof.
  unfold wire, amodify. eexists. split; [reflexivity|].
  destruct (decide (id ∈ buttons p)) as [Hin|Hout].
  - cbn [buttons onclick set_onclick sent reads alerts].
    split; [reflexivity|]. split; [|repeat split; reflexivity].
    intros x. destruct (decide (x = id)) as [->|Hx].
    + apply lookup_insert_eq.
    + apply lookup_insert_ne. congruence.
  - split; [reflexivity|]. split; [|repeat split; reflexivity].
    intros x. destruct (decide (x = id)); reflexivity.
Qed.

(** X29. The listener of DOMContentLoaded never throws.  It gives each
    of the four save buttons that exists its handler and touches the
    handler of no other element; then it starts [loadAll], whose four
    requests leave, and it opens no dialog. *)
Theorem admin_wiring (p : page) (id : string) :
  fst (onDOMContentLoaded p) = Done tt
  /\ onclick (snd (onDOMContentLoaded p)) !! id
     = (if decide (id ∈ buttons p)
        then if decide (id = "e-save") then Some SaveEmployee
             else if decide (id = "g-save") then Some SaveChat
             else if decide (id = "b-save") then Some SaveBrigade
             else if decide (id = "t-save") then Some SaveThread
             else onclick p !! id
        else onclick p !! id)
  /\ sent (snd (onDOMContentLoaded p)) = sent p ++ reload_calls (reads p)
  /\ alerts (snd (onDOMContentLoaded p)) = alerts p.
Proof.
  unfold Admin.onDOMContentLoaded.
  destruct (wire_spec "t-save" SaveThread p) as (q1 & E1 & B1 & L1 & S1 & R1 & A1).
  destruct (wire_spec "b-save" SaveBrigade q1) as (q2 & E2 & B2 & L2 & S2 & R2 & A2).
  destruct (wire_spec "g-save" SaveChat q2) as (q3 & E3 & B3 & L3 & S3 & R3 & A3).
  destruct (wire_spec "e-save" SaveEmployee q3) as (q4 & E4 & B4 & L4 & S4 & R4 & A4).
  rewrite (abind_done _ _ _ _ _ E1), (abind_done _ _ _ _ _ E2),
    (abind_done _ _ _ _ _ E3), (abind_done _ _ _ _ _ E4).
  destruct (unawaited_loadAll q4) as (Hr & Hs & Ha & Ho & _).
  rewrite Hr, Hs, Ha, Ho, S4, S3, S2, S1, R4, R3, R2, R1, A4, A3, A2, A1.
  split; [reflexivity|]. split; [|split; reflexivity].
  rewrite L4, L3, L2, L1, B3, B2, B1.
  repeat case_decide; subst; try reflexivity; try contradiction; try discriminate.
Qed.

End Facts.

(** The handlers on the integer host, with a back end that holds one
    thread, one brigade, the group chat 77 and one employee, and
    answers changes as [nc] says. *)
#[local] Abbreviation on_demo_backend f nc :=
  (f (list (string * Z)) (list (string * string)) (list (string * Z))
     (answered [("Ivanov", 17)]) (answered [("Ivanov", "north")])
     (answered (Some (@VNum IntegerNumbers 77))) (answered [("Petrov", 42)])
     nc demo_drawThreads demo_drawBrigades demo_drawEmployees).

#[local] Abbreviation refuses :=
  (answered (Some {| j_ok := @VBool IntegerNumbers false;
                     j_error := @VStr IntegerNumbers "locked" |})).

Lemma helpers_report_http_errors_witness :
  @jget admin_tables demo_clock (list (string * Z)) (refused 404) "/api/org/threads"
    demo_admin_page
  = (Failed (HttpError "HTTP 404 GET /api/org/threads"),
     called (reload_call "/api/org/threads" (demo_clock 0)) demo_admin_page).
Proof.
  exact (proj1 (@helpers_report_http_errors IntegerNumbers admin_tables demo_clock
                  demo_stringify _ (refused 404) "/api/org/threads" [] demo_admin_page
                  {| ok := false; status := 404; json := Thrown SyntaxError |}
                  eq_refl) eq_refl).
Defined.

Lemma loadAll_all_or_nothing_witness :
  exists f : failure,
    @loadAll IntegerNumbers admin_tables demo_clock demo_race
      (list (string * Z)) (list (string * string)) (list (string * Z))
      (answered [("Ivanov", 17)]) (refused 500) (answered None) (answered [])
      demo_drawThreads demo_drawBrigades demo_drawEmployees demo_admin_page
    = (Failed f, reloading demo_clock demo_admin_page)
    /\ f = HttpError "HTTP 500 GET /api/org/brigades".
Proof.
  destruct (@loadAll_all_or_nothing IntegerNumbers admin_tables demo_clock demo_race
              (list (string * Z)) (list (string * string)) (list (string * Z))
              (answered [("Ivanov", 17)]) (refused 500) (answered None) (answered [])
              demo_drawThreads demo_drawBrigades demo_drawEmployees demo_admin_page)
    as (f & Hrun & Honly & _).
  - discriminate.
  - exists f. split; [exact Hrun | exact (Honly _ eq_refl)].
Defined.

Lemma loadAll_draws_what_it_got_witness :
  let out := @loadAll IntegerNumbers admin_tables demo_clock demo_race
               (list (string * Z)) (list (string * string)) (list (string * Z))
               (answered [("Ivanov", 17)]) (answered [("Ivanov", "north")])
               (answered (Some (@VNum IntegerNumbers 77))) (answered [("Petrov", 42)])
               demo_drawThreads demo_drawBrigades demo_drawEmployees demo_admin_page in
  dom (snd out) = {| t_rows := [("Ivanov", 17)]; b_rows := [("Ivanov", "north")];
                     e_rows := [("Petrov", 42)] |}
  /\ inputs (snd out) !! "g-id" = Some "77".
Proof.
  intros out.
  destruct (@loadAll_draws_what_it_got IntegerNumbers admin_tables demo_clock demo_race
              (list (string * Z)) (list (string * string)) (list (string * Z))
              (answered [("Ivanov", 17)]) (answered [("Ivanov", "north")])
              (answered (Some (@VNum IntegerNumbers 77))) (answered [("Petrov", 42)])
              demo_drawThreads demo_drawBrigades demo_drawEmployees demo_admin_page
              [("Ivanov", 17)] [("Ivanov", "north")] (Some (@VNum IntegerNumbers 77))
              [("Petrov", 42)]
              {| t_rows := [("Ivanov", 17)]; b_rows := []; e_rows := [] |}
              {| t_rows := [("Ivanov", 17)]; b_rows := [("Ivanov", "north")];
                 e_rows := [] |}
              {| t_rows := [("Ivanov", 17)]; b_rows := [("Ivanov", "north")];
                 e_rows := [("Petrov", 42)] |}
              (Done tt)
              eq_refl eq_refl eq_refl eq_refl eq_refl eq_refl eq_refl)
    as (_ & Hd & Hi & _).
  split; [exact Hd|]. unfold out. rewrite Hi. reflexivity.
Defined.

Lemma loadAll_stops_at_failing_draw_witness :
  @loadAll IntegerNumbers admin_tables demo_clock demo_race
    (list (string * Z)) (list (string * string)) (list (string * Z))
    (answered [("Ivanov", 17)]) (answered [("Ivanov", "north")])
    (answered (Some (@VNum IntegerNumbers 77))) (answered [("Petrov", 42)])
    failing_drawThreads demo_drawBrigades demo_drawEmployees demo_admin_page
  = (Failed (Raised (TypeError "document.querySelector(...) is null")),
     set_dom (dom demo_admin_page) (reloading demo_clock demo_admin_page)).
Proof.
  exact (@loadAll_stops_at_failing_draw IntegerNumbers admin_tables demo_clock demo_race
           (list (string * Z)) (list (string * string)) (list (string * Z))
           (answered [("Ivanov", 17)]) (answered [("Ivanov", "north")])
           (answered (Some (@VNum IntegerNumbers 77))) (answered [("Petrov", 42)])
           failing_drawThreads demo_drawBrigades demo_drawEmployees demo_admin_page
           [("Ivanov", 17)] [("Ivanov", "north")] (Some (@VNum IntegerNumbers 77))
           [("Petrov", 42)] (dom demo_admin_page)
           (Raised (TypeError "document.querySelector(...) is null"))
           eq_refl eq_refl eq_refl eq_refl eq_refl).
Defined.

Lemma save_thread_validates_witness :
  on_demo_backend (@save_thread IntegerNumbers admin_tables demo_clock int_Number
                     demo_stringify demo_race) refuses mistyped_admin_page
  = (Done tt,
     set_alerts ["Укажите ФИО и числовой thread_id"] mistyped_admin_page).
Proof.
  exact (on_demo_backend (@save_thread_validates IntegerNumbers admin_tables demo_clock
                            int_Number demo_stringify demo_race) refuses
           mistyped_admin_page " Ivanov " "x17" eq_refl eq_refl eq_refl).
Defined.

Lemma save_employee_validates_witness :
  on_demo_backend (@save_employee IntegerNumbers admin_tables demo_clock int_Number
                     demo_stringify demo_race) refuses demo_admin_page
  = (Done tt,
     set_alerts ["Укажите ФИО и числовой tg_user_id"] demo_admin_page).
Proof.
  exact (on_demo_backend (@save_employee_validates IntegerNumbers admin_tables demo_clock
                            int_Number demo_stringify demo_race) refuses
           demo_admin_page "" "42" eq_refl eq_refl eq_refl).
Defined.

Lemma save_thread_posts_then_reloads_witness :
  let out := on_demo_backend (@save_thread IntegerNumbers admin_tables demo_clock
                                int_Number demo_stringify demo_race) refuses
               demo_admin_page in
  alerts (snd out) = ["Ошибка: locked"]
  /\ c_method <$> sent (snd out) = [Some POST; None; None; None; None].
Proof.
  intros out.
  destruct (on_demo_backend (@save_thread_posts_then_reloads IntegerNumbers admin_tables
                               demo_clock int_Number demo_stringify demo_race) refuses
              demo_admin_page " Ivanov " "17"
              {| ok := true; status := 200;
                 json := Returned (Some {| j_ok := @VBool IntegerNumbers false;
                                           j_error := @VStr IntegerNumbers "locked" |}) |}
              {| j_ok := @VBool IntegerNumbers false;
                 j_error := @VStr IntegerNumbers "locked" |}
              eq_refl eq_refl eq_refl eq_refl eq_refl eq_refl eq_refl)
    as (Hs & Ha).
  split; [exact Ha|]. unfold out. rewrite Hs. reflexivity.
Defined.

Lemma save_thread_unanswered_does_not_reload_witness :
  exists f : failure,
    on_demo_backend (@save_thread IntegerNumbers admin_tables demo_clock int_Number
                       demo_stringify demo_race) (refused 500) demo_admin_page
    = (Failed f,
       called (@post_call IntegerNumbers demo_stringify "/api/org/threads"
                 [("fio", @VStr IntegerNumbers "Ivanov"); ("thread_id", @VNum IntegerNumbers 17)] (demo_clock 0))
              demo_admin_page).
Proof.
  apply (on_demo_backend (@save_thread_unanswered_does_not_reload IntegerNumbers
                            admin_tables demo_clock int_Number demo_stringify demo_race)
           (refused 500) demo_admin_page " Ivanov " "17");
    try reflexivity.
  intros v. discriminate.
Defined.

Lemma save_chat_posts_whatever_is_typed_witness :
  exists rest : list call,
    sent (snd (on_demo_backend (@save_chat IntegerNumbers admin_tables demo_clock
                                  int_Number demo_stringify demo_race) refuses
                 demo_admin_page))
    = @post_call IntegerNumbers demo_stringify "/api/org/group_chat_id"
        [("group_chat_id", @VNum IntegerNumbers 0)] (demo_clock 0) :: rest.
Proof.
  exact (on_demo_backend (@save_chat_posts_whatever_is_typed IntegerNumbers admin_tables
                            demo_clock int_Number demo_stringify demo_race) refuses
           demo_admin_page "" eq_refl).
Defined.

Lemma save_brigade_requires_only_the_name_witness :
  exists rest : list call,
    sent (snd (on_demo_backend (@save_brigade IntegerNumbers admin_tables demo_clock
                                  demo_stringify demo_race) refuses demo_admin_page))
    = @post_call IntegerNumbers demo_stringify "/api/org/brigades"
        [("fio", @VStr IntegerNumbers "Ivanov"); ("name", @VStr IntegerNumbers "")] (demo_clock 0) :: rest.
Proof.
  exact (on_demo_backend (@save_brigade_requires_only_the_name IntegerNumbers
                            admin_tables demo_clock demo_stringify demo_race) refuses
           demo_admin_page "Ivanov" "" eq_refl eq_refl).
Defined.

Lemma delete_thread_reloads_now_and_later_witness :
  let out := on_demo_backend (@delete_thread IntegerNumbers admin_tables demo_clock
                                percent_spaces (fun _ => true) demo_race) refuses
               "Ivan Ivanov" demo_admin_page in
  timeouts (snd out) = [(CbLoadAll, 300)]
  /\ c_url <$> head (sent (snd out))
     = Some "/api/org/threads/Ivan%20Ivanov?t=1700000000000".
Proof.
  intros out.
  destruct (on_demo_backend (@delete_thread_reloads_now_and_later IntegerNumbers
                               admin_tables demo_clock percent_spaces (fun _ => true)
                               demo_race) refuses
              "Ivan Ivanov" demo_admin_page
              {| ok := true; status := 200;
                 json := Returned (Some {| j_ok := @VBool IntegerNumbers false;
                                           j_error := @VStr IntegerNumbers "locked" |}) |}
              {| j_ok := @VBool IntegerNumbers false;
                 j_error := @VStr IntegerNumbers "locked" |}
              eq_refl eq_refl eq_refl eq_refl)
    as (Hs & Ht & _).
  unfold out. rewrite Hs, Ht. split; reflexivity.
Defined.

End AdminFacts.
